(** * Cloud resource monitoring and alerting: alert lifecycle and audit ledger

    A shallow embedding of the backend (models.py, crud.py, alerting.py,
    security_events.py, audit_log.py, monitoring.py) and the properties of
    its alert lifecycle, audit ledger and threshold evaluator.

    Conventions of the embedding:
    - a table is the list of its rows in insertion order;
    - a Python [dict] is an association list in insertion order whose keys
      are pairwise distinct ([dict_wf]);
    - a function that talks to the session, the clock, [uuid.uuid4] or a
      notification channel is a computation in the monad [M], which threads
      the [World] and keeps the world reached when an exception is raised;
    - a Python function that mutates its argument in place and returns it
      (such as [resolve_alert]) returns the mutated record: the caller's
      object after the call is the returned value. *)

From Stdlib Require Import List String Ascii ZArith NArith Bool Arith Lia.
From Stdlib Require Import Permutation Sorted PrimFloat.
From Stdlib Require FloatOps FloatAxioms SpecFloat.
Import ListNotations.
Open Scope string_scope.
Open Scope list_scope.

(** ** Python builtins used by the source *)

Module Py.

(** Insertion-ordered dictionary with string keys. *)
Definition dict (V : Type) : Type := list (string * V).

Definition dict_wf {V} (d : dict V) : Prop := NoDup (map fst d).

(** [d.get(k)] *)
Fixpoint get {V} (d : dict V) (k : string) : option V :=
  match d with
  | [] => None
  | (k', v) :: rest => if String.eqb k' k then Some v else get rest k
  end.

(** [d.items()] *)
Definition items {V} (d : dict V) : list (string * V) := d.

Definition is_lower (c : ascii) : bool :=
  let n := nat_of_ascii c in (97 <=? n)%nat && (n <=? 122)%nat.

Definition is_upper (c : ascii) : bool :=
  let n := nat_of_ascii c in (65 <=? n)%nat && (n <=? 90)%nat.

Definition to_upper (c : ascii) : ascii :=
  if is_lower c then ascii_of_nat (nat_of_ascii c - 32) else c.

Definition to_lower (c : ascii) : ascii :=
  if is_upper c then ascii_of_nat (nat_of_ascii c + 32) else c.

(** [s.upper()], on ASCII letters; other bytes are kept. *)
Fixpoint upper (s : string) : string :=
  match s with
  | EmptyString => EmptyString
  | String c r => String (to_upper c) (upper r)
  end.

(** [s.replace(a, b)] for single characters [a] and [b]. *)
Fixpoint replace (a b : ascii) (s : string) : string :=
  match s with
  | EmptyString => EmptyString
  | String c r => String (if Ascii.eqb c a then b else c) (replace a b r)
  end.

Fixpoint title_from (prev_cased : bool) (s : string) : string :=
  match s with
  | EmptyString => EmptyString
  | String c r =>
      if is_lower c || is_upper c
      then String (if prev_cased then to_lower c else to_upper c)
                  (title_from true r)
      else String c (title_from false r)
  end.

(** [s.title()], on ASCII letters. *)
Definition title (s : string) : string := title_from false s.

(** Truth value of an [Optional[str]]: [None] and [""] are falsy. *)
Definition truthy_str (s : option string) : bool :=
  match s with
  | Some EmptyString => false
  | Some _ => true
  | None => false
  end.

(** [x in xs] for a list of strings. *)
Definition in_list (x : string) (xs : list string) : bool :=
  existsb (String.eqb x) xs.

End Py.

(** ** monitoring.py: the threshold evaluator *)

Module Monitoring.

Section Evaluate.

(** The numeric type of observations and thresholds, with Python's
    [value > threshold]. *)
Variable V : Type.
Variable gt : V -> V -> bool.

Record Breach : Type := mkBreach {
  metric : string;
  value : V;
  threshold : V
}.

(** One iteration of the loop of [evaluate_metrics]. *)
Definition evaluate_step (thresholds : Py.dict V)
           (breaches : list Breach) (item : string * option V)
  : list Breach :=
  let '(metric, value) := item in
  let threshold := Py.get thresholds metric in
  match threshold, value with
  | Some threshold, Some value =>
      if gt value threshold
      then breaches ++ [mkBreach metric value threshold]
      else breaches
  | _, _ => breaches
  end.

Definition evaluate_metrics (metrics : Py.dict (option V))
           (thresholds : Py.dict V) : list Breach :=
  fold_left (evaluate_step thresholds) (Py.items metrics) [].

(** The breach of one item, if any: what the loop body appends. *)
Definition breach_of (thresholds : Py.dict V) (item : string * option V)
  : list Breach :=
  evaluate_step thresholds [] item.

End Evaluate.

Arguments mkBreach {V} _ _ _.
Arguments metric {V} _.
Arguments value {V} _.
Arguments threshold {V} _.
Arguments evaluate_step {V} _ _ _ _.
Arguments evaluate_metrics {V} _ _ _.
Arguments breach_of {V} _ _ _.

(** [value > threshold] on Python floats. *)
Definition float_gt (value threshold : float) : bool :=
  PrimFloat.ltb threshold value.

Definition SUPPORTED_METRICS : list string :=
  ["CPUUtilization"; "MemoryUtilization"; "NetworkIn"; "NetworkOut";
   "DiskReadBytes"; "DiskWriteBytes"].

(** The source writes the byte thresholds as the integer 1000000000, which
    Python compares with a float by its exact value; it is that float. *)
Definition DEFAULT_THRESHOLDS : Py.dict float :=
  [("CPUUtilization", 80.0%float);
   ("MemoryUtilization", 80.0%float);
   ("NetworkIn", 1000000000%float);
   ("NetworkOut", 1000000000%float);
   ("DiskReadBytes", 1000000000%float);
   ("DiskWriteBytes", 1000000000%float)].

End Monitoring.

(** ** models.py: the data model *)

Definition UUID : Type := N.
Definition datetime : Type := Z.
Bind Scope N_scope with UUID.
Bind Scope Z_scope with datetime.

(** The values of a Python dictionary that is assigned to a JSON column.
    [JDatetime] is a Python [datetime]: the program can put one in such a
    dictionary, and the column's serialiser refuses it when the row is
    written (see [json_dumps_ok] and [flush_one]). *)
#[warnings="-register-all"] Inductive json : Type :=
| JNone
| JBool (b : bool)
| JInt (z : Z)
| JStr (s : string)
| JDatetime (t : datetime)
| JList (l : list json)
| JDict (d : list (string * json)).

Inductive AlertStatus : Type := ACTIVE | RESOLVED | ACKNOWLEDGED.
Inductive AlertType : Type := RESOURCE | SECURITY | MISCONFIGURATION.
(** [IncidentStatus.RESOLVED] is [INCIDENT_RESOLVED] here, to keep it apart
    from [AlertStatus.RESOLVED]. *)
Inductive IncidentStatus : Type :=
  OPEN | IN_PROGRESS | INCIDENT_RESOLVED | CLOSED.

Definition AlertStatus_eqb (a b : AlertStatus) : bool :=
  match a, b with
  | ACTIVE, ACTIVE | RESOLVED, RESOLVED | ACKNOWLEDGED, ACKNOWLEDGED => true
  | _, _ => false
  end.

(** The [value] of each member of the string enumerations. *)
Definition AlertStatus_value (s : AlertStatus) : string :=
  match s with
  | ACTIVE => "active"
  | RESOLVED => "resolved"
  | ACKNOWLEDGED => "acknowledged"
  end.

Definition AlertType_value (t : AlertType) : string :=
  match t with
  | RESOURCE => "resource"
  | SECURITY => "security"
  | MISCONFIGURATION => "misconfiguration"
  end.

Module Product.
Record t : Type := mk {
  id : UUID;
  name : string;
  description : option string;
  created_at : datetime;
  updated_at : datetime
}.
End Product.

Module Resource.
Record t : Type := mk {
  id : UUID;
  product_id : UUID;
  name : string;
  cloud_id : string;
  cloud_provider : string;
  resource_type : string;
  metadata : option (Py.dict json);
  monitoring_enabled : bool;
  created_at : datetime;
  updated_at : datetime
}.
End Resource.

Module Alert.
Record t : Type := mk {
  id : UUID;
  resource_id : option UUID;
  type : AlertType;
  status : AlertStatus;
  title : string;
  description : option string;
  triggered_at : datetime;
  resolved_at : option datetime;
  severity : string;
  details : option (Py.dict json);
  incident_id : option UUID
}.

(** [alert.status = s] *)
Definition set_status (a : t) (s : AlertStatus) : t :=
  mk (id a) (resource_id a) (type a) s (title a) (description a)
     (triggered_at a) (resolved_at a) (severity a) (details a)
     (incident_id a).

(** [alert.resolved_at = r] *)
Definition set_resolved_at (a : t) (r : option datetime) : t :=
  mk (id a) (resource_id a) (type a) (status a) (title a) (description a)
     (triggered_at a) r (severity a) (details a) (incident_id a).
End Alert.

Module Incident.
Record t : Type := mk {
  id : UUID;
  resource_id : option UUID;
  status : IncidentStatus;
  title : string;
  description : option string;
  opened_at : datetime;
  closed_at : option datetime;
  created_by : option string
}.
End Incident.

Module AuditLog.
Record t : Type := mk {
  id : UUID;
  incident_id : option UUID;
  alert_id : option UUID;
  event_type : string;
  event_time : datetime;
  actor : option string;
  details : option (Py.dict json)
}.

(** The effect of [ON DELETE SET NULL] on the [alert_id] column. *)
Definition set_alert_id (l : t) (a : option UUID) : t :=
  mk (id l) (incident_id l) a (event_type l) (event_time l) (actor l)
     (details l).
End AuditLog.

(** The committed content of the database, one list of rows per table. *)
Record Store : Type := mkStore {
  products : list Product.t;
  resources : list Resource.t;
  alerts : list Alert.t;
  incidents : list Incident.t;
  audit_logs : list AuditLog.t
}.

Definition empty_store : Store := mkStore [] [] [] [] [].

(** ** The session and the world around the program *)

(** The unit of work of a session: what [db.add], an attribute assignment
    on a persistent object, and [db.delete] leave to be flushed by the next
    [db.commit()]. *)
Inductive pending : Type :=
| Add_Product (p : Product.t)
| Add_Alert (a : Alert.t)
| Add_AuditLog (l : AuditLog.t)
| Dirty_Product (p : Product.t)
| Dirty_Alert (a : Alert.t)
| Delete_Product (p : Product.t).

(** An infinite supply of answers from the environment. *)
Definition stream (A : Type) : Type := nat -> A.
Definition shd {A} (s : stream A) : A := s O.
Definition stl {A} (s : stream A) : stream A := fun k => s (S k).

(** How the interpreter renders the values interpolated in the body of a
    notification; these belong to the Python runtime and its libraries. *)
Record Runtime : Type := mkRuntime {
  str_AlertType : AlertType -> string;
  str_UUID : option UUID -> string;
  str_datetime : datetime -> string;
  str_details : option (Py.dict json) -> string
}.

Record World : Type := mkWorld {
  db : Store;
  session : list pending;
  (** successive readings of [datetime.utcnow()] *)
  clock : stream datetime;
  (** successive results of [uuid.uuid4()] *)
  uuid4 : stream UUID;
  (** whether each successive round trip to the database fails *)
  faults : stream bool;
  (** whether each successive SMTP exchange goes through, given the
      subject and the body *)
  smtp : stream (string -> string -> bool);
  (** the outcome of each successive webhook POST, given the message:
      the HTTP status code, or [None] when [requests.post] raises *)
  webhook : stream (string -> option nat);
  (** the environment variable of that name *)
  SLACK_WEBHOOK_URL : string;
  runtime : Runtime
}.

Definition with_db (w : World) (d : Store) : World :=
  mkWorld d (session w) (clock w) (uuid4 w) (faults w) (smtp w) (webhook w)
          (SLACK_WEBHOOK_URL w) (runtime w).

Definition with_session (w : World) (s : list pending) : World :=
  mkWorld (db w) s (clock w) (uuid4 w) (faults w) (smtp w) (webhook w)
          (SLACK_WEBHOOK_URL w) (runtime w).

Definition with_clock (w : World) (c : stream datetime) : World :=
  mkWorld (db w) (session w) c (uuid4 w) (faults w) (smtp w) (webhook w)
          (SLACK_WEBHOOK_URL w) (runtime w).

Definition with_uuid4 (w : World) (u : stream UUID) : World :=
  mkWorld (db w) (session w) (clock w) u (faults w) (smtp w) (webhook w)
          (SLACK_WEBHOOK_URL w) (runtime w).

Definition with_faults (w : World) (f : stream bool) : World :=
  mkWorld (db w) (session w) (clock w) (uuid4 w) f (smtp w) (webhook w)
          (SLACK_WEBHOOK_URL w) (runtime w).

Definition with_smtp (w : World) (s : stream (string -> string -> bool))
  : World :=
  mkWorld (db w) (session w) (clock w) (uuid4 w) (faults w) s (webhook w)
          (SLACK_WEBHOOK_URL w) (runtime w).

Definition with_webhook (w : World) (h : stream (string -> option nat))
  : World :=
  mkWorld (db w) (session w) (clock w) (uuid4 w) (faults w) (smtp w) h
          (SLACK_WEBHOOK_URL w) (runtime w).

(** ** Exceptions and the monad of computations *)

Inductive exn : Type :=
| HTTPException (status_code : nat) (detail : string)
| SQLAlchemyError.

Inductive result (A : Type) : Type :=
| Ok (a : A)
| Raise (e : exn).
Arguments Ok {A} _.
Arguments Raise {A} _.

Definition M (A : Type) : Type := World -> result A * World.

Definition ret {A} (a : A) : M A := fun w => (Ok a, w).

Definition raise {A} (e : exn) : M A := fun w => (Raise e, w).

Definition bind {A B} (m : M A) (k : A -> M B) : M B :=
  fun w =>
    match m w with
    | (Ok a, w') => k a w'
    | (Raise e, w') => (Raise e, w')
    end.

Declare Scope py_scope.
Delimit Scope py_scope with py.
Notation "x <- m ;; k" := (bind m (fun x => k))
  (at level 61, m at next level, right associativity) : py_scope.
Notation "m ;; k" := (bind m (fun _ => k))
  (at level 61, right associativity) : py_scope.
Open Scope py_scope.

(** [datetime.utcnow()] *)
Definition utcnow : M datetime :=
  fun w => (Ok (shd (clock w)), with_clock w (stl (clock w))).

(** [uuid.uuid4()], the default of every [id] column. *)
Definition new_uuid : M UUID :=
  fun w => (Ok (shd (uuid4 w)), with_uuid4 w (stl (uuid4 w))).

(** One round trip to the database: it goes through, or the driver raises. *)
Definition round_trip : M unit :=
  fun w =>
    let w' := with_faults w (stl (faults w)) in
    if shd (faults w) then (Raise SQLAlchemyError, w') else (Ok tt, w').

Definition get_store : M Store := fun w => (Ok (db w), w).

Definition get_runtime : M Runtime := fun w => (Ok (runtime w), w).

(** ** The session: unit of work, flush, commit, refresh and queries

    What the model takes from SQLAlchemy and the database, as models.py
    declares them: every explicit call on the session that reaches the
    database ([query(...).first()], [.all()], [commit()], [refresh()]) is a
    round trip that may raise; [commit()] flushes the unit of work as one
    transaction; primary keys and the unique product name are enforced on
    INSERT and UPDATE; [db.delete] follows the declared cascades. Foreign
    keys are not checked on INSERT and the reload of attributes expired by
    a commit is not a round trip of its own. The engine of models.py is
    created without a [json_serializer], so the [details] of an audit
    entry go through [json.dumps] when the entry is inserted, which raises
    on a [datetime]; and the entry's [event_type] and [actor] are
    [String(64)] columns, which the database refuses to overflow. Both
    failures reach the program as a [SQLAlchemyError] out of
    [db.commit()]. *)

(** [json.dumps(v)] returns: [v] holds no [datetime]. *)
Fixpoint json_dumps_ok (v : json) : bool :=
  match v with
  | JNone | JBool _ | JInt _ | JStr _ => true
  | JDatetime _ => false
  | JList l => forallb json_dumps_ok l
  | JDict d => forallb (fun item => let '(_, x) := item in json_dumps_ok x) d
  end.

(** The same for the dictionary bound to a JSON column; [None] is NULL. *)
Definition details_ok (details : option (Py.dict json)) : bool :=
  match details with
  | Some d => json_dumps_ok (JDict d)
  | None => true
  end.

(** A value fits a [String(n)] column; a character is a byte here. *)
Definition fits (n : nat) (s : string) : bool := (String.length s <=? n)%nat.

Definition fits_opt (n : nat) (s : option string) : bool :=
  match s with
  | Some s => fits n s
  | None => true
  end.

(** What the INSERT of an audit entry needs of its columns. *)
Definition audit_row_ok (l : AuditLog.t) : bool :=
  fits 64 (AuditLog.event_type l)
  && fits_opt 64 (AuditLog.actor l)
  && details_ok (AuditLog.details l).

Definition uuid_in (x : UUID) (xs : list UUID) : bool := existsb (N.eqb x) xs.

(** [col IN xs] in SQL: a NULL column matches nothing. *)
Definition col_in (x : option UUID) (xs : list UUID) : bool :=
  match x with
  | Some u => uuid_in u xs
  | None => false
  end.

(** [col == v] in SQL: a NULL column matches nothing. *)
Definition col_eq (x : option UUID) (v : UUID) : bool :=
  match x with
  | Some u => N.eqb u v
  | None => false
  end.

Definition option_string_eqb (a b : option string) : bool :=
  match a, b with
  | Some x, Some y => String.eqb x y
  | None, None => true
  | _, _ => false
  end.

(** Rows that [db.delete(product)] removes, by the relationships declared
    with [cascade="all, delete-orphan"]: [Product.resources], then
    [Resource.alerts] and [Resource.incidents], then [Incident.alerts] and
    [Incident.audit_logs]. An audit entry that survives and points to a
    removed alert has its [alert_id] cleared ([ondelete="SET NULL"]). *)
Definition cascade_delete_product (p : Product.t) (d : Store) : Store :=
  let of_product r := N.eqb (Resource.product_id r) (Product.id p) in
  let rids := map Resource.id (filter of_product (resources d)) in
  let of_resource i := col_in (Incident.resource_id i) rids in
  let iids := map Incident.id (filter of_resource (incidents d)) in
  let of_either a :=
    col_in (Alert.resource_id a) rids || col_in (Alert.incident_id a) iids in
  let aids := map Alert.id (filter of_either (alerts d)) in
  let of_incident l := col_in (AuditLog.incident_id l) iids in
  mkStore
    (filter (fun q => negb (N.eqb (Product.id q) (Product.id p)))
            (products d))
    (filter (fun r => negb (of_product r)) (resources d))
    (filter (fun a => negb (of_either a)) (alerts d))
    (filter (fun i => negb (of_resource i)) (incidents d))
    (map (fun l => if col_in (AuditLog.alert_id l) aids
                   then AuditLog.set_alert_id l None else l)
         (filter (fun l => negb (of_incident l)) (audit_logs d))).

(** UPDATE of the row with the primary key of [a]. *)
Definition update_alert (a : Alert.t) (rows : list Alert.t) : list Alert.t :=
  map (fun r => if N.eqb (Alert.id r) (Alert.id a) then a else r) rows.

Definition update_product_row (p : Product.t) (rows : list Product.t)
  : list Product.t :=
  map (fun r => if N.eqb (Product.id r) (Product.id p) then p else r) rows.

(** The statement one pending change flushes to; [None] when it fails: the
    database rejects it (primary key, unique constraint or, for an audit
    entry, the length of a string column), or the details of an audit entry
    cannot be serialised. *)
Definition flush_one (d : Store) (c : pending) : option Store :=
  match c with
  | Add_Product p =>
      if uuid_in (Product.id p) (map Product.id (products d))
         || Py.in_list (Product.name p) (map Product.name (products d))
      then None
      else Some (mkStore (products d ++ [p]) (resources d) (alerts d)
                         (incidents d) (audit_logs d))
  | Add_Alert a =>
      if uuid_in (Alert.id a) (map Alert.id (alerts d)) then None
      else Some (mkStore (products d) (resources d) (alerts d ++ [a])
                         (incidents d) (audit_logs d))
  | Add_AuditLog l =>
      if uuid_in (AuditLog.id l) (map AuditLog.id (audit_logs d))
         || negb (audit_row_ok l)
      then None
      else Some (mkStore (products d) (resources d) (alerts d)
                         (incidents d) (audit_logs d ++ [l]))
  | Dirty_Product p =>
      if existsb (fun q => String.eqb (Product.name q) (Product.name p)
                           && negb (N.eqb (Product.id q) (Product.id p)))
                 (products d)
      then None
      else Some (mkStore (update_product_row p (products d)) (resources d)
                         (alerts d) (incidents d) (audit_logs d))
  | Dirty_Alert a =>
      Some (mkStore (products d) (resources d) (update_alert a (alerts d))
                    (incidents d) (audit_logs d))
  | Delete_Product p => Some (cascade_delete_product p d)
  end.

Fixpoint flush (cs : list pending) (d : Store) : option Store :=
  match cs with
  | [] => Some d
  | c :: rest =>
      match flush_one d c with
      | Some d' => flush rest d'
      | None => None
      end
  end.

(** [db.add(obj)], [db.delete(obj)], and the bookkeeping the ORM does when
    an attribute of a persistent object is assigned. *)
Definition db_register (c : pending) : M unit :=
  fun w => (Ok tt, with_session w (session w ++ [c])).

(** [db.commit()]: the unit of work is flushed and committed as one
    transaction; when it fails nothing of it reaches the store. *)
Definition db_commit : M unit :=
  round_trip ;;
  fun w =>
    match flush (session w) (db w) with
    | Some d => (Ok tt, with_session (with_db w d) [])
    | None => (Raise SQLAlchemyError, w)
    end.

(** [db.query(T).filter(p).first()] *)
Definition query_first {A} (table : Store -> list A) (p : A -> bool)
  : M (option A) :=
  round_trip ;;
  d <- get_store ;;
  ret (find p (table d)).

(** [db.refresh(obj)]: the attributes are loaded again from the row with
    the primary key of the object. *)
Definition db_refresh {A} (table : Store -> list A) (id : A -> UUID) (obj : A)
  : M A :=
  row <- query_first table (fun r => N.eqb (id r) (id obj)) ;;
  match row with
  | Some r => ret r
  | None => raise SQLAlchemyError
  end.

Section OrderBy.
Variable A : Type.
Variable key : A -> datetime.

(** [ORDER BY key DESC]. The queries of the program name no second key,
    and the database may return rows of equal key in any order, which can
    differ from one query to the next; here they stay in table order.
    What is stated of a page either holds for every order of such rows, or
    is stated of a table whose keys are pairwise distinct, where the order
    is the only one there is. *)
Fixpoint insert_desc (x : A) (l : list A) : list A :=
  match l with
  | [] => [x]
  | y :: r => if (key y <=? key x)%Z then x :: y :: r
              else y :: insert_desc x r
  end.

Fixpoint order_by_desc (l : list A) : list A :=
  match l with
  | [] => []
  | x :: r => insert_desc x (order_by_desc r)
  end.
End OrderBy.
Arguments insert_desc {A} _ _ _.
Arguments order_by_desc {A} _ _.

(** [query.order_by(key.desc()).offset(skip).limit(limit).all()] *)
Definition query_page {A} (table : Store -> list A) (p : A -> bool)
           (key : A -> datetime) (skip limit : nat) : M (list A) :=
  round_trip ;;
  d <- get_store ;;
  ret (firstn limit (skipn skip (order_by_desc key (filter p (table d))))).

(** A request-scoped session ([get_db]): opened empty, closed on every exit
    path, which discards whatever was not committed. *)
Definition get_db {A} (body : M A) : M A :=
  fun w =>
    let (r, w') := body (with_session w []) in
    (r, with_session w' []).

Definition HTTP_400_BAD_REQUEST : nat := 400.
Definition HTTP_404_NOT_FOUND : nat := 404.
Definition HTTP_409_CONFLICT : nat := 409.
Definition HTTP_500_INTERNAL_SERVER_ERROR : nat := 500.

(** ** crud.py *)

Module Crud.

Definition get_product (product_id : UUID) : M Product.t :=
  product <- query_first products
               (fun q => N.eqb (Product.id q) product_id) ;;
  match product with
  | None => raise (HTTPException HTTP_404_NOT_FOUND "Product not found.")
  | Some product => ret product
  end.

Definition create_product (name : string) (description : option string)
  : M Product.t :=
  existing <- query_first products
                (fun q => String.eqb (Product.name q) name) ;;
  match existing with
  | Some _ =>
      raise (HTTPException HTTP_409_CONFLICT
               "Product with this name already exists.")
  | None =>
      id <- new_uuid ;;
      created_at <- utcnow ;;
      updated_at <- utcnow ;;
      let product :=
        Product.mk id name description created_at updated_at in
      db_register (Add_Product product) ;;
      db_commit ;;
      product <- db_refresh products Product.id product ;;
      ret product
  end.

Definition get_products (skip limit : nat) : M (list Product.t) :=
  query_page products (fun _ => true) Product.created_at skip limit.

Definition update_product (product_id : UUID) (name : option string)
           (description : option string) : M Product.t :=
  product <- get_product product_id ;;
  renamed <-
    (if Py.truthy_str name
     then
       let name := match name with Some n => n | None => "" end in
       existing <- query_first products
                     (fun q => String.eqb (Product.name q) name
                               && negb (N.eqb (Product.id q) product_id)) ;;
       match existing with
       | Some _ =>
           raise (HTTPException HTTP_409_CONFLICT
                    "Another product with this name already exists.")
       | None =>
           ret (Product.mk (Product.id product) name
                  (Product.description product)
                  (Product.created_at product) (Product.updated_at product))
       end
     else ret product) ;;
  let described :=
    match description with
    | Some _ =>
        Product.mk (Product.id renamed) (Product.name renamed) description
          (Product.created_at renamed) (Product.updated_at renamed)
    | None => renamed
    end in
  (** an UPDATE is emitted, and [onupdate] evaluated, on a net change *)
  (if String.eqb (Product.name described) (Product.name product)
      && option_string_eqb (Product.description described)
                           (Product.description product)
   then ret tt
   else
     updated_at <- utcnow ;;
     db_register
       (Dirty_Product
          (Product.mk (Product.id described) (Product.name described)
             (Product.description described)
             (Product.created_at described) updated_at))) ;;
  db_commit ;;
  product <- db_refresh products Product.id described ;;
  ret product.

Definition delete_product (product_id : UUID) : M unit :=
  product <- get_product product_id ;;
  db_register (Delete_Product product) ;;
  db_commit.

Definition get_resource (resource_id : UUID) : M Resource.t :=
  resource <- query_first resources
                (fun r => N.eqb (Resource.id r) resource_id) ;;
  match resource with
  | None => raise (HTTPException HTTP_404_NOT_FOUND "Resource not found.")
  | Some resource => ret resource
  end.

Definition get_resources (skip limit : nat) : M (list Resource.t) :=
  query_page resources (fun _ => true) Resource.created_at skip limit.

Definition get_alert (alert_id : UUID) : M Alert.t :=
  alert <- query_first alerts (fun a => N.eqb (Alert.id a) alert_id) ;;
  match alert with
  | None => raise (HTTPException HTTP_404_NOT_FOUND "Alert not found.")
  | Some alert => ret alert
  end.

Definition get_alerts (skip limit : nat) : M (list Alert.t) :=
  query_page alerts (fun _ => true) Alert.triggered_at skip limit.

Definition get_incident (incident_id : UUID) : M Incident.t :=
  incident <- query_first incidents
                (fun i => N.eqb (Incident.id i) incident_id) ;;
  match incident with
  | None => raise (HTTPException HTTP_404_NOT_FOUND "Incident not found.")
  | Some incident => ret incident
  end.

Definition get_incidents (skip limit : nat) : M (list Incident.t) :=
  query_page incidents (fun _ => true) Incident.opened_at skip limit.

End Crud.

(** ** alerting.py *)

Module Alerting.

Definition nl : string := String (ascii_of_nat 10) EmptyString.

(** [str(x)] for an [Optional[str]] interpolated in an f-string. *)
Definition str_opt (s : option string) : string :=
  match s with
  | Some s => s
  | None => "None"
  end.

(** [details or {}] *)
Definition or_empty (details : option (Py.dict json)) : Py.dict json :=
  match details with
  | Some (item :: rest) => item :: rest
  | Some [] => []
  | None => []
  end.

(** The SMTP exchange of [send_email_alert] sits in a [try] whose
    handler returns [False]: the channel answers with a boolean. *)
Definition send_email_alert (subject body : string) : M bool :=
  fun w => (Ok (shd (smtp w) subject body), with_smtp w (stl (smtp w))).

Definition send_slack_alert (message : string) : M bool :=
  fun w =>
    if String.eqb (SLACK_WEBHOOK_URL w) "" then (Ok false, w)
    else
      let w' := with_webhook w (stl (webhook w)) in
      match shd (webhook w) message with
      | Some status_code => (Ok (Nat.eqb status_code 200), w')
      | None => (Ok false, w')
      end.

Definition log_alert_event (alert : Alert.t) (event_type : string)
           (actor : option string) (details : option (Py.dict json))
           (incident : option Incident.t) : M AuditLog.t :=
  event_time <- utcnow ;;
  id <- new_uuid ;;
  let audit_log :=
    AuditLog.mk id
      (match incident with
       | Some incident => Some (Incident.id incident)
       | None => Alert.incident_id alert
       end)
      (Some (Alert.id alert))
      event_type
      event_time
      actor
      (Some (or_empty details)) in
  db_register (Add_AuditLog audit_log) ;;
  db_commit ;;
  audit_log <- db_refresh audit_logs AuditLog.id audit_log ;;
  ret audit_log.

Definition alert_subject (alert : Alert.t) : string :=
  ("[" ++ Py.upper (Alert.severity alert) ++ "] Alert: "
       ++ Alert.title alert)%string.

Definition alert_body (rt : Runtime) (alert : Alert.t) : string :=
  (nl ++ "    Alert Type: " ++ str_AlertType rt (Alert.type alert)
   ++ nl ++ "    Resource ID: " ++ str_UUID rt (Alert.resource_id alert)
   ++ nl ++ "    Triggered At: "
         ++ str_datetime rt (Alert.triggered_at alert)
   ++ nl ++ "    Severity: " ++ Alert.severity alert
   ++ nl ++ "    Description: " ++ str_opt (Alert.description alert)
   ++ nl ++ "    Details: " ++ str_details rt (Alert.details alert)
   ++ nl ++ "    ")%string.

Definition alert_slack_message (subject body : string) : string :=
  ("*" ++ subject ++ "*" ++ nl ++ body)%string.

Definition deliver_alert (alert : Alert.t) (incident : option Incident.t)
  : M bool :=
  rt <- get_runtime ;;
  let subject := alert_subject alert in
  let body := alert_body rt alert in
  let slack_message := alert_slack_message subject body in
  email_sent <- send_email_alert subject body ;;
  slack_sent <- send_slack_alert slack_message ;;
  log_alert_event alert "alert_generated" (Some "system")
    (Some [("email_sent", JBool email_sent);
           ("slack_sent", JBool slack_sent)])
    incident ;;
  ret (email_sent || slack_sent).

Definition json_of_datetime (t : option datetime) : json :=
  match t with
  | Some t => JDatetime t
  | None => JNone
  end.

Definition resolve_alert (alert : Alert.t) (actor : option string)
  : M Alert.t :=
  if AlertStatus_eqb (Alert.status alert) RESOLVED then ret alert
  else
    let alert := Alert.set_status alert RESOLVED in
    now <- utcnow ;;
    let alert := Alert.set_resolved_at alert (Some now) in
    (** the session has recorded the two assignments *)
    db_register (Dirty_Alert alert) ;;
    db_commit ;;
    alert <- db_refresh alerts Alert.id alert ;;
    log_alert_event alert "alert_resolved" actor
      (Some [("resolved_at", json_of_datetime (Alert.resolved_at alert))])
      None ;;
    ret alert.

Definition deliver_alert_endpoint (alert_id : UUID) : M string :=
  get_db (
    alert <- Crud.get_alert alert_id ;;
    incident <-
      match Alert.incident_id alert with
      | Some incident_id =>
          incident <- Crud.get_incident incident_id ;;
          ret (Some incident)
      | None => ret None
      end ;;
    success <- deliver_alert alert incident ;;
    if negb success
    then raise (HTTPException HTTP_500_INTERNAL_SERVER_ERROR
                  "Failed to deliver alert via any channel.")
    else ret "Alert delivered successfully.").

Definition resolve_alert_endpoint (alert_id : UUID) (actor : option string)
  : M Alert.t :=
  get_db (
    alert <- Crud.get_alert alert_id ;;
    resolved_alert <- resolve_alert alert actor ;;
    ret resolved_alert).

Definition list_alerts (skip limit : nat) : M (list Alert.t) :=
  get_db (Crud.get_alerts skip limit).

Definition get_alert_endpoint (alert_id : UUID) : M Alert.t :=
  get_db (Crud.get_alert alert_id).

End Alerting.

(** ** security_events.py *)

Module SecurityEvents.

Definition SECURITY_EVENT_TYPES : list string :=
  ["unauthorized_access";
   "configuration_change";
   "policy_violation";
   "privilege_escalation";
   "resource_exposure"].

(** [actor or "system"] *)
Definition or_system (actor : option string) : string :=
  match actor with
  | Some a => if Py.truthy_str actor then a else "system"
  | None => "system"
  end.

Definition detect_security_event (resource_id : UUID)
           (event_type : string) (actor : option string)
           (details : option (Py.dict json)) : M Alert.t :=
  if negb (Py.in_list event_type SECURITY_EVENT_TYPES)
  then raise (HTTPException HTTP_400_BAD_REQUEST
                ("Unsupported security event type: " ++ event_type)%string)
  else
    resource <- Crud.get_resource resource_id ;;
    triggered_at <- utcnow ;;
    id <- new_uuid ;;
    let alert :=
      Alert.mk id
        (Some (Resource.id resource))
        SECURITY
        ACTIVE
        ("Security Event: "
           ++ Py.title (Py.replace "_" " " event_type))%string
        (Some ("Detected security event '" ++ event_type
                 ++ "' on resource '" ++ Resource.name resource
                 ++ "'")%string)
        triggered_at
        None
        (if Py.in_list event_type
              ["unauthorized_access"; "privilege_escalation";
               "resource_exposure"]
         then "critical" else "warning")
        (Some (Alerting.or_empty details))
        None in
    db_register (Add_Alert alert) ;;
    db_commit ;;
    alert <- db_refresh alerts Alert.id alert ;;
    Alerting.deliver_alert alert None ;;
    Alerting.log_alert_event alert "security_event_detected"
      (Some (or_system actor)) (Some (Alerting.or_empty details)) None ;;
    ret alert.

Definition detect_security_event_endpoint (resource_id : UUID)
           (event_type : string) (actor : option string)
           (details : option (Py.dict json)) : M Alert.t :=
  get_db (detect_security_event resource_id event_type actor details).

End SecurityEvents.

(** ** audit_log.py *)

Module AuditLogs.

Definition get_audit_log (audit_log_id : UUID) : M AuditLog.t :=
  audit_log <- query_first audit_logs
                 (fun l => N.eqb (AuditLog.id l) audit_log_id) ;;
  match audit_log with
  | None =>
      raise (HTTPException HTTP_404_NOT_FOUND "Audit log entry not found.")
  | Some audit_log => ret audit_log
  end.

(** The conjunction of the filters that [get_audit_logs] puts on the
    query: every [UUID] is truthy, so a filter is added exactly when its
    argument is not [None]. *)
Definition audit_filter (incident_id alert_id : option UUID)
           (l : AuditLog.t) : bool :=
  match incident_id with
  | Some i => col_eq (AuditLog.incident_id l) i
  | None => true
  end
  &&
  match alert_id with
  | Some a => col_eq (AuditLog.alert_id l) a
  | None => true
  end.

Definition get_audit_logs (incident_id alert_id : option UUID)
           (skip limit : nat) : M (list AuditLog.t) :=
  query_page audit_logs (audit_filter incident_id alert_id)
             AuditLog.event_time skip limit.

(** The defaults of [skip] and [limit]. *)
Definition default_skip : nat := 0.
Definition default_limit : nat := 100.

Definition list_audit_logs (incident_id alert_id : option UUID)
           (skip limit : nat) : M (list AuditLog.t) :=
  get_db (get_audit_logs incident_id alert_id skip limit).

Definition get_audit_log_endpoint (audit_log_id : UUID) : M AuditLog.t :=
  get_db (get_audit_log audit_log_id).

End AuditLogs.

(** ** main.py: the requests the application serves *)

Module Main.

Inductive request : Type :=
| POST_products (name : string) (description : option string)
| GET_products (skip limit : nat)
| GET_product (product_id : UUID)
| PUT_product (product_id : UUID) (name description : option string)
| DELETE_product (product_id : UUID)
| GET_resources (skip limit : nat)
| GET_resource (resource_id : UUID)
| GET_alerts (skip limit : nat)
| GET_alert (alert_id : UUID)
| GET_incidents (skip limit : nat)
| GET_incident (incident_id : UUID)
| POST_alert_deliver (alert_id : UUID)
| POST_alert_resolve (alert_id : UUID) (actor : option string)
| POST_security_event (resource_id : UUID) (event_type : string)
    (actor : option string) (details : option (Py.dict json))
| GET_audit_logs (incident_id alert_id : option UUID) (skip limit : nat)
| GET_audit_log (audit_log_id : UUID).

Inductive response : Type :=
| A_product (p : Product.t)
| A_products (ps : list Product.t)
| A_resource (r : Resource.t)
| A_resources (rs : list Resource.t)
| A_alert (a : Alert.t)
| A_alerts (l : list Alert.t)
| A_incident (i : Incident.t)
| A_incidents (l : list Incident.t)
| A_audit_log (l : AuditLog.t)
| A_audit_logs (l : list AuditLog.t)
| A_detail (s : string)
| A_no_content.

Definition fmap {A B} (f : A -> B) (m : M A) : M B :=
  x <- m ;; ret (f x).

Definition handle (r : request) : M response :=
  match r with
  | POST_products name description =>
      fmap A_product (get_db (Crud.create_product name description))
  | GET_products skip limit =>
      fmap A_products (get_db (Crud.get_products skip limit))
  | GET_product product_id =>
      fmap A_product (get_db (Crud.get_product product_id))
  | PUT_product product_id name description =>
      fmap A_product
           (get_db (Crud.update_product product_id name description))
  | DELETE_product product_id =>
      fmap (fun _ => A_no_content) (get_db (Crud.delete_product product_id))
  | GET_resources skip limit =>
      fmap A_resources (get_db (Crud.get_resources skip limit))
  | GET_resource resource_id =>
      fmap A_resource (get_db (Crud.get_resource resource_id))
  | GET_alerts skip limit =>
      fmap A_alerts (get_db (Crud.get_alerts skip limit))
  | GET_alert alert_id =>
      fmap A_alert (get_db (Crud.get_alert alert_id))
  | GET_incidents skip limit =>
      fmap A_incidents (get_db (Crud.get_incidents skip limit))
  | GET_incident incident_id =>
      fmap A_incident (get_db (Crud.get_incident incident_id))
  | POST_alert_deliver alert_id =>
      fmap A_detail (Alerting.deliver_alert_endpoint alert_id)
  | POST_alert_resolve alert_id actor =>
      fmap A_alert (Alerting.resolve_alert_endpoint alert_id actor)
  | POST_security_event resource_id event_type actor details =>
      fmap A_alert
           (SecurityEvents.detect_security_event_endpoint
              resource_id event_type actor details)
  | GET_audit_logs incident_id alert_id skip limit =>
      fmap A_audit_logs
           (AuditLogs.list_audit_logs incident_id alert_id skip limit)
  | GET_audit_log audit_log_id =>
      fmap A_audit_log (AuditLogs.get_audit_log_endpoint audit_log_id)
  end.

(** The world after serving the requests one after the other. *)
Fixpoint serve (rs : list request) (w : World) : World :=
  match rs with
  | [] => w
  | r :: rest => serve rest (snd (handle r w))
  end.

End Main.

(** ** Predicates used by the statements *)

(** [resolved_at] is set exactly when the status is [resolved]. *)
Definition alert_ok (a : Alert.t) : Prop :=
  Alert.resolved_at a <> None <-> Alert.status a = RESOLVED.

Definition alerts_ok (d : Store) : Prop := Forall alert_ok (alerts d).

(** The database answers the next [n] round trips. *)
Definition reachable (n : nat) (w : World) : Prop :=
  forall k, (k < n)%nat -> faults w k = false.

(** The tables other than [audit_logs] are the same in both stores. *)
Definition same_entities (d d' : Store) : Prop :=
  products d' = products d /\ resources d' = resources d
  /\ alerts d' = alerts d /\ incidents d' = incidents d.

(** A small concrete world for examples: nothing stored, every round trip
    answered, identifiers 1000, 1001, ..., clock readings 500, 501, ... *)
Definition plain_runtime : Runtime :=
  mkRuntime AlertType_value
            (fun u => match u with Some _ => "uuid" | None => "None" end)
            (fun _ => "datetime")
            (fun _ => "{}").

Definition quiet_world (d : Store) (email_up slack_up : bool) : World :=
  mkWorld d []
          (fun k => (500 + Z.of_nat k)%Z)
          (fun k => (1000 + N.of_nat k)%N)
          (fun _ => false)
          (fun _ _ _ => email_up)
          (fun _ _ => if slack_up then Some 200 else Some 503)
          "https://hooks.example.com/T000"
          plain_runtime.

(** ** Definitions used by the statements *)

(** [m] keeps the property [P] of the committed store and of the unit of
    work, whether it returns or raises. *)
Definition stable (P : Store -> list pending -> Prop) {A} (m : M A) : Prop :=
  forall w, P (db w) (session w) ->
            P (db (snd (m w))) (session (snd (m w))).

(** [P] accepts the registration of the pending change [c]. *)
Definition accepts (P : Store -> list pending -> Prop) (c : pending) : Prop :=
  forall d s, P d s -> P d (s ++ [c]).

(** Sorted by [key], largest first. *)
Definition newest_first {A} (key : A -> datetime) : list A -> Prop :=
  StronglySorted (fun x y => (key y <= key x)%Z).

(** The audit entry that [log_alert_event] builds in the world [w]. *)
Definition audit_entry (alert : Alert.t) (event_type : string)
           (actor : option string) (details : option (Py.dict json))
           (incident : option Incident.t) (w : World) : AuditLog.t :=
  AuditLog.mk (uuid4 w 0%nat)
    (match incident with
     | Some incident => Some (Incident.id incident)
     | None => Alert.incident_id alert
     end)
    (Some (Alert.id alert)) event_type (clock w 0%nat) actor
    (Some (Alerting.or_empty details)).

(** The world after [log_alert_event] has written [e]. *)
Definition logged (w : World) (e : AuditLog.t) : World :=
  mkWorld
    (mkStore (products (db w)) (resources (db w)) (alerts (db w))
             (incidents (db w)) (audit_logs (db w) ++ [e]))
    [] (stl (clock w)) (stl (uuid4 w)) (stl (stl (faults w)))
    (smtp w) (webhook w) (SLACK_WEBHOOK_URL w) (runtime w).

(** Unfolds the monad and the primitives of the session. *)
Ltac run_monad :=
  cbv beta iota delta
      [bind ret raise utcnow new_uuid get_store get_runtime
       db_register db_commit db_refresh query_first round_trip
       with_db with_session with_clock with_uuid4 with_faults with_smtp
       with_webhook shd stl];
  simpl.

(** Case analysis on the test that guards a flushed statement. *)
Ltac case_guard :=
  match goal with
  | |- (if ?guard then _ else _) = _ -> _ => destruct guard
  end.

(** The notification channels never raise, and touch nothing but their own
    supply of answers. *)
Definition channels_only (w w' : World) : Prop :=
  db w' = db w /\ session w' = session w /\ clock w' = clock w
  /\ uuid4 w' = uuid4 w /\ faults w' = faults w /\ runtime w' = runtime w.

(** The details that [deliver_alert] records. *)
Definition delivery_details (email_sent slack_sent : bool) : Py.dict json :=
  [("email_sent", JBool email_sent); ("slack_sent", JBool slack_sent)].

(** Sample rows for the examples: a product, one resource of it, an open
    incident on the resource, an active alert of the incident, and the
    audit entry of its delivery. *)
Definition sample_product : Product.t :=
  Product.mk 1 "payments" (Some "Payment services") 100 100.

Definition sample_resource : Resource.t :=
  Resource.mk 3 1 "api-server" "i-0abc" "aws" "EC2" None true 110 110.

Definition sample_incident : Incident.t :=
  Incident.mk 5 (Some 3%N) OPEN "API outage" None 120 None (Some "oncall").

Definition sample_alert : Alert.t :=
  Alert.mk 7 (Some 3%N) RESOURCE ACTIVE "High CPU"
           (Some "CPU above threshold") 130 None "warning"
           (Some [("CPUUtilization", JInt 85)]) (Some 5%N).

Definition sample_audit_log : AuditLog.t :=
  AuditLog.mk 9 (Some 5%N) (Some 7%N) "alert_generated" 140 (Some "system")
              (Some [("email_sent", JBool true); ("slack_sent", JBool false)]).

Definition sample_store : Store :=
  mkStore [sample_product] [sample_resource] [sample_alert]
          [sample_incident] [sample_audit_log].

(** The alert as [resolve_alert] leaves it when it resolves it at [now]. *)
Definition resolved (alert : Alert.t) (now : datetime) : Alert.t :=
  Alert.set_resolved_at (Alert.set_status alert RESOLVED) (Some now).

(** The world once the resolution is committed and the alert refreshed. *)
Definition resolution_committed (w : World) (a : Alert.t) : World :=
  mkWorld
    (mkStore (products (db w)) (resources (db w))
             (update_alert a (alerts (db w)))
             (incidents (db w)) (audit_logs (db w)))
    [] (stl (clock w)) (uuid4 w) (stl (stl (faults w)))
    (smtp w) (webhook w) (SLACK_WEBHOOK_URL w) (runtime w).

(** The severity that [detect_security_event] derives. *)
Definition severity_of (event_type : string) : string :=
  if Py.in_list event_type
       ["unauthorized_access"; "privilege_escalation"; "resource_exposure"]
  then "critical" else "warning".

(** The alert that [detect_security_event] builds in the world [w]. *)
Definition security_alert (resource : Resource.t) (event_type : string)
           (details : option (Py.dict json)) (w : World) : Alert.t :=
  Alert.mk (uuid4 w 0%nat)
    (Some (Resource.id resource))
    SECURITY
    ACTIVE
    ("Security Event: " ++ Py.title (Py.replace "_" " " event_type))%string
    (Some ("Detected security event '" ++ event_type
             ++ "' on resource '" ++ Resource.name resource ++ "'")%string)
    (clock w 0%nat)
    None
    (severity_of event_type)
    (Some (Alerting.or_empty details))
    None.

(** The world once the alert is committed and refreshed. *)
Definition alert_created (w : World) (a : Alert.t) : World :=
  mkWorld
    (mkStore (products (db w)) (resources (db w)) (alerts (db w) ++ [a])
             (incidents (db w)) (audit_logs (db w)))
    [] (stl (clock w)) (stl (uuid4 w)) (stl (stl (stl (faults w))))
    (smtp w) (webhook w) (SLACK_WEBHOOK_URL w) (runtime w).

(** A pending change writes no alert that breaks [alert_ok]. *)
Definition pending_ok (c : pending) : Prop :=
  match c with
  | Add_Alert a => alert_ok a
  | Dirty_Alert a => alert_ok a
  | _ => True
  end.

(** The invariant of the alert lifecycle, on the store and on what the
    session is about to write. *)
Definition lifecycle_inv (d : Store) (s : list pending) : Prop :=
  alerts_ok d /\ Forall pending_ok s.

(** A ledger of 101 entries of incident 5, one per clock reading. *)
Definition long_ledger : list AuditLog.t :=
  map (fun k => AuditLog.mk (N.of_nat k) (Some 5%N) None "alert_generated"
                            (Z.of_nat k) (Some "system") None)
      (seq 0 101).

(** The pending change is not a deletion. *)
Definition no_delete (c : pending) : Prop :=
  match c with
  | Delete_Product _ => False
  | _ => True
  end.

(** The ledger of [d] extends [base], and no deletion is pending. *)
Definition ledger_extends (base : list AuditLog.t) (d : Store)
           (s : list pending) : Prop :=
  (exists suffix, audit_logs d = base ++ suffix) /\ Forall no_delete s.

(** An audit entry of alert 7 that belongs to no incident. *)
Definition orphan_audit_log : AuditLog.t :=
  AuditLog.mk 11 None (Some 7%N) "alert_resolved" 150 (Some "oncall")
              (Some [("resolved_at", JStr "1970-01-01T00:02:29")]).

(** The sample store with this second entry in its ledger. *)
Definition audited_store : Store :=
  mkStore [sample_product] [sample_resource] [sample_alert]
          [sample_incident] [sample_audit_log; orphan_audit_log].

(** ** monitoring.py: the collector

    [fetch_aws_metrics] talks to CloudWatch through boto3; the two calls
    it makes to the library are parameters of the functions below, each a
    computation that returns or raises. *)

Module Collector.

(** [s.lower()], on ASCII letters; other bytes are kept. *)
Fixpoint lower (s : string) : string :=
  match s with
  | EmptyString => EmptyString
  | String c r => String (Py.to_lower c) (lower r)
  end.

(** [d[k] = v]: the value of a present key is replaced in place, a new key
    goes last. *)
Fixpoint setitem {V} (d : Py.dict V) (k : string) (v : V) : Py.dict V :=
  match d with
  | [] => [(k, v)]
  | (k', v') :: rest =>
      if String.eqb k' k then (k', v) :: rest
      else (k', v') :: setitem rest k v
  end.

(** [xs[-1]], when there is one. *)
Fixpoint last_item {A} (xs : list A) : option A :=
  match xs with
  | [] => None
  | [x] => Some x
  | _ :: rest => last_item rest
  end.

Definition Metrics : Type := Py.dict (option float).
Definition Breaches : Type := list (Monitoring.Breach float).

(** What the functions of this module can raise: an exception of the
    database layer, the two exceptions of the client library that
    [fetch_aws_metrics] catches, a name or a key that is not bound, and any
    other exception of the client library. *)
Inductive error : Type :=
| Exn (e : exn)
| BotoCoreError
| ClientError
| NameError (name : string)
| KeyError (key : string)
| Exception.

Inductive outcome (A : Type) : Type :=
| Return (a : A)
| Raised (e : error).
Arguments Return {A} _.
Arguments Raised {A} _.

Definition C (A : Type) : Type := World -> outcome A * World.

Definition unit_ {A} (a : A) : C A := fun w => (Return a, w).

Definition fail {A} (e : error) : C A := fun w => (Raised e, w).

Definition then_ {A B} (m : C A) (k : A -> C B) : C B :=
  fun w =>
    match m w with
    | (Return a, w') => k a w'
    | (Raised e, w') => (Raised e, w')
    end.

(** A computation of the other modules, run here. *)
Definition lift {A} (m : M A) : C A :=
  fun w =>
    match m w with
    | (Ok a, w') => (Return a, w')
    | (Raise e, w') => (Raised (Exn e), w')
    end.

(** [try: body / except <caught>: handler] *)
Definition try_except {A} (body : C A) (caught : error -> bool)
           (handler : C A) : C A :=
  fun w =>
    match body w with
    | (Return a, w') => (Return a, w')
    | (Raised e, w') => if caught e then handler w' else (Raised e, w')
    end.

Declare Scope mon_scope.
Delimit Scope mon_scope with mon.
Notation "x <- m ;; k" := (then_ m (fun x => k))
  (at level 61, m at next level, right associativity) : mon_scope.
Notation "m ;; k" := (then_ m (fun _ => k))
  (at level 61, right associativity) : mon_scope.
Local Open Scope mon_scope.

(** The names the module binds: by its imports, its assignments, its
    functions and its classes. The builtins hold no [datetime]. *)
Definition module_names : list string :=
  ["logging"; "List"; "Dict"; "Any"; "Optional"; "UUID"; "APIRouter";
   "Depends"; "HTTPException"; "status"; "Query"; "Session"; "SessionLocal";
   "Resource"; "Alert"; "AlertStatus"; "AlertType"; "get_resource";
   "get_resources"; "boto3"; "BotoCoreError"; "ClientError"; "logger";
   "get_db"; "SUPPORTED_METRICS"; "DEFAULT_THRESHOLDS";
   "get_cloudwatch_client"; "fetch_aws_metrics"; "evaluate_metrics";
   "collect_and_evaluate_metrics_for_resource"; "BaseModel"; "Field";
   "MetricResult"; "ResourceMetricsOut"; "monitoring_router";
   "get_resource_metrics"; "get_all_resources_metrics"; "__all__"].

(** Reading a global name inside a function of the module. *)
Definition load_global (name : string) : C unit :=
  if Py.in_list name module_names then unit_ tt else fail (NameError name).

(** [except (BotoCoreError, ClientError)] *)
Definition boto_error (e : error) : bool :=
  match e with
  | BotoCoreError | ClientError => true
  | _ => false
  end.

(** The dependency that opens the session of a request of this router. *)
Definition get_db {A} (body : C A) : C A :=
  fun w =>
    let (r, w') := body (with_session w []) in
    (r, with_session w' []).

(** [MetricResult] *)
Record MetricResult : Type := mkMetricResult {
  metric : string;
  value : option float;
  threshold : option float
}.

(** [ResourceMetricsOut] *)
Record ResourceMetricsOut : Type := mkOut {
  resource_id : UUID;
  metrics : Metrics;
  breaches : list MetricResult
}.

Definition metric_results (breaches : Breaches) : list MetricResult :=
  map (fun breach =>
         mkMetricResult (Monitoring.metric breach)
                        (Some (Monitoring.value breach))
                        (Some (Monitoring.threshold breach)))
      breaches.

(** The test that selects the one supported kind of resource. *)
Definition is_aws_ec2 (resource : Resource.t) : bool :=
  String.eqb (lower (Resource.cloud_provider resource)) "aws"
  && String.eqb (lower (Resource.resource_type resource)) "ec2".

(** A [for] loop over [xs] that threads the value it builds. *)
Fixpoint for_each {A B} (xs : list A) (body : B -> A -> C B) (acc : B)
  : C B :=
  match xs with
  | [] => unit_ acc
  | x :: rest =>
      acc <- body acc x ;;
      for_each rest body acc
  end.

Section CloudWatch.

(** The client library: the type of its clients, [boto3.client(service,
    region_name=...)], and [client.get_metric_statistics] given Namespace,
    MetricName, the value of the InstanceId dimension, StartTime, EndTime,
    Period and Statistics, which answers with the response. A response
    maps ["Datapoints"] to the data points, a data point maps ["Average"]
    to a number. *)
Variable Client : Type.
Variable boto3_client : string -> string -> C Client.
Variable get_metric_statistics :
  Client -> string -> string -> string -> datetime -> datetime -> nat ->
  list string -> C (Py.dict (list (Py.dict float))).

(** [t.replace(microsecond=0)] *)
Variable replace_microsecond_0 : datetime -> datetime.

(** The handler logs and raises again. *)
Definition get_cloudwatch_client (region_name : string) : C Client :=
  boto3_client "cloudwatch" region_name.

(** The body of the loop of [fetch_aws_metrics]. The keyword arguments of
    the call are evaluated before it, in the order written. *)
Definition fetch_metric (client : Client) (resource : Resource.t)
           (results : Metrics) (metric : string) : C Metrics :=
  try_except
    (let cloud_id := Resource.cloud_id resource in
     load_global "datetime" ;;
     start_time <- lift utcnow ;;
     load_global "datetime" ;;
     end_time <- lift utcnow ;;
     response <- get_metric_statistics client "AWS/EC2" metric cloud_id
                   (replace_microsecond_0 start_time)
                   (replace_microsecond_0 end_time) 300 ["Average"] ;;
     let datapoints :=
       match Py.get response "Datapoints" with
       | Some datapoints => datapoints
       | None => []
       end in
     value <- match last_item datapoints with
              | None => unit_ None
              | Some point =>
                  match Py.get point "Average" with
                  | Some average => unit_ (Some average)
                  | None => fail (KeyError "Average")
                  end
              end ;;
     unit_ (setitem results metric value))
    boto_error
    (unit_ (setitem results metric None)).

Definition fetch_aws_metrics (resource : Resource.t) (metrics : list string)
  : C Metrics :=
  client <- get_cloudwatch_client "us-east-1" ;;
  for_each metrics (fetch_metric client resource) [].

Definition collect_and_evaluate_metrics_for_resource (resource : Resource.t)
  : C (Metrics * Breaches) :=
  if negb (Resource.monitoring_enabled resource) then unit_ ([], [])
  else
    metrics <-
      (if is_aws_ec2 resource
       then fetch_aws_metrics resource Monitoring.SUPPORTED_METRICS
       else unit_ []) ;;
    let breaches :=
      Monitoring.evaluate_metrics Monitoring.float_gt metrics
                                  Monitoring.DEFAULT_THRESHOLDS in
    unit_ (metrics, breaches).

Definition get_resource_metrics (resource_id : UUID) : C ResourceMetricsOut :=
  get_db (
    resource <- lift (Crud.get_resource resource_id) ;;
    result <- collect_and_evaluate_metrics_for_resource resource ;;
    unit_ (mkOut resource_id (fst result) (metric_results (snd result)))).

Definition get_all_resources_metrics (skip limit : nat)
  : C (list ResourceMetricsOut) :=
  get_db (
    resources <- lift (Crud.get_resources skip limit) ;;
    for_each resources
      (fun results resource =>
         result <- collect_and_evaluate_metrics_for_resource resource ;;
         unit_ (results ++ [mkOut (Resource.id resource) (fst result)
                                  (metric_results (snd result))]))
      []).

End CloudWatch.

End Collector.

(** Metrics are fetched for a resource that is monitored and is an AWS EC2
    instance, and for no other. *)
Definition fetched (resource : Resource.t) : bool :=
  Resource.monitoring_enabled resource && Collector.is_aws_ec2 resource.

(** What the metrics endpoints answer for a resource whose metrics are not
    fetched. *)
Definition no_metrics (resource : Resource.t) : Collector.ResourceMetricsOut :=
  Collector.mkOut (Resource.id resource) [] [].

(** The page of resources that [get_resources] lists. *)
Definition resources_page (d : Store) (skip limit : nat) : list Resource.t :=
  firstn limit (skipn skip (order_by_desc Resource.created_at (resources d))).

(** A client library for the examples: the client is made, and CloudWatch
    has no data point. *)
Definition sample_client (service region_name : string) : Collector.C unit :=
  Collector.unit_ tt.

Definition sample_statistics (client : unit)
           (namespace metric cloud_id : string) (start_time end_time : datetime)
           (period : nat) (statistics : list string)
  : Collector.C (Py.dict (list (Py.dict float))) :=
  Collector.unit_ [("Datapoints", [])].

Definition sample_idle_resource : Resource.t :=
  Resource.mk 4 1 "batch-worker" "i-0def" "aws" "ec2" None false 115 115.

Definition sample_fleet : Store :=
  mkStore [sample_product] [sample_idle_resource] [] [] [].

(** ** Definitions used by the further properties *)

(** Every foreign key of the store that is not NULL refers to a stored
    row. *)
Definition refers (x : option UUID) (ids : list UUID) : Prop :=
  forall u, x = Some u -> In u ids.

Definition refs_ok (d : Store) : Prop :=
  (forall r, In r (resources d) ->
             In (Resource.product_id r) (map Product.id (products d)))
  /\ (forall a, In a (alerts d) ->
                refers (Alert.resource_id a) (map Resource.id (resources d))
                /\ refers (Alert.incident_id a)
                          (map Incident.id (incidents d)))
  /\ (forall i, In i (incidents d) ->
                refers (Incident.resource_id i)
                       (map Resource.id (resources d)))
  /\ (forall l, In l (audit_logs d) ->
                refers (AuditLog.incident_id l)
                       (map Incident.id (incidents d))
                /\ refers (AuditLog.alert_id l) (map Alert.id (alerts d))).

(** [result] is the page of [rows] by [key], largest first, that follows
    the first [skip] rows and holds at most [limit]. *)
Definition page_of {A} (key : A -> datetime) (rows : list A)
           (skip limit : nat) (result : list A) : Prop :=
  List.length result = Nat.min limit (List.length rows - skip)
  /\ newest_first key result
  /\ (forall x, In x result -> In x rows)
  /\ (skip = 0%nat -> (List.length rows <= limit)%nat ->
      Permutation rows result).

(** No two rows of a table carry the same timestamp in the column its
    listing is ordered by: the order of the listing is then the same in
    every query. *)
Definition distinct_timestamps (d : Store) : Prop :=
  NoDup (map Product.created_at (products d))
  /\ NoDup (map Resource.created_at (resources d))
  /\ NoDup (map Alert.triggered_at (alerts d))
  /\ NoDup (map Incident.opened_at (incidents d))
  /\ NoDup (map AuditLog.event_time (audit_logs d)).

(** The requests that only read. *)
Definition is_read (r : Main.request) : bool :=
  match r with
  | Main.GET_products _ _ | Main.GET_product _
  | Main.GET_resources _ _ | Main.GET_resource _
  | Main.GET_alerts _ _ | Main.GET_alert _
  | Main.GET_incidents _ _ | Main.GET_incident _
  | Main.GET_audit_logs _ _ _ _ | Main.GET_audit_log _ => true
  | _ => false
  end.

(** The requests that write the [products] table. *)
Definition writes_products (r : Main.request) : bool :=
  match r with
  | Main.POST_products _ _ | Main.PUT_product _ _ _
  | Main.DELETE_product _ => true
  | _ => false
  end.

Definition deletes_product (r : Main.request) : bool :=
  match r with
  | Main.DELETE_product _ => true
  | _ => false
  end.

(** A pending change that writes no product, resource or incident. *)
Definition entity_safe (c : pending) : Prop :=
  match c with
  | Add_Alert _ | Add_AuditLog _ | Dirty_Alert _ => True
  | _ => False
  end.

(** The products, resources and incidents of [d] are those of [base], and
    nothing pending would write them. *)
Definition entities_kept (base : Store) (d : Store) (s : list pending)
  : Prop :=
  (products d = products base /\ resources d = resources base
   /\ incidents d = incidents base)
  /\ Forall entity_safe s.

(** One alert after some requests: the same identifier, and the same
    status unless it became [resolved]. *)
Definition alert_step (a a' : Alert.t) : Prop :=
  Alert.id a' = Alert.id a
  /\ (Alert.status a' = Alert.status a \/ Alert.status a' = RESOLVED).

(** The table [l'] is the table [l] with every alert advanced in place,
    followed by new alerts. *)
Definition advances (l l' : list Alert.t) : Prop :=
  exists kept added, l' = kept ++ added /\ Forall2 alert_step l kept.

(** A pending change that deletes nothing and resolves what it rewrites. *)
Definition advance_ok (c : pending) : Prop :=
  match c with
  | Delete_Product _ => False
  | Dirty_Alert a => Alert.status a = RESOLVED
  | _ => True
  end.

Definition alerts_advance (base : list Alert.t) (d : Store)
           (s : list pending) : Prop :=
  advances base (alerts d) /\ Forall advance_ok s.

(** The primary keys of every table are pairwise distinct, and so are the
    names of the products. *)
Definition keys_unique (d : Store) : Prop :=
  NoDup (map Product.id (products d))
  /\ NoDup (map Product.name (products d))
  /\ NoDup (map Resource.id (resources d))
  /\ NoDup (map Alert.id (alerts d))
  /\ NoDup (map Incident.id (incidents d))
  /\ NoDup (map AuditLog.id (audit_logs d)).

(** * Properties *)

(** ** Dictionaries *)

Lemma get_In {V} (d : Py.dict V) (k : string) (v : V) :
  Py.get d k = Some v -> In (k, v) d.
Proof.
  induction d as [|[k' v'] rest IH]; simpl; [discriminate|].
  destruct (String.eqb_spec k' k) as [->|_].
  - intros [= ->]. now left.
  - intros H. right. now apply IH.
Qed.

Lemma In_get {V} (d : Py.dict V) (k : string) (v : V) :
  Py.dict_wf d -> In (k, v) d -> Py.get d k = Some v.
Proof.
  unfold Py.dict_wf.
  induction d as [|[k' v'] rest IH]; simpl; [contradiction|].
  intros Hnd [Heq|Hin].
  - injection Heq as -> ->. now rewrite String.eqb_refl.
  - inversion Hnd as [|? ? Hnotin Hrest]; subst.
    destruct (String.eqb_spec k' k) as [->|_].
    + exfalso. apply Hnotin. now apply (in_map fst) in Hin.
    + now apply IH.
Qed.

(** ** The threshold evaluator *)

Section EvaluateFacts.
Variable V : Type.
Variable gt : V -> V -> bool.
Variable T : Py.dict V.

Lemma evaluate_step_app (acc : list (Monitoring.Breach V))
      (item : string * option V) :
  Monitoring.evaluate_step gt T acc item
  = acc ++ Monitoring.breach_of gt T item.
Proof.
  unfold Monitoring.breach_of, Monitoring.evaluate_step.
  destruct item as [m [v|]]; destruct (Py.get T m) as [t|];
    try destruct (gt v t); now rewrite ?app_nil_r.
Qed.

Lemma evaluate_loop (items : list (string * option V))
      (acc : list (Monitoring.Breach V)) :
  fold_left (Monitoring.evaluate_step gt T) items acc
  = acc ++ flat_map (Monitoring.breach_of gt T) items.
Proof.
  revert acc. induction items as [|item rest IH]; intros acc; simpl.
  - now rewrite app_nil_r.
  - now rewrite IH, evaluate_step_app, <- app_assoc.
Qed.

Lemma evaluate_metrics_flat_map (metrics : Py.dict (option V)) :
  Monitoring.evaluate_metrics gt metrics T
  = flat_map (Monitoring.breach_of gt T) metrics.
Proof. unfold Monitoring.evaluate_metrics, Py.items. apply evaluate_loop. Qed.

Lemma breach_of_In (item : string * option V) (b : Monitoring.Breach V) :
  In b (Monitoring.breach_of gt T item) <->
  fst item = Monitoring.metric b
  /\ snd item = Some (Monitoring.value b)
  /\ Py.get T (Monitoring.metric b) = Some (Monitoring.threshold b)
  /\ gt (Monitoring.value b) (Monitoring.threshold b) = true.
Proof.
  unfold Monitoring.breach_of, Monitoring.evaluate_step.
  destruct b as [m' v' t']. destruct item as [m [v|]]; simpl.
  - destruct (Py.get T m) as [t|] eqn:Ht.
    + destruct (gt v t) eqn:Hgt; simpl.
      * split.
        -- intros [[= <- <- <-]|[]]. auto.
        -- intros (Hm & Hv & Ht' & _). left. congruence.
      * split; [intros []|].
        intros (Hm & Hv & Ht' & Hgt'). congruence.
    + split; [intros []|]. intros (Hm & _ & Ht' & _). congruence.
  - destruct (Py.get T m); (split; [intros []|]);
      intros (_ & Hv & _); discriminate.
Qed.

Lemma evaluate_metrics_In (metrics : Py.dict (option V))
      (b : Monitoring.Breach V) :
  In b (Monitoring.evaluate_metrics gt metrics T) <->
  In (Monitoring.metric b, Some (Monitoring.value b)) metrics
  /\ Py.get T (Monitoring.metric b) = Some (Monitoring.threshold b)
  /\ gt (Monitoring.value b) (Monitoring.threshold b) = true.
Proof.
  rewrite evaluate_metrics_flat_map, in_flat_map. split.
  - intros ([m v] & Hin & Hb). apply breach_of_In in Hb.
    simpl in Hb. destruct Hb as (-> & -> & Ht & Hgt). auto.
  - intros (Hin & Ht & Hgt). eexists. split; [exact Hin|].
    apply breach_of_In. simpl. auto.
Qed.

Lemma evaluate_metrics_order (metrics : Py.dict (option V)) :
  map Monitoring.metric (Monitoring.evaluate_metrics gt metrics T)
  = map fst
        (filter (fun item =>
                   negb (Nat.eqb
                           (List.length (Monitoring.breach_of gt T item)) 0))
                metrics).
Proof.
  rewrite evaluate_metrics_flat_map.
  induction metrics as [|[m v] rest IH]; simpl; [reflexivity|].
  rewrite map_app, IH.
  unfold Monitoring.breach_of, Monitoring.evaluate_step.
  destruct (Py.get T m) as [t|]; destruct v as [v|]; simpl;
    try reflexivity.
  destruct (gt v t); reflexivity.
Qed.

End EvaluateFacts.

(** C5. For all metric mappings [metrics] and threshold mappings
    [thresholds], the result of [evaluate_metrics] holds a breach record for
    a metric [m] if and only if [m] is a key of both mappings, its
    observation is present (not [None]) and exceeds its threshold; every
    record carries that observation and that threshold; a metric without
    observation or without threshold is skipped; and the metrics of the
    records come in the iteration order of [metrics]. The function is pure:
    it reads and writes no state. *)
Theorem evaluate_metrics_breaches
        (V : Type) (gt : V -> V -> bool)
        (metrics : Py.dict (option V)) (thresholds : Py.dict V)
        (Hwf : Py.dict_wf metrics) :
  (forall m,
      (exists b, In b (Monitoring.evaluate_metrics gt metrics thresholds)
                 /\ Monitoring.metric b = m)
      <->
      (exists v t, Py.get metrics m = Some (Some v)
                   /\ Py.get thresholds m = Some t
                   /\ gt v t = true))
  /\ (forall b, In b (Monitoring.evaluate_metrics gt metrics thresholds) ->
                Py.get metrics (Monitoring.metric b)
                = Some (Some (Monitoring.value b))
                /\ Py.get thresholds (Monitoring.metric b)
                   = Some (Monitoring.threshold b))
  /\ (forall m, Py.get metrics m = Some None \/ Py.get thresholds m = None ->
                ~ In m (map Monitoring.metric
                            (Monitoring.evaluate_metrics gt metrics
                                                         thresholds)))
  /\ map Monitoring.metric
         (Monitoring.evaluate_metrics gt metrics thresholds)
     = map fst
           (filter (fun item =>
                      negb (Nat.eqb
                              (List.length (Monitoring.breach_of gt thresholds
                                                            item)) 0))
                   (Py.items metrics)).
Proof.
  assert (Hrec : forall b,
             In b (Monitoring.evaluate_metrics gt metrics thresholds) ->
             Py.get metrics (Monitoring.metric b)
             = Some (Some (Monitoring.value b))
             /\ Py.get thresholds (Monitoring.metric b)
                = Some (Monitoring.threshold b)).
  { intros b Hb. apply evaluate_metrics_In in Hb.
    destruct Hb as (Hin & Ht & _). split; [|exact Ht].
    now apply In_get. }
  split; [|split; [exact Hrec|split]].
  - intros m. split.
    + intros (b & Hb & <-). apply evaluate_metrics_In in Hb.
      destruct Hb as (Hin & Ht & Hgt).
      exists (Monitoring.value b), (Monitoring.threshold b).
      split; [now apply In_get|auto].
    + intros (v & t & Hm & Ht & Hgt).
      exists (Monitoring.mkBreach m v t). split; [|reflexivity].
      apply evaluate_metrics_In. simpl. split; [now apply get_In|auto].
  - intros m Hskip Hin. apply in_map_iff in Hin.
    destruct Hin as (b & <- & Hb). apply Hrec in Hb.
    destruct Hb as (Hm & Ht). destruct Hskip; congruence.
  - apply evaluate_metrics_order.
Qed.

(** The example of the specification, on floats: one observation over its
    threshold, one observation missing. *)
Lemma evaluate_metrics_breaches_witness :
  let metrics := [("CPUUtilization", Some 85.0%float); ("NetworkIn", None)] in
  let thresholds := [("CPUUtilization", 80.0%float);
                     ("NetworkIn", 1000000000%float)] in
  Py.dict_wf metrics
  /\ Monitoring.evaluate_metrics Monitoring.float_gt metrics thresholds
     = [Monitoring.mkBreach "CPUUtilization" 85.0%float 80.0%float]
  /\ ((exists b,
          In b (Monitoring.evaluate_metrics Monitoring.float_gt metrics
                                            thresholds)
          /\ Monitoring.metric b = "CPUUtilization")
      <->
      (exists v t, Py.get metrics "CPUUtilization" = Some (Some v)
                   /\ Py.get thresholds "CPUUtilization" = Some t
                   /\ Monitoring.float_gt v t = true)).
Proof.
  intros metrics thresholds.
  assert (Hwf : Py.dict_wf metrics).
  { unfold Py.dict_wf. simpl.
    repeat constructor; simpl; intuition discriminate. }
  split; [exact Hwf|]. split; [reflexivity|].
  exact (proj1 (evaluate_metrics_breaches float Monitoring.float_gt metrics
                                          thresholds Hwf)
               "CPUUtilization").
Defined.

(** ** The session: lookups after a flush *)

Lemma uuid_in_In (u : UUID) (xs : list UUID) :
  uuid_in u xs = true <-> In u xs.
Proof.
  unfold uuid_in. rewrite existsb_exists. split.
  - intros (x & Hx & He). apply N.eqb_eq in He. now subst.
  - intros H. exists u. split; [exact H|apply N.eqb_refl].
Qed.

Lemma find_fresh {A} (id : A -> UUID) (u : UUID) (rows : list A) :
  uuid_in u (map id rows) = false ->
  find (fun r => N.eqb (id r) u) rows = None.
Proof.
  induction rows as [|r rest IH]; simpl; [reflexivity|].
  rewrite N.eqb_sym. destruct (N.eqb (id r) u); simpl; [discriminate|exact IH].
Qed.

Lemma find_app_none {A} (p : A -> bool) (l l' : list A) :
  find p l = None -> find p (l ++ l') = find p l'.
Proof.
  induction l as [|x r IH]; simpl; [reflexivity|].
  destruct (p x); [discriminate|exact IH].
Qed.

Lemma find_appended {A} (id : A -> UUID) (rows : list A) (x : A) :
  uuid_in (id x) (map id rows) = false ->
  find (fun r => N.eqb (id r) (id x)) (rows ++ [x]) = Some x.
Proof.
  intros H. rewrite (find_app_none _ _ _ (find_fresh id _ _ H)). simpl.
  now rewrite N.eqb_refl.
Qed.

Lemma find_updated (a : Alert.t) (rows : list Alert.t) :
  uuid_in (Alert.id a) (map Alert.id rows) = true ->
  find (fun r => N.eqb (Alert.id r) (Alert.id a)) (update_alert a rows)
  = Some a.
Proof.
  unfold update_alert.
  induction rows as [|r rest IH]; simpl; [discriminate|].
  rewrite N.eqb_sym.
  destruct (N.eqb (Alert.id r) (Alert.id a)) eqn:E; simpl.
  - intros _. now rewrite N.eqb_refl.
  - intros H. rewrite E. now apply IH.
Qed.

(** ** Runs in which the database answers *)

Lemma flush_audit_entry (d : Store) (l : AuditLog.t) :
  uuid_in (AuditLog.id l) (map AuditLog.id (audit_logs d)) = false ->
  audit_row_ok l = true ->
  flush [Add_AuditLog l] d
  = Some (mkStore (products d) (resources d) (alerts d) (incidents d)
                  (audit_logs d ++ [l])).
Proof.
  intros Hu Hrow. simpl. now rewrite Hu, Hrow.
Qed.

Lemma flush_audit_entry_refused (d : Store) (l : AuditLog.t) :
  audit_row_ok l = false -> flush [Add_AuditLog l] d = None.
Proof.
  intros Hrow. simpl. rewrite Hrow. now rewrite orb_true_r.
Qed.

Lemma log_alert_event_ok (alert : Alert.t) (event_type : string)
      (actor : option string) (details : option (Py.dict json))
      (incident : option Incident.t) (w : World) :
  session w = [] ->
  faults w 0%nat = false ->
  faults w 1%nat = false ->
  uuid_in (uuid4 w 0%nat) (map AuditLog.id (audit_logs (db w))) = false ->
  audit_row_ok (audit_entry alert event_type actor details incident w)
  = true ->
  Alerting.log_alert_event alert event_type actor details incident w
  = (Ok (audit_entry alert event_type actor details incident w),
     logged w (audit_entry alert event_type actor details incident w)).
Proof.
  intros Hs Hf0 Hf1 Hu Hrow.
  unfold Alerting.log_alert_event, logged.
  unfold audit_entry in *.
  destruct w as [d s c u f sm wh url rt].
  cbn [session faults uuid4 db clock] in *. subst s.
  run_monad. rewrite Hf0. cbv beta iota. cbn [session db].
  match goal with
  | |- context [flush [Add_AuditLog ?l] ?d0] =>
      rewrite (flush_audit_entry d0 l Hu Hrow)
  end.
  simpl. rewrite Hf1. simpl.
  match goal with
  | |- context [find ?p (?l ++ [?x])] =>
      change (find p (l ++ [x]))
        with (find (fun r => N.eqb (AuditLog.id r) (AuditLog.id x)) (l ++ [x]));
      rewrite (find_appended AuditLog.id l x Hu)
  end.
  reflexivity.
Qed.

Lemma send_email_alert_total (subject body : string) (w : World) :
  exists email_sent w',
    Alerting.send_email_alert subject body w = (Ok email_sent, w')
    /\ channels_only w w'.
Proof.
  unfold Alerting.send_email_alert, channels_only.
  do 2 eexists. split; [reflexivity|]. simpl. auto 10.
Qed.

Lemma send_slack_alert_total (message : string) (w : World) :
  exists slack_sent w',
    Alerting.send_slack_alert message w = (Ok slack_sent, w')
    /\ channels_only w w'.
Proof.
  unfold Alerting.send_slack_alert, channels_only.
  destruct (String.eqb (SLACK_WEBHOOK_URL w) "").
  - do 2 eexists. split; [reflexivity|]. auto 10.
  - destruct (shd (webhook w) message);
      do 2 eexists; (split; [reflexivity|]); simpl; auto 10.
Qed.

Lemma send_email_alert_frame (subject body : string) (w w' : World)
      (r : result bool) :
  Alerting.send_email_alert subject body w = (r, w') ->
  (exists b, r = Ok b) /\ channels_only w w'.
Proof.
  destruct (send_email_alert_total subject body w) as (b & w1 & E & F).
  rewrite E. intros [= <- <-]. eauto.
Qed.

Lemma send_slack_alert_frame (message : string) (w w' : World)
      (r : result bool) :
  Alerting.send_slack_alert message w = (r, w') ->
  (exists b, r = Ok b) /\ channels_only w w'.
Proof.
  destruct (send_slack_alert_total message w) as (b & w1 & E & F).
  rewrite E. intros [= <- <-]. eauto.
Qed.

Lemma deliver_alert_run (alert : Alert.t) (incident : option Incident.t)
      (w w1 w2 : World) (email_sent slack_sent : bool) :
  session w = [] ->
  faults w 0%nat = false ->
  faults w 1%nat = false ->
  uuid_in (uuid4 w 0%nat) (map AuditLog.id (audit_logs (db w))) = false ->
  Alerting.send_email_alert (Alerting.alert_subject alert)
    (Alerting.alert_body (runtime w) alert) w = (Ok email_sent, w1) ->
  Alerting.send_slack_alert
    (Alerting.alert_slack_message (Alerting.alert_subject alert)
       (Alerting.alert_body (runtime w) alert)) w1 = (Ok slack_sent, w2) ->
  Alerting.deliver_alert alert incident w
  = (Ok (email_sent || slack_sent),
     logged w2 (audit_entry alert "alert_generated" (Some "system")
                  (Some (delivery_details email_sent slack_sent))
                  incident w)).
Proof.
  intros Hs Hf0 Hf1 Hu He Hsl.
  destruct (send_email_alert_frame _ _ _ _ _ He)
    as (_ & D1 & S1 & C1 & U1 & F1 & _).
  destruct (send_slack_alert_frame _ _ _ _ Hsl)
    as (_ & D2 & S2 & C2 & U2 & F2 & _).
  unfold Alerting.deliver_alert.
  unfold bind at 1. unfold get_runtime.
  unfold bind at 1. rewrite He.
  unfold bind at 1. rewrite Hsl.
  unfold bind at 1.
  rewrite log_alert_event_ok.
  - unfold ret, audit_entry. now rewrite C2, C1, U2, U1.
  - now rewrite S2, S1.
  - now rewrite F2, F1.
  - now rewrite F2, F1.
  - now rewrite D2, D1, U2, U1.
  - reflexivity.
Qed.

Lemma reachable_at (n k : nat) (w : World) :
  reachable n w -> (k < n)%nat -> faults w k = false.
Proof. intros H Hk. now apply H. Qed.

(** ** Delivery *)

(** C1. For every alert and every pair of channel outcomes, [deliver_alert]
    (served by a reachable database, in a fresh session) appends exactly one
    audit entry, of type [alert_generated], whose details record under
    [email_sent] and [slack_sent] the answers the two channels really gave,
    and returns their disjunction; the entry is in the store when the
    function returns, also when both channels failed and it returns
    [False]. *)
Theorem deliver_alert_audit_entry
        (alert : Alert.t) (incident : option Incident.t)
        (w w1 w2 : World) (email_sent slack_sent : bool)
        (Hsession : session w = [])
        (Hdb : reachable 2 w)
        (Hfresh : uuid_in (uuid4 w 0%nat)
                          (map AuditLog.id (audit_logs (db w))) = false)
        (Hemail : Alerting.send_email_alert (Alerting.alert_subject alert)
                    (Alerting.alert_body (runtime w) alert) w
                  = (Ok email_sent, w1))
        (Hslack : Alerting.send_slack_alert
                    (Alerting.alert_slack_message
                       (Alerting.alert_subject alert)
                       (Alerting.alert_body (runtime w) alert)) w1
                  = (Ok slack_sent, w2)) :
  exists entry w',
    Alerting.deliver_alert alert incident w
    = (Ok (email_sent || slack_sent), w')
    /\ audit_logs (db w') = audit_logs (db w) ++ [entry]
    /\ AuditLog.event_type entry = "alert_generated"
    /\ AuditLog.alert_id entry = Some (Alert.id alert)
    /\ AuditLog.details entry
       = Some [("email_sent", JBool email_sent);
               ("slack_sent", JBool slack_sent)].
Proof.
  destruct (send_email_alert_frame _ _ _ _ _ Hemail) as (_ & D1 & _).
  destruct (send_slack_alert_frame _ _ _ _ Hslack) as (_ & D2 & _).
  eexists. eexists. split.
  - apply (deliver_alert_run alert incident w w1 w2); auto;
      apply (reachable_at 2 _ w Hdb); lia.
  - simpl. rewrite D2, D1. auto.
Qed.

Lemma deliver_alert_audit_entry_witness :
  let w := quiet_world sample_store false false in
  session w = []
  /\ reachable 2 w
  /\ uuid_in (uuid4 w 0%nat) (map AuditLog.id (audit_logs (db w))) = false
  /\ exists entry w',
      Alerting.deliver_alert sample_alert (Some sample_incident) w
      = (Ok (false || false), w')
      /\ audit_logs (db w') = audit_logs (db w) ++ [entry]
      /\ AuditLog.event_type entry = "alert_generated"
      /\ AuditLog.alert_id entry = Some (Alert.id sample_alert)
      /\ AuditLog.details entry
         = Some [("email_sent", JBool false); ("slack_sent", JBool false)].
Proof.
  intros w.
  assert (Hr : reachable 2 w) by (intros k _; reflexivity).
  split; [reflexivity|]. split; [exact Hr|]. split; [reflexivity|].
  eapply (deliver_alert_audit_entry sample_alert (Some sample_incident) w);
    [reflexivity|exact Hr|reflexivity|reflexivity|reflexivity].
Defined.

(** Each of the four combinations of channel outcomes occurs, and the
    delivery returns their disjunction. *)
Example deliver_alert_outcomes (email_up slack_up : bool) :
  fst (Alerting.deliver_alert sample_alert None
         (quiet_world sample_store email_up slack_up))
  = Ok (email_up || slack_up).
Proof. destruct email_up, slack_up; reflexivity. Qed.

(** With both channels down the endpoint reports the failure, and the entry
    of the attempt is in the ledger. *)
Example deliver_alert_endpoint_all_channels_down :
  let w := quiet_world sample_store false false in
  let '(r, w') := Alerting.deliver_alert_endpoint 7 w in
  r = Raise (HTTPException 500 "Failed to deliver alert via any channel.")
  /\ audit_logs (db w')
     = [sample_audit_log;
        AuditLog.mk 1000 (Some 5%N) (Some 7%N) "alert_generated" 500
                    (Some "system")
                    (Some [("email_sent", JBool false);
                           ("slack_sent", JBool false)])].
Proof. vm_compute. split; reflexivity. Qed.

(** A commit that fails is not swallowed: the persistence error reaches the
    caller and the ledger is as before. *)
Example deliver_alert_commit_fails :
  let w := with_faults (quiet_world sample_store true true)
                       (fun k => Nat.eqb k 0) in
  let '(r, w') := Alerting.deliver_alert sample_alert None w in
  r = Raise SQLAlchemyError /\ audit_logs (db w') = [sample_audit_log].
Proof. vm_compute. split; reflexivity. Qed.

(** Whatever the database answers, [log_alert_event] changes no table but
    [audit_logs], and that one by at most one entry at its end. *)
Lemma log_alert_event_frame (alert : Alert.t) (event_type : string)
      (actor : option string) (details : option (Py.dict json))
      (incident : option Incident.t) (w : World) :
  session w = [] ->
  let w' := snd (Alerting.log_alert_event alert event_type actor details
                   incident w) in
  same_entities (db w) (db w')
  /\ (audit_logs (db w') = audit_logs (db w)
      \/ audit_logs (db w')
         = audit_logs (db w)
             ++ [audit_entry alert event_type actor details incident w]).
Proof.
  intros Hs. unfold Alerting.log_alert_event, audit_entry, same_entities.
  destruct w as [d s c u f sm wh url rt]. simpl in *. subst s.
  run_monad.
  destruct (f 0%nat); simpl; [auto 10|].
  destruct (uuid_in (u 0%nat) (map AuditLog.id (audit_logs d)));
    simpl; [auto 10|].
  match goal with
  | |- context [negb ?row_ok] => destruct row_ok
  end; simpl; [|auto 10].
  destruct (f 1%nat); simpl; [auto 10|].
  match goal with
  | |- context [find ?p ?l] => destruct (find p l)
  end; simpl; auto 10.
Qed.

(** C9. In a fresh session, whatever the channels and the database answer,
    [deliver_alert] leaves the [alerts] table as it was, so that every field
    of every alert (severity, status, resolved_at, type, title, description,
    details, incident_id) is the same before and after, and leaves the
    products, resources and incidents as they were; the audit log is the
    same or longer by one entry, and it is longer by exactly one entry when
    the database answers. *)
Theorem deliver_alert_frame
        (alert : Alert.t) (incident : option Incident.t) (w : World)
        (Hsession : session w = []) :
  let w' := snd (Alerting.deliver_alert alert incident w) in
  alerts (db w') = alerts (db w)
  /\ (forall a, In a (alerts (db w)) <-> In a (alerts (db w')))
  /\ same_entities (db w) (db w')
  /\ (audit_logs (db w') = audit_logs (db w)
      \/ exists entry, audit_logs (db w') = audit_logs (db w) ++ [entry])
  /\ (reachable 2 w ->
      uuid_in (uuid4 w 0%nat) (map AuditLog.id (audit_logs (db w))) = false ->
      exists entry, audit_logs (db w') = audit_logs (db w) ++ [entry]).
Proof.
  intros w'.
  destruct (send_email_alert_total (Alerting.alert_subject alert)
              (Alerting.alert_body (runtime w) alert) w)
    as (e & w1 & He & D1 & S1 & C1 & U1 & F1 & _).
  destruct (send_slack_alert_total
              (Alerting.alert_slack_message (Alerting.alert_subject alert)
                 (Alerting.alert_body (runtime w) alert)) w1)
    as (s & w2 & Hsl & D2 & S2 & C2 & U2 & F2 & _).
  assert (Hs2 : session w2 = []) by now rewrite S2, S1.
  pose proof (log_alert_event_frame alert "alert_generated" (Some "system")
                (Some (delivery_details e s)) incident w2 Hs2) as Hlog.
  assert (Hw' : db w'
                = db (snd (Alerting.log_alert_event alert "alert_generated"
                             (Some "system") (Some (delivery_details e s))
                             incident w2))).
  { subst w'. unfold Alerting.deliver_alert.
    unfold bind at 1. unfold get_runtime.
    unfold bind at 1. rewrite He.
    unfold bind at 1. rewrite Hsl.
    unfold bind at 1. cbv beta.
    match goal with
    | |- db (snd (let (_, _) := ?m in _)) = _ =>
        change (Alerting.log_alert_event alert "alert_generated"
                  (Some "system") (Some (delivery_details e s)) incident w2)
          with m;
        destruct m as [[l|x] w3]; reflexivity
    end. }
  simpl in Hlog. rewrite <- Hw', D2, D1 in Hlog.
  destruct Hlog as (Hsame & Hlogs).
  assert (Ha : alerts (db w') = alerts (db w)) by apply Hsame.
  split; [exact Ha|]. split; [now rewrite Ha|]. split; [exact Hsame|].
  split.
  - destruct Hlogs as [H|H]; [now left|right; eauto].
  - intros Hr Hu.
    pose proof (deliver_alert_run alert incident w w1 w2 e s Hsession
                  (reachable_at 2 0 w Hr ltac:(lia))
                  (reachable_at 2 1 w Hr ltac:(lia)) Hu He Hsl) as Hrun.
    eexists. subst w'. rewrite Hrun. simpl. now rewrite D2, D1.
Qed.

Lemma deliver_alert_frame_witness :
  let w := quiet_world sample_store true false in
  session w = []
  /\ alerts (db (snd (Alerting.deliver_alert sample_alert None w)))
     = alerts (db w).
Proof.
  intros w. split; [reflexivity|].
  exact (proj1 (deliver_alert_frame sample_alert None w eq_refl)).
Defined.

(** ** Resolution *)

Lemma AlertStatus_eqb_eq (a b : AlertStatus) :
  AlertStatus_eqb a b = true <-> a = b.
Proof. destruct a, b; simpl; split; congruence. Qed.

Lemma resolve_alert_resolved (alert : Alert.t) (actor : option string)
      (w : World) :
  Alert.status alert = RESOLVED ->
  Alerting.resolve_alert alert actor w = (Ok alert, w).
Proof.
  intros H. unfold Alerting.resolve_alert. now rewrite H.
Qed.

(** A resolve request for a stored alert that is resolved leaves the store
    as it is, whatever the database answers. *)
Lemma resolve_alert_endpoint_resolved (alert_id : UUID)
      (actor : option string) (a : Alert.t) (w : World) :
  find (fun r => N.eqb (Alert.id r) alert_id) (alerts (db w)) = Some a ->
  Alert.status a = RESOLVED ->
  db (snd (Alerting.resolve_alert_endpoint alert_id actor w)) = db w.
Proof.
  intros Hfind Hst.
  unfold Alerting.resolve_alert_endpoint, get_db, Crud.get_alert.
  destruct w as [d s c u f sm wh url rt]. simpl in *.
  run_monad. destruct (f 0%nat); simpl; [reflexivity|].
  rewrite Hfind. unfold Alerting.resolve_alert. rewrite Hst. reflexivity.
Qed.

(** Up to the refresh: the status change is committed on its own. *)
Lemma resolve_alert_commit (alert : Alert.t) (actor : option string)
      (w : World) :
  Alert.status alert <> RESOLVED ->
  session w = [] ->
  faults w 0%nat = false ->
  faults w 1%nat = false ->
  uuid_in (Alert.id alert) (map Alert.id (alerts (db w))) = true ->
  let a := resolved alert (clock w 0%nat) in
  Alerting.resolve_alert alert actor w
  = (Alerting.log_alert_event a "alert_resolved" actor
       (Some [("resolved_at", Alerting.json_of_datetime (Alert.resolved_at a))])
       None ;;
     ret a) (resolution_committed w a).
Proof.
  intros Hst Hs Hf0 Hf1 Hin a.
  unfold Alerting.resolve_alert.
  destruct (AlertStatus_eqb (Alert.status alert) RESOLVED) eqn:E;
    [apply AlertStatus_eqb_eq in E; contradiction|].
  subst a. unfold resolved, resolution_committed.
  destruct w as [d s c u f sm wh url rt]. simpl in *. subst s.
  run_monad. rewrite Hf0. simpl. rewrite Hf1. simpl.
  match goal with
  | |- context [find ?p (update_alert ?x ?l)] =>
      change (find p (update_alert x l))
        with (find (fun r => N.eqb (Alert.id r) (Alert.id x))
                   (update_alert x l));
      rewrite (find_updated x l Hin)
  end.
  reflexivity.
Qed.

(** An audit entry that the database does not take: [log_alert_event]
    raises the persistence error out of its commit, and the store is as it
    was. *)
Lemma log_alert_event_refused (alert : Alert.t) (event_type : string)
      (actor : option string) (details : option (Py.dict json))
      (incident : option Incident.t) (w : World) :
  session w = [] ->
  audit_row_ok (audit_entry alert event_type actor details incident w)
  = false ->
  exists w',
    Alerting.log_alert_event alert event_type actor details incident w
    = (Raise SQLAlchemyError, w')
    /\ db w' = db w.
Proof.
  intros Hs Hrow.
  unfold Alerting.log_alert_event.
  unfold audit_entry in Hrow.
  destruct w as [d s c u f sm wh url rt].
  cbn [session faults uuid4 db clock] in *. subst s.
  run_monad. destruct (f 0%nat).
  - eexists. split; reflexivity.
  - cbv beta iota. cbn [session db].
    match goal with
    | |- context [flush [Add_AuditLog ?l] ?d0] =>
        rewrite (flush_audit_entry_refused d0 l Hrow)
    end.
    eexists. split; reflexivity.
Qed.

(** The details that [resolve_alert] hands to [log_alert_event] hold the
    [datetime] it has just stored, so the entry is never taken. *)
Lemma alert_resolved_entry_refused (alert : Alert.t) (now : datetime)
      (actor : option string) (w : World) :
  audit_row_ok
    (audit_entry (resolved alert now) "alert_resolved" actor
       (Some [("resolved_at",
               Alerting.json_of_datetime
                 (Alert.resolved_at (resolved alert now)))])
       None w)
  = false.
Proof.
  unfold audit_row_ok, audit_entry. simpl. apply andb_false_r.
Qed.

(** A resolution of a stored alert, as far as it gets when the database
    answers: the status change is committed, and the audit entry is not. *)
Lemma resolve_alert_unlogged (alert : Alert.t) (actor : option string)
      (w : World) :
  Alert.status alert <> RESOLVED ->
  session w = [] ->
  faults w 0%nat = false ->
  faults w 1%nat = false ->
  uuid_in (Alert.id alert) (map Alert.id (alerts (db w))) = true ->
  exists w',
    Alerting.resolve_alert alert actor w = (Raise SQLAlchemyError, w')
    /\ db w' = db (resolution_committed w (resolved alert (clock w 0%nat))).
Proof.
  intros Hst Hs Hf0 Hf1 Hin.
  rewrite resolve_alert_commit by assumption.
  destruct (log_alert_event_refused
              (resolved alert (clock w 0%nat)) "alert_resolved" actor
              (Some [("resolved_at",
                      Alerting.json_of_datetime
                        (Alert.resolved_at
                           (resolved alert (clock w 0%nat))))])
              None
              (resolution_committed w (resolved alert (clock w 0%nat)))
              eq_refl (alert_resolved_entry_refused _ _ _ _))
    as (w' & E & D).
  exists w'. split; [|exact D].
  unfold bind at 1. now rewrite E.
Qed.

(** C2. [resolve_alert] on an alert whose status is already [resolved]
    returns the alert and leaves the world as it is: no audit entry is
    written. On any other alert of the store (fresh session, the commit of
    the status change and the refresh answered) it stores the alert with
    status [resolved] and [resolved_at] the reading of the clock, and then
    raises the persistence error instead of returning: the details of the
    [alert_resolved] entry hold [resolved_at] as a [datetime], which the
    JSON column cannot serialise, so the entry is never written, whatever
    the actor. A second call on the alert, and a later resolve request for
    it, return at once: two calls write no [alert_resolved] entry. *)
Theorem resolve_alert_never_logged
        (alert : Alert.t) (actor : option string) (w : World)
        (Hactive : Alert.status alert <> RESOLVED)
        (Hsession : session w = [])
        (Hcommit : faults w 0%nat = false)
        (Hrefresh : faults w 1%nat = false)
        (Hstored : uuid_in (Alert.id alert) (map Alert.id (alerts (db w)))
                   = true) :
  (forall a0 actor0 w0,
      Alert.status a0 = RESOLVED ->
      Alerting.resolve_alert a0 actor0 w0 = (Ok a0, w0))
  /\ exists w',
      let now := clock w 0%nat in
      let alert' := resolved alert now in
      Alerting.resolve_alert alert actor w = (Raise SQLAlchemyError, w')
      /\ Alert.status alert' = RESOLVED
      /\ Alert.resolved_at alert' = Some now
      /\ alerts (db w') = update_alert alert' (alerts (db w))
      /\ find (fun r => N.eqb (Alert.id r) (Alert.id alert)) (alerts (db w'))
         = Some alert'
      /\ audit_logs (db w') = audit_logs (db w)
      /\ (forall actor',
             Alerting.resolve_alert alert' actor' (with_session w' [])
             = (Ok alert', with_session w' []))
      /\ (forall actor',
             audit_logs
               (db (snd (Alerting.resolve_alert_endpoint (Alert.id alert)
                           actor' w')))
             = audit_logs (db w)).
Proof.
  split; [intros a0 actor0 w0; apply resolve_alert_resolved|].
  destruct (resolve_alert_unlogged alert actor w Hactive Hsession Hcommit
              Hrefresh Hstored) as (w' & E & D).
  exists w'. cbv zeta.
  assert (Hfind : find (fun r => N.eqb (Alert.id r) (Alert.id alert))
                       (alerts (db w'))
                  = Some (resolved alert (clock w 0%nat))).
  { rewrite D. simpl.
    apply (find_updated (resolved alert (clock w 0%nat)) (alerts (db w))
             Hstored). }
  split; [exact E|]. split; [reflexivity|]. split; [reflexivity|].
  split; [now rewrite D|]. split; [exact Hfind|].
  split; [now rewrite D|]. split.
  - intros actor'. now apply resolve_alert_resolved.
  - intros actor'.
    rewrite (resolve_alert_endpoint_resolved (Alert.id alert) actor'
               (resolved alert (clock w 0%nat)) w' Hfind eq_refl).
    now rewrite D.
Qed.

Lemma resolve_alert_never_logged_witness :
  let w := quiet_world sample_store true true in
  Alert.status sample_alert <> RESOLVED
  /\ session w = []
  /\ faults w 0%nat = false /\ faults w 1%nat = false
  /\ uuid_in (Alert.id sample_alert) (map Alert.id (alerts (db w))) = true
  /\ exists w',
      Alerting.resolve_alert sample_alert (Some "oncall") w
      = (Raise SQLAlchemyError, w')
      /\ alerts (db w') = [resolved sample_alert 500]
      /\ audit_logs (db w') = [sample_audit_log]
      /\ audit_logs
           (db (snd (Alerting.resolve_alert_endpoint 7 (Some "oncall") w')))
         = [sample_audit_log].
Proof.
  intros w.
  assert (Ha : Alert.status sample_alert <> RESOLVED) by discriminate.
  repeat (split; [first [exact Ha | reflexivity]|]).
  destruct (proj2 (resolve_alert_never_logged sample_alert (Some "oncall") w
                     Ha eq_refl eq_refl eq_refl eq_refl))
    as (w' & H1 & _ & _ & H2 & _ & H3 & _ & H4).
  exists w'. repeat split; [exact H1 | exact H2 | exact H3 | exact (H4 _)].
Defined.

(** C10. When the commit of the status change and the refresh go through
    and the commit of the audit entry then fails, [resolve_alert] raises
    the persistence error; the store holds the alert as resolved (nothing
    rolls the first commit back) and its audit log is the one from before
    the call: there is no [alert_resolved] entry for this resolution. A
    later call on the resolved alert returns at once and writes none
    either. *)
Theorem resolve_alert_not_atomic
        (alert : Alert.t) (actor : option string) (w : World)
        (Hactive : Alert.status alert <> RESOLVED)
        (Hsession : session w = [])
        (Hcommit : faults w 0%nat = false)
        (Hrefresh : faults w 1%nat = false)
        (Haudit : faults w 2%nat = true)
        (Hstored : uuid_in (Alert.id alert) (map Alert.id (alerts (db w)))
                   = true) :
  exists w',
    let alert' := resolved alert (clock w 0%nat) in
    Alerting.resolve_alert alert actor w = (Raise SQLAlchemyError, w')
    /\ alerts (db w') = update_alert alert' (alerts (db w))
    /\ find (fun r => N.eqb (Alert.id r) (Alert.id alert)) (alerts (db w'))
       = Some alert'
    /\ Alert.status alert' = RESOLVED
    /\ audit_logs (db w') = audit_logs (db w)
    /\ forall actor',
        Alerting.resolve_alert alert' actor' (with_session w' [])
        = (Ok alert', with_session w' []).
Proof.
  destruct w as [d s c u f sm wh url rt]. simpl in *.
  eexists. cbv zeta. split.
  - rewrite resolve_alert_commit; auto.
    unfold Alerting.log_alert_event, resolution_committed.
    run_monad. rewrite Haudit. reflexivity.
  - simpl. repeat split.
    apply (find_updated (resolved alert (c 0%nat)) (alerts d) Hstored).
Qed.

Lemma resolve_alert_not_atomic_witness :
  let w := with_faults (quiet_world sample_store true true)
                       (fun k => Nat.eqb k 2) in
  Alert.status sample_alert <> RESOLVED
  /\ session w = []
  /\ faults w 0%nat = false /\ faults w 1%nat = false
  /\ faults w 2%nat = true
  /\ uuid_in (Alert.id sample_alert) (map Alert.id (alerts (db w))) = true
  /\ exists w',
      Alerting.resolve_alert sample_alert None w
      = (Raise SQLAlchemyError, w')
      /\ alerts (db w') = [resolved sample_alert 500]
      /\ audit_logs (db w') = [sample_audit_log].
Proof.
  intros w.
  assert (Ha : Alert.status sample_alert <> RESOLVED) by discriminate.
  repeat (split; [first [exact Ha | reflexivity]|]).
  destruct (resolve_alert_not_atomic sample_alert None w
              Ha eq_refl eq_refl eq_refl eq_refl eq_refl)
    as (w' & H1 & H2 & _ & _ & H3 & _).
  exists w'. auto.
Defined.

(** ** Security events *)

Lemma in_list_In (x : string) (xs : list string) :
  Py.in_list x xs = true <-> In x xs.
Proof.
  unfold Py.in_list. rewrite existsb_exists. split.
  - intros (y & Hy & He). apply String.eqb_eq in He. now subst.
  - intros H. exists x. split; [exact H|apply String.eqb_refl].
Qed.

Lemma detect_security_event_create (resource_id : UUID) (event_type : string)
      (actor : option string) (details : option (Py.dict json))
      (resource : Resource.t) (w : World) :
  Py.in_list event_type SecurityEvents.SECURITY_EVENT_TYPES = true ->
  session w = [] ->
  reachable 3 w ->
  find (fun r => N.eqb (Resource.id r) resource_id) (resources (db w))
  = Some resource ->
  uuid_in (uuid4 w 0%nat) (map Alert.id (alerts (db w))) = false ->
  let a := security_alert resource event_type details w in
  SecurityEvents.detect_security_event resource_id event_type actor details w
  = (Alerting.deliver_alert a None ;;
     Alerting.log_alert_event a "security_event_detected"
       (Some (SecurityEvents.or_system actor))
       (Some (Alerting.or_empty details)) None ;;
     ret a) (alert_created w a).
Proof.
  intros Hty Hs Hr Hres Hu a.
  pose proof (Hr 0%nat ltac:(lia)) as Hf0.
  pose proof (Hr 1%nat ltac:(lia)) as Hf1.
  pose proof (Hr 2%nat ltac:(lia)) as Hf2.
  unfold SecurityEvents.detect_security_event. rewrite Hty.
  subst a. unfold security_alert, alert_created, severity_of, Crud.get_resource.
  destruct w as [d s c u f sm wh url rt]. simpl in *. subst s.
  run_monad. rewrite Hf0. simpl. rewrite Hres. simpl.
  rewrite Hf1. simpl. rewrite Hu. simpl. rewrite Hf2. simpl.
  match goal with
  | |- context [find ?p (?l ++ [?x])] =>
      change (find p (l ++ [x]))
        with (find (fun r => N.eqb (Alert.id r) (Alert.id x)) (l ++ [x]));
      rewrite (find_appended Alert.id l x Hu)
  end.
  reflexivity.
Qed.

(** C4. For an event type outside the recognized set,
    [detect_security_event] raises the client error (HTTP 400) and leaves
    the world as it found it: no alert is created and no audit entry is
    written. *)
Theorem detect_security_event_unrecognized
        (resource_id : UUID) (event_type : string) (actor : option string)
        (details : option (Py.dict json)) (w : World)
        (Hunknown : ~ In event_type
                      ["unauthorized_access"; "configuration_change";
                       "policy_violation"; "privilege_escalation";
                       "resource_exposure"]) :
  SecurityEvents.detect_security_event resource_id event_type actor details w
  = (Raise (HTTPException 400
              ("Unsupported security event type: " ++ event_type)%string),
     w)
  /\ alerts (db (snd (SecurityEvents.detect_security_event
                        resource_id event_type actor details w)))
     = alerts (db w)
  /\ audit_logs (db (snd (SecurityEvents.detect_security_event
                            resource_id event_type actor details w)))
     = audit_logs (db w)
  /\ fst (SecurityEvents.detect_security_event_endpoint
            resource_id event_type actor details w)
     = Raise (HTTPException 400
                ("Unsupported security event type: " ++ event_type)%string)
  /\ db (snd (SecurityEvents.detect_security_event_endpoint
                resource_id event_type actor details w))
     = db w.
Proof.
  assert (Hin : Py.in_list event_type SecurityEvents.SECURITY_EVENT_TYPES
                = false).
  { destruct (Py.in_list event_type SecurityEvents.SECURITY_EVENT_TYPES)
      eqn:E; [|reflexivity].
    apply in_list_In in E. contradiction. }
  assert (Hrun : forall w0,
             SecurityEvents.detect_security_event resource_id event_type
               actor details w0
             = (Raise (HTTPException 400
                         ("Unsupported security event type: "
                            ++ event_type)%string), w0)).
  { intros w0. unfold SecurityEvents.detect_security_event.
    rewrite Hin. reflexivity. }
  split; [apply Hrun|]. rewrite Hrun. simpl.
  split; [reflexivity|]. split; [reflexivity|].
  unfold SecurityEvents.detect_security_event_endpoint, get_db.
  rewrite Hrun. simpl. auto.
Qed.

Lemma detect_security_event_unrecognized_witness :
  let w := quiet_world sample_store true true in
  ~ In "rm_-rf_root"
       ["unauthorized_access"; "configuration_change"; "policy_violation";
        "privilege_escalation"; "resource_exposure"]
  /\ SecurityEvents.detect_security_event 3 "rm_-rf_root" None None w
     = (Raise (HTTPException 400
                 "Unsupported security event type: rm_-rf_root"), w).
Proof.
  intros w.
  assert (H : ~ In "rm_-rf_root"
                ["unauthorized_access"; "configuration_change";
                 "policy_violation"; "privilege_escalation";
                 "resource_exposure"]).
  { simpl. intuition discriminate. }
  split; [exact H|].
  exact (proj1 (detect_security_event_unrecognized 3 "rm_-rf_root" None None
                  w H)).
Defined.

Lemma or_empty_Some (d : Py.dict json) : Alerting.or_empty (Some d) = d.
Proof. destruct d; reflexivity. Qed.

Lemma or_system_given (s : string) :
  s <> "" -> SecurityEvents.or_system (Some s) = s.
Proof. destruct s; [congruence|reflexivity]. Qed.


Lemma or_empty_ok (details : option (Py.dict json)) :
  details_ok details = true ->
  details_ok (Some (Alerting.or_empty details)) = true.
Proof.
  destruct details as [d|]; [|reflexivity].
  now rewrite or_empty_Some.
Qed.




(** The example of the specification, evaluated: the alert that
    [privilege_escalation] produces and the two entries it logs. *)
Example detect_privilege_escalation :
  let w := quiet_world sample_store false false in
  let '(r, w') :=
    SecurityEvents.detect_security_event 3 "privilege_escalation" None None w
  in
  r = Ok (Alert.mk 1000 (Some 3%N) SECURITY ACTIVE
            "Security Event: Privilege Escalation"
            (Some ("Detected security event 'privilege_escalation'"
                     ++ " on resource 'api-server'")%string)
            500 None "critical" (Some []) None)
  /\ map AuditLog.event_type (audit_logs (db w'))
     = ["alert_generated"; "alert_generated"; "security_event_detected"]
  /\ map AuditLog.actor (audit_logs (db w'))
     = [Some "system"; Some "system"; Some "system"].
Proof. vm_compute. auto. Qed.

(** An actor of 65 characters does not fit its column: the alert and the
    entry of its delivery are committed, the [security_event_detected]
    entry is refused, and the persistence error is raised. *)
Example detect_security_event_long_actor :
  let w := quiet_world sample_store false false in
  let actor :=
    "aaaaaaaaaaaaaaaaaaaaaaaaaaaaaaaaaaaaaaaaaaaaaaaaaaaaaaaaaaaaaaaaa" in
  let '(r, w') :=
    SecurityEvents.detect_security_event 3 "privilege_escalation"
      (Some actor) None w
  in
  String.length actor = 65%nat
  /\ r = Raise SQLAlchemyError
  /\ map Alert.id (alerts (db w')) = [7%N; 1000%N]
  /\ map AuditLog.event_type (audit_logs (db w'))
     = ["alert_generated"; "alert_generated"].
Proof. vm_compute. auto. Qed.

(** ** Invariants of the store and the session *)

Section Stable.

(** A property of the committed store and of the unit of work. *)
Variable P : Store -> list pending -> Prop.

Lemma stable_ret {A} (a : A) : stable P (ret a).
Proof. intros w H. exact H. Qed.

Lemma stable_raise {A} (e : exn) : stable P (@raise A e).
Proof. intros w H. exact H. Qed.

Lemma stable_bind {A B} (m : M A) (k : A -> M B) :
  stable P m -> (forall a, stable P (k a)) -> stable P (bind m k).
Proof.
  intros Hm Hk w H. unfold bind.
  specialize (Hm w H). destruct (m w) as [[a|e] w1]; simpl in *.
  - now apply Hk.
  - exact Hm.
Qed.

(** A computation that leaves the store and the session alone. *)
Lemma stable_quiet {A} (m : M A) :
  (forall w, db (snd (m w)) = db w /\ session (snd (m w)) = session w) ->
  stable P m.
Proof. intros Hq w H. destruct (Hq w) as [-> ->]. exact H. Qed.

Lemma stable_utcnow : stable P utcnow.
Proof. apply stable_quiet. intros w. now split. Qed.

Lemma stable_new_uuid : stable P new_uuid.
Proof. apply stable_quiet. intros w. now split. Qed.

Lemma stable_get_store : stable P get_store.
Proof. apply stable_quiet. intros w. now split. Qed.

Lemma stable_get_runtime : stable P get_runtime.
Proof. apply stable_quiet. intros w. now split. Qed.

Lemma stable_round_trip : stable P round_trip.
Proof.
  apply stable_quiet. intros w. unfold round_trip.
  destruct (shd (faults w)); now split.
Qed.

Lemma stable_send_email_alert (subject body : string) :
  stable P (Alerting.send_email_alert subject body).
Proof. apply stable_quiet. intros w. now split. Qed.

Lemma stable_send_slack_alert (message : string) :
  stable P (Alerting.send_slack_alert message).
Proof.
  apply stable_quiet. intros w. unfold Alerting.send_slack_alert.
  destruct (String.eqb (SLACK_WEBHOOK_URL w) ""); [now split|].
  destruct (shd (webhook w) message); now split.
Qed.

Lemma stable_register (c : pending) : accepts P c -> stable P (db_register c).
Proof. intros Hc w H. simpl. now apply Hc. Qed.

Lemma stable_query_first {A} (table : Store -> list A) (p : A -> bool) :
  stable P (query_first table p).
Proof.
  unfold query_first.
  apply stable_bind; [apply stable_round_trip|intros _].
  apply stable_bind; [apply stable_get_store|intros d].
  apply stable_ret.
Qed.

Lemma stable_refresh {A} (table : Store -> list A) (id : A -> UUID)
      (obj : A) :
  stable P (db_refresh table id obj).
Proof.
  unfold db_refresh.
  apply stable_bind; [apply stable_query_first|intros [r|]].
  - apply stable_ret.
  - apply stable_raise.
Qed.

Lemma stable_query_page {A} (table : Store -> list A) (p : A -> bool)
      (key : A -> datetime) (skip limit : nat) :
  stable P (query_page table p key skip limit).
Proof.
  unfold query_page.
  apply stable_bind; [apply stable_round_trip|intros _].
  apply stable_bind; [apply stable_get_store|intros d].
  apply stable_ret.
Qed.

(** What [P] must survive: a flush of the unit of work, and the close of
    the session. *)
Hypothesis P_flush :
  forall d s d', P d s -> flush s d = Some d' -> P d' [].
Hypothesis P_close : forall d s, P d s -> P d [].

Lemma stable_commit : stable P db_commit.
Proof.
  unfold db_commit.
  apply stable_bind; [apply stable_round_trip|intros _].
  intros w H. destruct (flush (session w) (db w)) as [d'|] eqn:E; simpl.
  - now apply (P_flush (db w) (session w)).
  - exact H.
Qed.

Lemma stable_get_db {A} (body : M A) : stable P body -> stable P (get_db body).
Proof.
  intros Hb w H. unfold get_db.
  assert (H0 : P (db (with_session w [])) (session (with_session w [])))
    by (simpl; now apply (P_close (db w) (session w))).
  specialize (Hb _ H0).
  destruct (body (with_session w [])) as [r w1]. simpl in *.
  now apply (P_close (db w1) (session w1)).
Qed.

Lemma stable_fmap {A B} (f : A -> B) (m : M A) :
  stable P m -> stable P (Main.fmap f m).
Proof.
  intros Hm. unfold Main.fmap.
  apply stable_bind; [exact Hm|intros a; apply stable_ret].
Qed.

(** *** alerting.py *)

Lemma stable_log_alert_event (alert : Alert.t) (event_type : string)
      (actor : option string) (details : option (Py.dict json))
      (incident : option Incident.t) :
  (forall l, accepts P (Add_AuditLog l)) ->
  stable P (Alerting.log_alert_event alert event_type actor details incident).
Proof.
  intros Hadd. unfold Alerting.log_alert_event.
  apply stable_bind; [apply stable_utcnow|intros t].
  apply stable_bind; [apply stable_new_uuid|intros u].
  apply stable_bind; [apply stable_register, Hadd|intros _].
  apply stable_bind; [apply stable_commit|intros _].
  apply stable_bind; [apply stable_refresh|intros l].
  apply stable_ret.
Qed.

Lemma stable_deliver_alert (alert : Alert.t) (incident : option Incident.t) :
  (forall l, accepts P (Add_AuditLog l)) ->
  stable P (Alerting.deliver_alert alert incident).
Proof.
  intros Hadd. unfold Alerting.deliver_alert.
  apply stable_bind; [apply stable_get_runtime|intros rt].
  apply stable_bind; [apply stable_send_email_alert|intros e].
  apply stable_bind; [apply stable_send_slack_alert|intros s].
  apply stable_bind; [now apply stable_log_alert_event|intros _].
  apply stable_ret.
Qed.

Lemma stable_resolve_alert (alert : Alert.t) (actor : option string) :
  (forall l, accepts P (Add_AuditLog l)) ->
  (forall now, accepts P (Dirty_Alert (resolved alert now))) ->
  stable P (Alerting.resolve_alert alert actor).
Proof.
  intros Hadd Hdirty. unfold Alerting.resolve_alert.
  destruct (AlertStatus_eqb (Alert.status alert) RESOLVED);
    [apply stable_ret|].
  apply stable_bind; [apply stable_utcnow|intros t].
  apply stable_bind; [apply stable_register, Hdirty|intros _].
  apply stable_bind; [apply stable_commit|intros _].
  apply stable_bind; [apply stable_refresh|intros a].
  apply stable_bind; [now apply stable_log_alert_event|intros _].
  apply stable_ret.
Qed.

(** *** security_events.py *)

Lemma stable_detect_security_event (resource_id : UUID)
      (event_type : string) (actor : option string)
      (details : option (Py.dict json)) :
  (forall l, accepts P (Add_AuditLog l)) ->
  (forall a, Alert.status a = ACTIVE -> Alert.resolved_at a = None ->
             accepts P (Add_Alert a)) ->
  stable P (SecurityEvents.detect_security_event resource_id event_type
            actor details).
Proof.
  intros Hadd Halert. unfold SecurityEvents.detect_security_event.
  destruct (negb (Py.in_list event_type
                    SecurityEvents.SECURITY_EVENT_TYPES));
    [apply stable_raise|].
  apply stable_bind.
  { unfold Crud.get_resource.
    apply stable_bind; [apply stable_query_first|intros [r|]];
      [apply stable_ret|apply stable_raise]. }
  intros resource.
  apply stable_bind; [apply stable_utcnow|intros t].
  apply stable_bind; [apply stable_new_uuid|intros u].
  apply stable_bind; [apply stable_register, Halert; reflexivity|intros _].
  apply stable_bind; [apply stable_commit|intros _].
  apply stable_bind; [apply stable_refresh|intros a].
  apply stable_bind; [now apply stable_deliver_alert|intros _].
  apply stable_bind; [now apply stable_log_alert_event|intros _].
  apply stable_ret.
Qed.

(** *** crud.py *)

Lemma stable_get_product (product_id : UUID) :
  stable P (Crud.get_product product_id).
Proof.
  unfold Crud.get_product.
  apply stable_bind; [apply stable_query_first|intros [r|]];
    [apply stable_ret|apply stable_raise].
Qed.

Lemma stable_get_alert (alert_id : UUID) : stable P (Crud.get_alert alert_id).
Proof.
  unfold Crud.get_alert.
  apply stable_bind; [apply stable_query_first|intros [r|]];
    [apply stable_ret|apply stable_raise].
Qed.

Lemma stable_get_incident (incident_id : UUID) :
  stable P (Crud.get_incident incident_id).
Proof.
  unfold Crud.get_incident.
  apply stable_bind; [apply stable_query_first|intros [r|]];
    [apply stable_ret|apply stable_raise].
Qed.

Lemma stable_get_resource (resource_id : UUID) :
  stable P (Crud.get_resource resource_id).
Proof.
  unfold Crud.get_resource.
  apply stable_bind; [apply stable_query_first|intros [r|]];
    [apply stable_ret|apply stable_raise].
Qed.

Lemma stable_create_product (name : string) (description : option string) :
  (forall p, accepts P (Add_Product p)) ->
  stable P (Crud.create_product name description).
Proof.
  intros Hadd. unfold Crud.create_product.
  apply stable_bind; [apply stable_query_first|intros [r|]];
    [apply stable_raise|].
  apply stable_bind; [apply stable_new_uuid|intros u].
  apply stable_bind; [apply stable_utcnow|intros t1].
  apply stable_bind; [apply stable_utcnow|intros t2].
  apply stable_bind; [apply stable_register, Hadd|intros _].
  apply stable_bind; [apply stable_commit|intros _].
  apply stable_bind; [apply stable_refresh|intros p].
  apply stable_ret.
Qed.

Lemma stable_update_product (product_id : UUID)
      (name description : option string) :
  (forall p, accepts P (Dirty_Product p)) ->
  stable P (Crud.update_product product_id name description).
Proof.
  intros Hdirty. unfold Crud.update_product.
  apply stable_bind; [apply stable_get_product|intros product].
  apply stable_bind.
  { destruct (Py.truthy_str name); [|apply stable_ret].
    apply stable_bind; [apply stable_query_first|intros [r|]];
      [apply stable_raise|apply stable_ret]. }
  intros renamed.
  apply stable_bind.
  { match goal with |- stable P (if ?b then _ else _) => destruct b end;
      [apply stable_ret|].
    apply stable_bind; [apply stable_utcnow|intros t].
    apply stable_register, Hdirty. }
  intros _.
  apply stable_bind; [apply stable_commit|intros _].
  apply stable_bind; [apply stable_refresh|intros p].
  apply stable_ret.
Qed.

Lemma stable_delete_product (product_id : UUID) :
  (forall p, accepts P (Delete_Product p)) ->
  stable P (Crud.delete_product product_id).
Proof.
  intros Hdel. unfold Crud.delete_product.
  apply stable_bind; [apply stable_get_product|intros product].
  apply stable_bind; [apply stable_register, Hdel|intros _].
  apply stable_commit.
Qed.

(** *** The endpoints that write *)

Lemma stable_deliver_alert_endpoint (alert_id : UUID) :
  (forall l, accepts P (Add_AuditLog l)) ->
  stable P (Alerting.deliver_alert_endpoint alert_id).
Proof.
  intros Hadd. unfold Alerting.deliver_alert_endpoint.
  apply stable_get_db.
  apply stable_bind; [apply stable_get_alert|intros alert].
  apply stable_bind.
  { destruct (Alert.incident_id alert); [|apply stable_ret].
    apply stable_bind; [apply stable_get_incident|intros i].
    apply stable_ret. }
  intros incident.
  apply stable_bind; [now apply stable_deliver_alert|intros success].
  destruct (negb success); [apply stable_raise|apply stable_ret].
Qed.

Lemma stable_resolve_alert_endpoint (alert_id : UUID)
      (actor : option string) :
  (forall l, accepts P (Add_AuditLog l)) ->
  (forall a now, accepts P (Dirty_Alert (resolved a now))) ->
  stable P (Alerting.resolve_alert_endpoint alert_id actor).
Proof.
  intros Hadd Hdirty. unfold Alerting.resolve_alert_endpoint.
  apply stable_get_db.
  apply stable_bind; [apply stable_get_alert|intros alert].
  apply stable_bind; [now apply stable_resolve_alert|intros a].
  apply stable_ret.
Qed.

(** Every request but the deletion of a product. *)
Lemma stable_handle_but_delete (r : Main.request) :
  (forall product_id, r <> Main.DELETE_product product_id) ->
  (forall l, accepts P (Add_AuditLog l)) ->
  (forall a now, accepts P (Dirty_Alert (resolved a now))) ->
  (forall a, Alert.status a = ACTIVE -> Alert.resolved_at a = None ->
             accepts P (Add_Alert a)) ->
  (forall p, accepts P (Add_Product p)) ->
  (forall p, accepts P (Dirty_Product p)) ->
  stable P (Main.handle r).
Proof.
  intros Hr Hlog Hdirty Halert Hadd Hupd.
  destruct r; simpl; apply stable_fmap.
  - apply stable_get_db. now apply stable_create_product.
  - apply stable_get_db, stable_query_page.
  - apply stable_get_db, stable_get_product.
  - apply stable_get_db. now apply stable_update_product.
  - exfalso. now apply (Hr product_id).
  - apply stable_get_db, stable_query_page.
  - apply stable_get_db, stable_get_resource.
  - apply stable_get_db, stable_query_page.
  - apply stable_get_db, stable_get_alert.
  - apply stable_get_db, stable_query_page.
  - apply stable_get_db, stable_get_incident.
  - now apply stable_deliver_alert_endpoint.
  - now apply stable_resolve_alert_endpoint.
  - unfold SecurityEvents.detect_security_event_endpoint.
    apply stable_get_db. now apply stable_detect_security_event.
  - unfold AuditLogs.list_audit_logs. apply stable_get_db.
    apply stable_query_page.
  - unfold AuditLogs.get_audit_log_endpoint. apply stable_get_db.
    unfold AuditLogs.get_audit_log.
    apply stable_bind; [apply stable_query_first|intros [l|]];
      [apply stable_ret|apply stable_raise].
Qed.

Lemma stable_handle (r : Main.request) :
  (forall l, accepts P (Add_AuditLog l)) ->
  (forall a now, accepts P (Dirty_Alert (resolved a now))) ->
  (forall a, Alert.status a = ACTIVE -> Alert.resolved_at a = None ->
             accepts P (Add_Alert a)) ->
  (forall p, accepts P (Add_Product p)) ->
  (forall p, accepts P (Dirty_Product p)) ->
  (forall p, accepts P (Delete_Product p)) ->
  stable P (Main.handle r).
Proof.
  intros Hlog Hdirty Halert Hadd Hupd Hdel.
  destruct r;
    try (apply stable_handle_but_delete; auto; intros; discriminate).
  simpl. apply stable_fmap, stable_get_db.
  now apply stable_delete_product.
Qed.

End Stable.

(** ** The invariant of the alert lifecycle *)

Lemma alert_ok_resolved (a : Alert.t) (now : datetime) :
  alert_ok (resolved a now).
Proof. unfold alert_ok, resolved. simpl. split; [auto|discriminate]. Qed.

Lemma alert_ok_active (a : Alert.t) :
  Alert.status a = ACTIVE -> Alert.resolved_at a = None -> alert_ok a.
Proof.
  unfold alert_ok. intros -> ->. split; [congruence|discriminate].
Qed.

Lemma alert_ok_security_alert (resource : Resource.t) (event_type : string)
      (details : option (Py.dict json)) (w : World) :
  alert_ok (security_alert resource event_type details w).
Proof. now apply alert_ok_active. Qed.

Lemma flush_one_alerts_ok (d d' : Store) (c : pending) :
  alerts_ok d -> pending_ok c -> flush_one d c = Some d' -> alerts_ok d'.
Proof.
  unfold alerts_ok. intros Hd Hc.
  destruct c as [p|a|l|p|a|p]; simpl.
  - destruct (_ || _); [discriminate|]. now intros [= <-].
  - destruct (uuid_in _ _); [discriminate|]. intros [= <-]. simpl.
    apply Forall_app. split; [exact Hd|]. now constructor.
  - case_guard; [discriminate|]. now intros [= <-].
  - destruct (existsb _ _); [discriminate|]. now intros [= <-].
  - intros [= <-]. simpl. unfold update_alert.
    apply Forall_map. eapply Forall_impl; [|exact Hd].
    intros r Hr. simpl. now destruct (N.eqb (Alert.id r) (Alert.id a)).
  - intros [= <-]. simpl. rewrite Forall_forall in *.
    intros x Hx. apply filter_In in Hx. now apply Hd.
Qed.

Lemma lifecycle_inv_flush (d : Store) (s : list pending) (d' : Store) :
  lifecycle_inv d s -> flush s d = Some d' -> lifecycle_inv d' [].
Proof.
  unfold lifecycle_inv. revert d.
  induction s as [|c rest IH]; intros d [Hd Hs]; simpl.
  - intros [= <-]. auto.
  - inversion Hs as [|? ? Hc Hrest]; subst.
    destruct (flush_one d c) as [d1|] eqn:E; [|discriminate].
    apply IH. split; [|exact Hrest].
    now apply (flush_one_alerts_ok d d1 c).
Qed.

Lemma lifecycle_inv_close (d : Store) (s : list pending) :
  lifecycle_inv d s -> lifecycle_inv d [].
Proof. intros [Hd _]. split; [exact Hd|constructor]. Qed.

Lemma lifecycle_inv_accepts (c : pending) :
  pending_ok c -> accepts lifecycle_inv c.
Proof.
  intros Hc d s [Hd Hs]. split; [exact Hd|].
  apply Forall_app. split; [exact Hs|]. now constructor.
Qed.

Lemma lifecycle_inv_handle (r : Main.request) :
  stable lifecycle_inv (Main.handle r).
Proof.
  apply stable_handle.
  - exact lifecycle_inv_flush.
  - exact lifecycle_inv_close.
  - intros l. now apply lifecycle_inv_accepts.
  - intros a now. apply lifecycle_inv_accepts, alert_ok_resolved.
  - intros a Hs Hr. now apply lifecycle_inv_accepts, alert_ok_active.
  - intros p. now apply lifecycle_inv_accepts.
  - intros p. now apply lifecycle_inv_accepts.
  - intros p. now apply lifecycle_inv_accepts.
Qed.

Lemma handle_closes_session (r : Main.request) (w : World) :
  session (snd (Main.handle r w)) = [].
Proof.
  assert (Hget : forall A (body : M A) w0,
             session (snd (get_db body w0)) = []).
  { intros A body w0. unfold get_db.
    now destruct (body (with_session w0 [])). }
  assert (Hfmap : forall A B (f : A -> B) (m : M A) w0,
             session (snd (m w0)) = [] ->
             session (snd (Main.fmap f m w0)) = []).
  { intros A B f m w0 H. unfold Main.fmap, bind, ret.
    now destruct (m w0) as [[a|e] w1]. }
  destruct r; simpl; apply Hfmap; apply Hget.
Qed.

Lemma alerts_ok_handle (r : Main.request) (w : World) :
  alerts_ok (db w) -> alerts_ok (db (snd (Main.handle r w))).
Proof.
  intros H.
  assert (H0 : lifecycle_inv (db (with_session w []))
                             (session (with_session w []))).
  { split; [exact H|constructor]. }
  assert (Heq : forall r0 w0,
             Main.handle r0 (with_session w0 []) = Main.handle r0 w0).
  { intros r0 w0. destruct r0; reflexivity. }
  pose proof (lifecycle_inv_handle r _ H0) as [H1 _].
  now rewrite Heq in H1.
Qed.

(** C7. Every alert of the store has [resolved_at] set if and only if its
    status is [resolved], after every request the application serves, in
    particular after [detect_security_event], [deliver_alert] and
    [resolve_alert], whatever the channels and the database answer: the
    alert that [detect_security_event] creates is [active] without
    [resolved_at], the alert that [resolve_alert] writes has both the status
    [resolved] and [resolved_at], and nothing else writes either field. *)
Theorem resolved_at_iff_resolved
        (rs : list Main.request) (w : World)
        (Hinv : alerts_ok (db w)) :
  alerts_ok (db (Main.serve rs w))
  /\ (forall r, alerts_ok (db (snd (Main.handle r w))))
  /\ (session w = [] ->
      (forall resource_id event_type actor details,
          alerts_ok (db (snd (SecurityEvents.detect_security_event
                                resource_id event_type actor details w))))
      /\ (forall alert incident,
             alerts_ok (db (snd (Alerting.deliver_alert alert incident w))))
      /\ (forall alert actor,
             alerts_ok (db (snd (Alerting.resolve_alert alert actor w)))))
  /\ (forall resource event_type details w0,
         let created := security_alert resource event_type details w0 in
         Alert.status created = ACTIVE
         /\ Alert.resolved_at created = None
         /\ alert_ok created)
  /\ (forall alert now,
         Alert.status (resolved alert now) = RESOLVED
         /\ Alert.resolved_at (resolved alert now) = Some now
         /\ alert_ok (resolved alert now)).
Proof.
  split; [|split; [|split; [|split]]].
  - revert w Hinv. induction rs as [|r rest IH]; intros w Hinv; simpl.
    + exact Hinv.
    + apply IH. now apply alerts_ok_handle.
  - intros r. now apply alerts_ok_handle.
  - intros Hs.
    assert (H0 : lifecycle_inv (db w) (session w)).
    { rewrite Hs. split; [exact Hinv|constructor]. }
    split; [|split].
    + intros resource_id event_type actor details.
      apply (stable_detect_security_event lifecycle_inv
               lifecycle_inv_flush resource_id event_type actor details);
        [ intros l; now apply lifecycle_inv_accepts
        | intros a Ha Hr; now apply lifecycle_inv_accepts, alert_ok_active
        | exact H0 ].
    + intros alert incident.
      apply (stable_deliver_alert lifecycle_inv lifecycle_inv_flush
               alert incident);
        [ intros l; now apply lifecycle_inv_accepts | exact H0 ].
    + intros alert actor.
      apply (stable_resolve_alert lifecycle_inv lifecycle_inv_flush
               alert actor);
        [ intros l; now apply lifecycle_inv_accepts
        | intros now; apply lifecycle_inv_accepts, alert_ok_resolved
        | exact H0 ].
  - intros resource event_type details w0. cbv zeta.
    split; [reflexivity|]. split; [reflexivity|].
    apply alert_ok_security_alert.
  - intros alert now.
    split; [reflexivity|]. split; [reflexivity|].
    apply alert_ok_resolved.
Qed.

Lemma resolved_at_iff_resolved_witness :
  let w := quiet_world sample_store true false in
  let rs := [Main.POST_security_event 3 "policy_violation" None None;
             Main.POST_alert_deliver 7;
             Main.POST_alert_resolve 7 (Some "oncall");
             Main.POST_alert_resolve 7 (Some "oncall")] in
  alerts_ok (db w)
  /\ alerts_ok (db (Main.serve rs w))
  /\ map Alert.status (alerts (db (Main.serve rs w))) = [RESOLVED; ACTIVE]
  /\ map Alert.resolved_at (alerts (db (Main.serve rs w)))
     = [Some 504%Z; None].
Proof.
  intros w rs.
  assert (H : alerts_ok (db w)).
  { repeat constructor; simpl; [congruence|discriminate]. }
  split; [exact H|].
  split; [exact (proj1 (resolved_at_iff_resolved rs w H))|].
  split; reflexivity.
Defined.

(** Two resolve requests for the same alert leave it resolved, and no
    [alert_resolved] entry in the ledger. *)
Example resolve_twice_logs_nothing :
  let w := quiet_world sample_store true false in
  let rs := [Main.POST_alert_resolve 7 (Some "oncall");
             Main.POST_alert_resolve 7 (Some "oncall")] in
  map Alert.status (alerts (db (Main.serve rs w))) = [RESOLVED]
  /\ map AuditLog.event_type (audit_logs (db (Main.serve rs w)))
     = ["alert_generated"].
Proof. vm_compute. auto. Qed.

(** ** Listing the audit log *)

Section OrderByFacts.
Variable A : Type.
Variable key : A -> datetime.

Lemma insert_desc_perm (x : A) (l : list A) :
  Permutation (x :: l) (insert_desc key x l).
Proof.
  induction l as [|y r IH]; simpl; [reflexivity|].
  destruct (key y <=? key x)%Z; [reflexivity|].
  rewrite perm_swap. now apply perm_skip.
Qed.

Lemma order_by_desc_perm (l : list A) :
  Permutation l (order_by_desc key l).
Proof.
  induction l as [|x r IH]; simpl; [constructor|].
  rewrite <- insert_desc_perm. now apply perm_skip.
Qed.

Lemma insert_desc_sorted (x : A) (l : list A) :
  newest_first key l -> newest_first key (insert_desc key x l).
Proof.
  unfold newest_first.
  induction l as [|y r IH]; intros Hs; simpl.
  - constructor; [constructor|constructor].
  - inversion Hs as [|? ? Hr Hy]; subst.
    destruct (Z.leb_spec (key y) (key x)) as [Hle|Hlt].
    + constructor; [exact Hs|].
      constructor; [exact Hle|].
      eapply Forall_impl; [|exact Hy]. simpl. intros z Hz. lia.
    + constructor; [now apply IH|].
      apply (Permutation_Forall (insert_desc_perm x r)).
      constructor; [lia|exact Hy].
Qed.

Lemma order_by_desc_sorted (l : list A) :
  newest_first key (order_by_desc key l).
Proof.
  induction l as [|x r IH]; simpl; [constructor|].
  now apply insert_desc_sorted.
Qed.

Lemma newest_first_app (l1 l2 : list A) :
  newest_first key (l1 ++ l2) -> newest_first key l1 /\ newest_first key l2.
Proof.
  unfold newest_first. induction l1 as [|x r IH]; simpl; intros H.
  - split; [constructor|exact H].
  - inversion H as [|? ? Hr Hx]; subst.
    destruct (IH Hr) as [H1 H2]. split; [|exact H2].
    constructor; [exact H1|].
    apply Forall_app in Hx. tauto.
Qed.

Lemma newest_first_page (skip limit : nat) (l : list A) :
  newest_first key l -> newest_first key (firstn limit (skipn skip l)).
Proof.
  intros H.
  rewrite <- (firstn_skipn skip l) in H.
  apply newest_first_app in H. destruct H as [_ H].
  rewrite <- (firstn_skipn limit (skipn skip l)) in H.
  now apply newest_first_app in H.
Qed.

Lemma In_page (skip limit : nat) (l : list A) (x : A) :
  In x (firstn limit (skipn skip l)) -> In x l.
Proof.
  intros H.
  rewrite <- (firstn_skipn skip l). apply in_or_app. right.
  rewrite <- (firstn_skipn limit (skipn skip l)). apply in_or_app.
  now left.
Qed.

End OrderByFacts.

Lemma col_eq_true (x : option UUID) (v : UUID) :
  col_eq x v = true <-> x = Some v.
Proof.
  destruct x as [u|]; simpl.
  - rewrite N.eqb_eq. split; congruence.
  - split; discriminate.
Qed.

Lemma query_page_run {A} (table : Store -> list A) (p : A -> bool)
      (key : A -> datetime) (skip limit : nat) (w : World) :
  faults w 0%nat = false ->
  query_page table p key skip limit w
  = (Ok (firstn limit
            (skipn skip (order_by_desc key (filter p (table (db w)))))),
     with_faults w (stl (faults w))).
Proof.
  intros Hf. unfold query_page. run_monad.
  rewrite Hf. reflexivity.
Qed.

(** C8, as the code has it. Listing the audit log for an incident returns
    only entries of the store whose [incident_id] is the given one, newest
    first by [event_time]: of these entries so ordered, the page of at most
    [limit] that follows the first [skip]. It returns all of them when
    [skip] is 0 and they are at most [limit]. Without a filter the same
    holds of all the entries of the store. The store is left as it was. *)
Theorem get_audit_logs_page
        (incident_id : option UUID) (skip limit : nat) (w : World)
        (Hdb : faults w 0%nat = false) :
  let matching :=
    filter (AuditLogs.audit_filter incident_id None) (audit_logs (db w)) in
  exists result w',
    AuditLogs.get_audit_logs incident_id None skip limit w = (Ok result, w')
    /\ db w' = db w
    /\ result
       = firstn limit
           (skipn skip (order_by_desc AuditLog.event_time matching))
    /\ newest_first AuditLog.event_time result
    /\ (forall l, In l result ->
                  In l (audit_logs (db w))
                  /\ forall i, incident_id = Some i ->
                               AuditLog.incident_id l = Some i)
    /\ (skip = 0%nat -> (List.length matching <= limit)%nat ->
        Permutation matching result)
    /\ (forall i l, incident_id = Some i ->
                    (In l matching <->
                     In l (audit_logs (db w))
                     /\ AuditLog.incident_id l = Some i))
    /\ (incident_id = None -> matching = audit_logs (db w)).
Proof.
  intros matching.
  unfold AuditLogs.get_audit_logs.
  rewrite (query_page_run audit_logs _ AuditLog.event_time skip limit w Hdb).
  fold matching.
  assert (Hmatch : forall i l, incident_id = Some i ->
                     (In l matching <->
                      In l (audit_logs (db w))
                      /\ AuditLog.incident_id l = Some i)).
  { intros i l ->. unfold matching. rewrite filter_In.
    unfold AuditLogs.audit_filter. rewrite andb_true_r, col_eq_true.
    reflexivity. }
  eexists. eexists. split; [reflexivity|].
  split; [reflexivity|]. split; [reflexivity|].
  split; [apply newest_first_page, order_by_desc_sorted|].
  split; [|split; [|split; [exact Hmatch|]]].
  - intros l Hl. apply In_page in Hl.
    apply (Permutation_in l (Permutation_sym
                               (order_by_desc_perm _ AuditLog.event_time
                                                   matching))) in Hl.
    split.
    + unfold matching in Hl. now apply filter_In in Hl.
    + intros i Hi. now apply (Hmatch i l Hi).
  - intros -> Hlen. simpl.
    rewrite firstn_all2.
    + apply order_by_desc_perm.
    + now rewrite <- (Permutation_length
                        (order_by_desc_perm _ AuditLog.event_time matching)).
  - intros ->. unfold matching, AuditLogs.audit_filter. simpl.
    induction (audit_logs (db w)) as [|l r IH]; simpl; [reflexivity|].
    now rewrite IH.
Qed.

Lemma get_audit_logs_page_witness :
  let w := quiet_world sample_store true true in
  faults w 0%nat = false
  /\ exists result w',
      AuditLogs.get_audit_logs (Some 5%N) None 0 100 w = (Ok result, w')
      /\ result = [sample_audit_log].
Proof.
  intros w. split; [reflexivity|].
  destruct (get_audit_logs_page (Some 5%N) 0 100 w eq_refl)
    as (result & w' & H1 & _ & H2 & _).
  exists result, w'. split; [exact H1|exact H2].
Defined.

(** With the default [skip] and [limit], the listing of a ledger of 101
    entries of one incident misses the oldest of them, filtered by the
    incident or not: it does not return exactly the matching entries. *)
Lemma get_audit_logs_misses_entries :
  let w := quiet_world (mkStore [] [] [] [] long_ledger) true true in
  let oldest := AuditLog.mk 0 (Some 5%N) None "alert_generated" 0
                            (Some "system") None in
  In oldest (audit_logs (db w))
  /\ AuditLog.incident_id oldest = Some 5%N
  /\ (exists result w',
         AuditLogs.get_audit_logs (Some 5%N) None AuditLogs.default_skip
                                  AuditLogs.default_limit w = (Ok result, w')
         /\ List.length result = 100%nat
         /\ ~ In oldest result)
  /\ (exists result w',
         AuditLogs.get_audit_logs None None AuditLogs.default_skip
                                  AuditLogs.default_limit w = (Ok result, w')
         /\ List.length result = 100%nat
         /\ ~ In oldest result).
Proof.
  intros w oldest.
  assert (Hmiss : forall result,
             existsb (fun l => N.eqb (AuditLog.id l) 0) result = false ->
             ~ In oldest result).
  { intros result Hex Hin.
    assert (Ht : existsb (fun l => N.eqb (AuditLog.id l) 0) result = true).
    { apply existsb_exists. exists oldest. split; [exact Hin|reflexivity]. }
    congruence. }
  split; [now left|]. split; [reflexivity|]. split.
  - eexists. eexists. split; [reflexivity|].
    split; [reflexivity|]. apply Hmiss. reflexivity.
  - eexists. eexists. split; [reflexivity|].
    split; [reflexivity|]. apply Hmiss. reflexivity.
Qed.

(** ** The audit ledger *)

Lemma flush_one_extends (base : list AuditLog.t) (d d' : Store)
      (c : pending) :
  (exists suffix, audit_logs d = base ++ suffix) ->
  no_delete c ->
  flush_one d c = Some d' ->
  exists suffix, audit_logs d' = base ++ suffix.
Proof.
  intros [suffix Hd] Hc.
  destruct c as [p|a|l|p|a|p]; simpl in *; try contradiction.
  - destruct (_ || _); [discriminate|]. intros [= <-]. simpl. eauto.
  - destruct (uuid_in _ _); [discriminate|]. intros [= <-]. simpl. eauto.
  - case_guard; [discriminate|]. intros [= <-]. simpl.
    exists (suffix ++ [l]). now rewrite Hd, app_assoc.
  - destruct (existsb _ _); [discriminate|]. intros [= <-]. simpl. eauto.
  - intros [= <-]. simpl. eauto.
Qed.

Lemma ledger_extends_flush (base : list AuditLog.t) (d : Store)
      (s : list pending) (d' : Store) :
  ledger_extends base d s -> flush s d = Some d' -> ledger_extends base d' [].
Proof.
  unfold ledger_extends. revert d.
  induction s as [|c rest IH]; intros d [Hd Hs]; simpl.
  - intros [= <-]. auto.
  - inversion Hs as [|? ? Hc Hrest]; subst.
    destruct (flush_one d c) as [d1|] eqn:E; [|discriminate].
    apply IH. split; [|exact Hrest].
    now apply (flush_one_extends base d d1 c).
Qed.

Lemma ledger_extends_accepts (base : list AuditLog.t) (c : pending) :
  no_delete c -> accepts (ledger_extends base) c.
Proof.
  intros Hc d s [Hd Hs]. split; [exact Hd|].
  apply Forall_app. split; [exact Hs|]. now constructor.
Qed.

(** Every request other than the deletion of a product leaves the entries
    of the ledger in place and unchanged, and at most appends to them. *)
Lemma audit_log_append_only (r : Main.request) (w : World) :
  (forall product_id, r <> Main.DELETE_product product_id) ->
  exists suffix,
    audit_logs (db (snd (Main.handle r w))) = audit_logs (db w) ++ suffix.
Proof.
  intros Hr.
  assert (Hst : stable (ledger_extends (audit_logs (db w))) (Main.handle r)).
  { apply stable_handle_but_delete; try exact Hr.
    - apply ledger_extends_flush.
    - intros d s [Hd _]. split; [exact Hd|constructor].
    - intros l. now apply ledger_extends_accepts.
    - intros a now. now apply ledger_extends_accepts.
    - intros a _ _. now apply ledger_extends_accepts.
    - intros p. now apply ledger_extends_accepts.
    - intros p. now apply ledger_extends_accepts. }
  assert (Heq : Main.handle r (with_session w []) = Main.handle r w).
  { destruct r; reflexivity. }
  assert (H0 : ledger_extends (audit_logs (db w))
                 (db (with_session w [])) (session (with_session w []))).
  { split; [exists []; simpl; now rewrite app_nil_r|constructor]. }
  pose proof (Hst _ H0) as [H1 _]. now rewrite Heq in H1.
Qed.

(** C6. The ledger is meant to be immutable: an entry, once written, is
    never updated or deleted by an operation of the application. The
    deletion of a product breaks this. Deleting product 1 of
    [audited_store] cascades to its resource 3, to the incident 5 and the
    alert 7 of that resource, and removes the audit entry 9 of the incident;
    the audit entry 11, which only refers to the alert, stays with its
    [alert_id] cleared. *)
Theorem delete_product_rewrites_ledger :
  let w := quiet_world audited_store true true in
  let w' := snd (Main.handle (Main.DELETE_product 1) w) in
  audit_logs (db w) = [sample_audit_log; orphan_audit_log]
  /\ fst (Main.handle (Main.DELETE_product 1) w) = Ok Main.A_no_content
  /\ audit_logs (db w') = [AuditLog.set_alert_id orphan_audit_log None]
  /\ ~ In sample_audit_log (audit_logs (db w'))
  /\ ~ In orphan_audit_log (audit_logs (db w'))
  /\ alerts (db w') = []
  /\ incidents (db w') = [].
Proof.
  intros w w'.
  assert (Hlogs : audit_logs (db w')
                  = [AuditLog.set_alert_id orphan_audit_log None])
    by reflexivity.
  repeat split; try reflexivity.
  - rewrite Hlogs. intros [H|[]]. discriminate.
  - rewrite Hlogs. intros [H|[]]. discriminate.
Qed.

(** * Further properties of the code *)

(** ** crud.py: products *)

Lemma find_name_none (name : string) (ps : list Product.t) :
  find (fun q => String.eqb (Product.name q) name) ps = None
  <-> Py.in_list name (map Product.name ps) = false.
Proof.
  unfold Py.in_list.
  induction ps as [|p rest IH]; simpl; [tauto|].
  rewrite (String.eqb_sym name).
  destruct (String.eqb (Product.name p) name); simpl; [|exact IH].
  split; discriminate.
Qed.

Lemma find_name_some (name : string) (ps : list Product.t) :
  In name (map Product.name ps) ->
  exists p, find (fun q => String.eqb (Product.name q) name) ps = Some p.
Proof.
  intros Hin.
  destruct (find (fun q => String.eqb (Product.name q) name) ps) as [p|] eqn:E;
    [eauto|].
  apply find_name_none in E. apply in_list_In in Hin. congruence.
Qed.

(** X1. Creating a product under a name that is taken is refused with 409
    Conflict when the database answers, and in no case changes the store
    or leaves anything pending. *)
Theorem create_product_conflict
        (name : string) (description : option string) (w : World)
        (Htaken : In name (map Product.name (products (db w)))) :
  db (snd (Crud.create_product name description w)) = db w
  /\ session (snd (Crud.create_product name description w)) = session w
  /\ (faults w 0%nat = false ->
      fst (Crud.create_product name description w)
      = Raise (HTTPException 409 "Product with this name already exists."))
  /\ (faults w 0%nat = true ->
      fst (Crud.create_product name description w) = Raise SQLAlchemyError).
Proof.
  destruct (find_name_some name (products (db w)) Htaken) as [p Hp].
  unfold Crud.create_product.
  destruct w as [d s c u f sm wh url rt]. simpl in *.
  run_monad. destruct (f 0%nat); simpl.
  - repeat split; try reflexivity. discriminate.
  - rewrite Hp. simpl. repeat split; try reflexivity. discriminate.
Qed.

Lemma create_product_conflict_witness :
  let w := quiet_world sample_store true true in
  In "payments" (map Product.name (products (db w)))
  /\ db (snd (Crud.create_product "payments" None w)) = db w
  /\ fst (Crud.create_product "payments" None w)
     = Raise (HTTPException 409 "Product with this name already exists.").
Proof.
  intros w.
  assert (H : In "payments" (map Product.name (products (db w))))
    by (simpl; auto).
  destruct (create_product_conflict "payments" None w H)
    as (H1 & _ & H2 & _).
  split; [exact H|]. split; [exact H1|]. apply H2. reflexivity.
Defined.

(** X2. A product under a new name is stored with a fresh identifier and the
    two clock readings as [created_at] and [updated_at]; nothing else in
    the store changes, and the product is found again by its identifier. *)
Theorem create_product_stored
        (name : string) (description : option string) (w : World)
        (Hsession : session w = [])
        (Hdb : reachable 4 w)
        (Hnew : ~ In name (map Product.name (products (db w))))
        (Hfresh : uuid_in (uuid4 w 0%nat) (map Product.id (products (db w)))
                  = false) :
  exists w',
    let product := Product.mk (uuid4 w 0%nat) name description
                              (clock w 0%nat) (clock w 1%nat) in
    Crud.create_product name description w = (Ok product, w')
    /\ products (db w') = products (db w) ++ [product]
    /\ resources (db w') = resources (db w)
    /\ alerts (db w') = alerts (db w)
    /\ incidents (db w') = incidents (db w)
    /\ audit_logs (db w') = audit_logs (db w)
    /\ session w' = []
    /\ fst (Crud.get_product (Product.id product) w') = Ok product.
Proof.
  pose proof (Hdb 0%nat ltac:(lia)) as Hf0.
  pose proof (Hdb 1%nat ltac:(lia)) as Hf1.
  pose proof (Hdb 2%nat ltac:(lia)) as Hf2.
  pose proof (Hdb 3%nat ltac:(lia)) as Hf3.
  assert (Hname : Py.in_list name (map Product.name (products (db w)))
                  = false).
  { destruct (Py.in_list name (map Product.name (products (db w)))) eqn:E;
      [|reflexivity].
    apply in_list_In in E. contradiction. }
  pose proof (proj2 (find_name_none name (products (db w))) Hname) as Hfind.
  unfold Crud.create_product, Crud.get_product.
  destruct w as [d s c u f sm wh url rt]. simpl in *. subst s.
  run_monad. rewrite Hf0. simpl. rewrite Hfind. simpl.
  rewrite Hf1. simpl. rewrite Hfresh, Hname. simpl. rewrite Hf2. simpl.
  match goal with
  | |- context [find ?p (?l ++ [?x])] =>
      change (find p (l ++ [x]))
        with (find (fun r => N.eqb (Product.id r) (Product.id x)) (l ++ [x]));
      rewrite (find_appended Product.id l x Hfresh)
  end.
  eexists. split; [reflexivity|]. simpl. rewrite Hf3. simpl.
  match goal with
  | |- context [find ?p (?l ++ [?x])] =>
      change (find p (l ++ [x]))
        with (find (fun r => N.eqb (Product.id r) (Product.id x)) (l ++ [x]));
      rewrite (find_appended Product.id l x Hfresh)
  end.
  repeat split.
Qed.

Lemma create_product_stored_witness :
  let w := quiet_world sample_store true true in
  session w = []
  /\ reachable 4 w
  /\ ~ In "billing" (map Product.name (products (db w)))
  /\ exists w',
      Crud.create_product "billing" None w
      = (Ok (Product.mk 1000 "billing" None 500 501), w')
      /\ products (db w')
         = [sample_product; Product.mk 1000 "billing" None 500 501].
Proof.
  intros w.
  assert (Hr : reachable 4 w) by (intros k _; reflexivity).
  assert (Hn : ~ In "billing" (map Product.name (products (db w))))
    by (simpl; intuition discriminate).
  split; [reflexivity|]. split; [exact Hr|]. split; [exact Hn|].
  destruct (create_product_stored "billing" None w eq_refl Hr Hn eq_refl)
    as (w' & H1 & H2 & _).
  exists w'. split; [exact H1|exact H2].
Defined.

Lemma find_id_none {A} (id : A -> UUID) (u : UUID) (rows : list A) :
  ~ In u (map id rows) -> find (fun r => N.eqb (id r) u) rows = None.
Proof.
  intros H. apply find_fresh.
  destruct (uuid_in u (map id rows)) eqn:E; [|reflexivity].
  apply uuid_in_In in E. contradiction.
Qed.

Lemma find_id_some {A} (id : A -> UUID) (u : UUID) (rows : list A) (x : A) :
  find (fun r => N.eqb (id r) u) rows = Some x -> In x rows /\ id x = u.
Proof.
  intros H. apply find_some in H. destruct H as [Hin He].
  apply N.eqb_eq in He. auto.
Qed.

(** X3. An identifier that names no product is answered with 404 Not Found by
    [update_product] and by [delete_product] when the database answers, and
    neither changes the store. *)
Theorem product_not_found
        (product_id : UUID) (name description : option string) (w : World)
        (Habsent : ~ In product_id (map Product.id (products (db w)))) :
  db (snd (Crud.update_product product_id name description w)) = db w
  /\ db (snd (Crud.delete_product product_id w)) = db w
  /\ (faults w 0%nat = false ->
      fst (Crud.update_product product_id name description w)
      = Raise (HTTPException 404 "Product not found.")
      /\ fst (Crud.delete_product product_id w)
         = Raise (HTTPException 404 "Product not found.")
      /\ fst (Crud.get_product product_id w)
         = Raise (HTTPException 404 "Product not found.")).
Proof.
  pose proof (find_id_none Product.id product_id (products (db w)) Habsent)
    as Hfind.
  unfold Crud.update_product, Crud.delete_product, Crud.get_product.
  destruct w as [d s c u f sm wh url rt]. simpl in *.
  run_monad. destruct (f 0%nat); simpl.
  - repeat split; discriminate.
  - rewrite Hfind. simpl. repeat split.
Qed.

Lemma product_not_found_witness :
  let w := quiet_world sample_store true true in
  ~ In 2%N (map Product.id (products (db w)))
  /\ faults w 0%nat = false
  /\ fst (Crud.delete_product 2 w)
     = Raise (HTTPException 404 "Product not found.")
  /\ db (snd (Crud.delete_product 2 w)) = db w.
Proof.
  intros w.
  assert (H : ~ In 2%N (map Product.id (products (db w))))
    by (simpl; intuition discriminate).
  split; [exact H|]. split; [reflexivity|].
  destruct (product_not_found 2 None None w H) as (_ & H2 & H3).
  destruct (H3 eq_refl) as (_ & H4 & _).
  split; [exact H4|exact H2].
Defined.

Lemma find_updated_product (p : Product.t) (rows : list Product.t) :
  In (Product.id p) (map Product.id rows) ->
  find (fun r => N.eqb (Product.id r) (Product.id p))
       (update_product_row p rows)
  = Some p.
Proof.
  unfold update_product_row.
  induction rows as [|r rest IH]; simpl; [contradiction|].
  destruct (N.eqb (Product.id r) (Product.id p)) eqn:E; simpl.
  - intros _. now rewrite N.eqb_refl.
  - intros [H|H].
    + apply N.eqb_neq in E. congruence.
    + rewrite E. now apply IH.
Qed.

Lemma find_none_existsb {A} (p : A -> bool) (l : list A) :
  find p l = None -> existsb p l = false.
Proof.
  induction l as [|x r IH]; simpl; [reflexivity|].
  destruct (p x); [discriminate|exact IH].
Qed.

Lemma option_string_eqb_refl (a : option string) :
  option_string_eqb a a = true.
Proof. destruct a; simpl; [apply String.eqb_refl|reflexivity]. Qed.

(** X4. Renaming a product to the name of another product is refused with 409
    Conflict, and the store is left as it was. *)
Theorem update_product_conflict
        (product_id : UUID) (name : string) (description : option string)
        (product other : Product.t) (w : World)
        (Hdb : reachable 2 w)
        (Hfound : find (fun q => N.eqb (Product.id q) product_id)
                       (products (db w)) = Some product)
        (Hname : name <> "")
        (Hother : In other (products (db w)))
        (Hsame : Product.name other = name)
        (Hdiff : Product.id other <> product_id) :
  fst (Crud.update_product product_id (Some name) description w)
  = Raise (HTTPException 409
             "Another product with this name already exists.")
  /\ db (snd (Crud.update_product product_id (Some name) description w))
     = db w
  /\ session (snd (Crud.update_product product_id (Some name) description w))
     = session w.
Proof.
  pose proof (Hdb 0%nat ltac:(lia)) as Hf0.
  pose proof (Hdb 1%nat ltac:(lia)) as Hf1.
  assert (Hex : exists q,
             find (fun q => String.eqb (Product.name q) name
                            && negb (N.eqb (Product.id q) product_id))
                  (products (db w)) = Some q).
  { destruct (find (fun q => String.eqb (Product.name q) name
                             && negb (N.eqb (Product.id q) product_id))
                   (products (db w))) as [q|] eqn:E; [eauto|].
    pose proof (find_none _ _ E other Hother) as Hno. simpl in Hno.
    rewrite Hsame, String.eqb_refl in Hno.
    apply N.eqb_neq in Hdiff. rewrite Hdiff in Hno. discriminate. }
  destruct Hex as [q Hq].
  unfold Crud.update_product, Crud.get_product.
  destruct name as [|ch name']; [congruence|].
  destruct w as [d s c u f sm wh url rt]. simpl in *.
  run_monad. rewrite Hf0. simpl. rewrite Hfound. simpl.
  rewrite Hf1. simpl. rewrite Hq. simpl. repeat split.
Qed.

Lemma update_product_conflict_witness :
  let billing := Product.mk 2 "billing" None 105 105 in
  let w := quiet_world (mkStore [sample_product; billing] [] [] [] [])
                       true true in
  reachable 2 w
  /\ "billing" <> ""
  /\ In billing (products (db w))
  /\ Product.id billing <> 1%N
  /\ fst (Crud.update_product 1 (Some "billing") None w)
     = Raise (HTTPException 409
                "Another product with this name already exists.")
  /\ db (snd (Crud.update_product 1 (Some "billing") None w)) = db w.
Proof.
  intros billing w.
  assert (Hr : reachable 2 w) by (intros k _; reflexivity).
  assert (Hn : "billing" <> "") by discriminate.
  assert (Hin : In billing (products (db w))) by (simpl; auto).
  assert (Hd : Product.id billing <> 1%N) by discriminate.
  destruct (update_product_conflict 1 "billing" None sample_product billing w
              Hr eq_refl Hn Hin eq_refl Hd) as (H1 & H2 & _).
  auto 10.
Defined.

(** X5. An update that names nothing to change (no name or an empty one, no
    description or the stored one) emits no UPDATE: the store is left as
    it was, [updated_at] included, and the stored product is returned. *)
Theorem update_product_nothing
        (product_id : UUID) (name description : option string)
        (product : Product.t) (w : World)
        (Hsession : session w = [])
        (Hdb : reachable 3 w)
        (Hfound : find (fun q => N.eqb (Product.id q) product_id)
                       (products (db w)) = Some product)
        (Hname : Py.truthy_str name = false)
        (Hdescription : description = None
                        \/ description = Product.description product) :
  fst (Crud.update_product product_id name description w) = Ok product
  /\ db (snd (Crud.update_product product_id name description w)) = db w.
Proof.
  pose proof (Hdb 0%nat ltac:(lia)) as Hf0.
  pose proof (Hdb 1%nat ltac:(lia)) as Hf1.
  pose proof (Hdb 2%nat ltac:(lia)) as Hf2.
  destruct (find_id_some Product.id product_id _ _ Hfound) as [_ Hid].
  unfold Crud.update_product, Crud.get_product. rewrite Hname.
  assert (Hsame : match description with
                  | Some _ =>
                      Product.mk (Product.id product) (Product.name product)
                        description (Product.created_at product)
                        (Product.updated_at product)
                  | None => product
                  end = product).
  { destruct Hdescription as [->| ->]; [reflexivity|].
    destruct product as [i n [x|] ca ua]; reflexivity. }
  destruct w as [d s c u f sm wh url rt]. simpl in *. subst s.
  run_monad. rewrite Hf0. simpl. rewrite Hfound. simpl.
  rewrite Hsame, String.eqb_refl, option_string_eqb_refl. simpl.
  rewrite Hf1. simpl. rewrite Hf2. simpl.
  rewrite Hid, Hfound. simpl. destruct d; auto.
Qed.

Lemma update_product_nothing_witness :
  let w := quiet_world sample_store true true in
  session w = []
  /\ reachable 3 w
  /\ Py.truthy_str (Some "") = false
  /\ fst (Crud.update_product 1 (Some "") None w) = Ok sample_product
  /\ db (snd (Crud.update_product 1 (Some "") None w)) = db w.
Proof.
  intros w.
  assert (Hr : reachable 3 w) by (intros k _; reflexivity).
  split; [reflexivity|]. split; [exact Hr|]. split; [reflexivity|].
  exact (update_product_nothing 1 (Some "") None sample_product w
           eq_refl Hr eq_refl eq_refl (or_introl eq_refl)).
Defined.

(** X6. Renaming a stored product to a name no other product has rewrites its
    row: the new name, the given description (the stored one when none is
    given), the clock reading as [updated_at], and the same [id] and
    [created_at]. The other tables are left as they were. *)
Theorem update_product_renamed
        (product_id : UUID) (name : string) (description : option string)
        (product : Product.t) (w : World)
        (Hsession : session w = [])
        (Hdb : reachable 4 w)
        (Hfound : find (fun q => N.eqb (Product.id q) product_id)
                       (products (db w)) = Some product)
        (Hname : name <> "")
        (Hchanged : name <> Product.name product)
        (Hfree : find (fun q => String.eqb (Product.name q) name
                                && negb (N.eqb (Product.id q) product_id))
                      (products (db w)) = None) :
  let updated :=
    Product.mk product_id name
      (match description with
       | Some _ => description
       | None => Product.description product
       end)
      (Product.created_at product) (clock w 0%nat) in
  exists w',
    Crud.update_product product_id (Some name) description w
    = (Ok updated, w')
    /\ products (db w') = update_product_row updated (products (db w))
    /\ In updated (products (db w'))
    /\ resources (db w') = resources (db w)
    /\ alerts (db w') = alerts (db w)
    /\ incidents (db w') = incidents (db w)
    /\ audit_logs (db w') = audit_logs (db w).
Proof.
  intros updated.
  pose proof (Hdb 0%nat ltac:(lia)) as Hf0.
  pose proof (Hdb 1%nat ltac:(lia)) as Hf1.
  pose proof (Hdb 2%nat ltac:(lia)) as Hf2.
  pose proof (Hdb 3%nat ltac:(lia)) as Hf3.
  destruct (find_id_some Product.id product_id _ _ Hfound) as [Hin Hid].
  assert (Hstored : In (Product.id updated) (map Product.id (products (db w)))).
  { simpl. rewrite <- Hid. now apply in_map. }
  pose proof (find_updated_product updated (products (db w)) Hstored) as Hup.
  pose proof (find_none_existsb _ _ Hfree) as Hex.
  assert (Hneq : String.eqb name (Product.name product) = false)
    by now apply String.eqb_neq.
  subst updated.
  unfold Crud.update_product, Crud.get_product.
  destruct name as [|ch name']; [congruence|].
  destruct w as [d s c u f sm wh url rt]. simpl in *. subst s.
  run_monad. rewrite Hf0. simpl. rewrite Hfound. simpl.
  rewrite Hf1. simpl. rewrite Hfree. simpl.
  destruct description as [x|]; simpl; rewrite Hneq; simpl;
    rewrite Hf2; simpl; rewrite Hid, Hex; simpl; rewrite Hf3; simpl;
    rewrite Hup; (eexists; split; [reflexivity|]); simpl;
    (repeat split);
    apply (find_id_some Product.id product_id _ _ Hup).
Qed.

Lemma update_product_renamed_witness :
  let w := quiet_world sample_store true true in
  session w = []
  /\ reachable 4 w
  /\ "ledger" <> ""
  /\ "ledger" <> Product.name sample_product
  /\ exists w',
      Crud.update_product 1 (Some "ledger") None w
      = (Ok (Product.mk 1 "ledger" (Some "Payment services") 100 500), w')
      /\ products (db w')
         = [Product.mk 1 "ledger" (Some "Payment services") 100 500].
Proof.
  intros w.
  assert (Hr : reachable 4 w) by (intros k _; reflexivity).
  assert (H1 : "ledger" <> "") by discriminate.
  assert (H2 : "ledger" <> Product.name sample_product) by discriminate.
  split; [reflexivity|]. split; [exact Hr|]. split; [exact H1|].
  split; [exact H2|].
  destruct (update_product_renamed 1 "ledger" None sample_product w
              eq_refl Hr eq_refl H1 H2 eq_refl) as (w' & Ha & Hb & _).
  exists w'. split; [exact Ha|exact Hb].
Defined.

(** ** crud.py: the deletion of a product and its cascade *)

Lemma delete_product_run (product_id : UUID) (product : Product.t)
      (w : World) :
  session w = [] ->
  faults w 0%nat = false ->
  faults w 1%nat = false ->
  find (fun q => N.eqb (Product.id q) product_id) (products (db w))
  = Some product ->
  Crud.delete_product product_id w
  = (Ok tt,
     mkWorld (cascade_delete_product product (db w)) []
             (clock w) (uuid4 w) (stl (stl (faults w)))
             (smtp w) (webhook w) (SLACK_WEBHOOK_URL w) (runtime w)).
Proof.
  intros Hs Hf0 Hf1 Hfound.
  unfold Crud.delete_product, Crud.get_product.
  destruct w as [d s c u f sm wh url rt]. simpl in *. subst s.
  run_monad. rewrite Hf0. simpl. rewrite Hfound. simpl.
  rewrite Hf1. reflexivity.
Qed.

Lemma filter_all {A} (p : A -> bool) (l : list A) :
  (forall x, In x l -> p x = true) -> filter p l = l.
Proof.
  induction l as [|x r IH]; simpl; intros H; [reflexivity|].
  rewrite (H x (or_introl eq_refl)). f_equal. apply IH. auto.
Qed.

Lemma filter_none {A} (p : A -> bool) (l : list A) :
  (forall x, In x l -> p x = false) -> filter p l = [].
Proof.
  induction l as [|x r IH]; simpl; intros H; [reflexivity|].
  rewrite (H x (or_introl eq_refl)). apply IH. auto.
Qed.

Lemma map_same {A} (f : A -> A) (l : list A) :
  (forall x, In x l -> f x = x) -> map f l = l.
Proof.
  induction l as [|x r IH]; simpl; intros H; [reflexivity|].
  rewrite (H x (or_introl eq_refl)). f_equal. apply IH. auto.
Qed.

(** X7. Deleting a product that has no resource removes the rows of [products]
    with its identifier and nothing else: resources, alerts, incidents and
    the audit ledger are left as they were, and the product is no longer
    found. *)
Theorem delete_product_without_resources
        (product_id : UUID) (product : Product.t) (w : World)
        (Hsession : session w = [])
        (Hdb : reachable 3 w)
        (Hfound : find (fun q => N.eqb (Product.id q) product_id)
                       (products (db w)) = Some product)
        (Hbare : forall r, In r (resources (db w)) ->
                           Resource.product_id r <> product_id) :
  exists w',
    Crud.delete_product product_id w = (Ok tt, w')
    /\ products (db w')
       = filter (fun q => negb (N.eqb (Product.id q) product_id))
                (products (db w))
    /\ resources (db w') = resources (db w)
    /\ alerts (db w') = alerts (db w)
    /\ incidents (db w') = incidents (db w)
    /\ audit_logs (db w') = audit_logs (db w)
    /\ fst (Crud.get_product product_id w')
       = Raise (HTTPException 404 "Product not found.").
Proof.
  pose proof (Hdb 0%nat ltac:(lia)) as Hf0.
  pose proof (Hdb 1%nat ltac:(lia)) as Hf1.
  pose proof (Hdb 2%nat ltac:(lia)) as Hf2.
  destruct (find_id_some Product.id product_id _ _ Hfound) as [_ Hid].
  rewrite (delete_product_run product_id product w Hsession Hf0 Hf1 Hfound).
  eexists. split; [reflexivity|].
  assert (Hnone : filter (fun r => N.eqb (Resource.product_id r)
                                         (Product.id product))
                         (resources (db w)) = []).
  { apply filter_none. intros r Hr. apply N.eqb_neq. rewrite Hid.
    now apply Hbare. }
  unfold cascade_delete_product. simpl. rewrite Hnone. simpl.
  rewrite Hid.
  assert (Hinc : filter (fun _ : Incident.t => false) (incidents (db w)) = [])
    by (apply filter_none; auto).
  assert (Hcol : forall x, col_in x [] = false) by (intros [x|]; reflexivity).
  split; [reflexivity|].
  split.
  { apply filter_all. intros r Hr. apply negb_true_iff, N.eqb_neq.
    now apply Hbare. }
  assert (Hi : filter (fun i => col_in (Incident.resource_id i) [])
                      (incidents (db w)) = []).
  { apply filter_none. intros i _. apply Hcol. }
  rewrite Hi. simpl.
  assert (Ha : filter (fun a => col_in (Alert.resource_id a) []
                                || col_in (Alert.incident_id a) [])
                      (alerts (db w)) = []).
  { apply filter_none. intros a _. now rewrite !Hcol. }
  rewrite Ha. simpl.
  split.
  { apply filter_all. intros a _. now rewrite !Hcol. }
  split.
  { apply filter_all. intros i _. now rewrite Hcol. }
  split.
  { rewrite (filter_all (fun l => negb (col_in (AuditLog.incident_id l) [])));
      [|intros l _; now rewrite Hcol].
    apply map_same. intros l _. now rewrite Hcol. }
  unfold Crud.get_product. run_monad. rewrite Hf2. simpl.
  rewrite (find_id_none Product.id product_id); [reflexivity|].
  intros Hin. apply in_map_iff in Hin. destruct Hin as (q & Hq & Hin).
  apply filter_In in Hin. destruct Hin as [_ Hne].
  apply negb_true_iff, N.eqb_neq in Hne. contradiction.
Qed.

Lemma delete_product_without_resources_witness :
  let billing := Product.mk 2 "billing" None 105 105 in
  let d := mkStore [sample_product; billing] [sample_resource] [sample_alert]
                   [sample_incident] [sample_audit_log] in
  let w := quiet_world d true true in
  session w = []
  /\ reachable 3 w
  /\ (forall r, In r (resources (db w)) -> Resource.product_id r <> 2%N)
  /\ exists w',
      Crud.delete_product 2 w = (Ok tt, w')
      /\ audit_logs (db w') = [sample_audit_log]
      /\ alerts (db w') = [sample_alert].
Proof.
  intros billing d w.
  assert (Hr : reachable 3 w) by (intros k _; reflexivity).
  assert (Hb : forall r, In r (resources (db w)) ->
                         Resource.product_id r <> 2%N).
  { intros r [<-|[]]. discriminate. }
  split; [reflexivity|]. split; [exact Hr|]. split; [exact Hb|].
  destruct (delete_product_without_resources 2 billing w eq_refl Hr eq_refl Hb)
    as (w' & H1 & _ & _ & H2 & _ & H3 & _).
  exists w'. auto.
Defined.

Lemma kept_ref {A} (id : A -> UUID) (removed : A -> bool) (rows : list A)
      (x : option UUID) :
  refers x (map id rows) ->
  col_in x (map id (filter removed rows)) = false ->
  refers x (map id (filter (fun r => negb (removed r)) rows)).
Proof.
  intros H Hc u ->. specialize (H u eq_refl).
  apply in_map_iff in H. destruct H as (r & Hr & Hin).
  destruct (removed r) eqn:E.
  - exfalso. simpl in Hc.
    assert (Ht : uuid_in u (map id (filter removed rows)) = true).
    { apply uuid_in_In, in_map_iff. exists r. split; [exact Hr|].
      apply filter_In. auto. }
    congruence.
  - apply in_map_iff. exists r. split; [exact Hr|].
    apply filter_In. split; [exact Hin|]. now rewrite E.
Qed.

Lemma cascade_refs_ok (p : Product.t) (d : Store) :
  refs_ok d -> refs_ok (cascade_delete_product p d).
Proof.
  unfold refs_ok, cascade_delete_product. simpl.
  intros (Hres & Hal & Hinc & Hlog).
  split; [|split; [|split]].
  - intros r Hr. apply filter_In in Hr. destruct Hr as [Hr Hne].
    apply negb_true_iff, N.eqb_neq in Hne.
    specialize (Hres r Hr). apply in_map_iff in Hres.
    destruct Hres as (q & Hq & Hin).
    apply in_map_iff. exists q. split; [exact Hq|].
    apply filter_In. split; [exact Hin|].
    apply negb_true_iff, N.eqb_neq. congruence.
  - intros a Ha. apply filter_In in Ha. destruct Ha as [Ha Hkeep].
    apply negb_true_iff, orb_false_iff in Hkeep.
    destruct Hkeep as [Hk1 Hk2]. destruct (Hal a Ha) as [H1 H2]. split.
    + now apply kept_ref.
    + now apply kept_ref.
  - intros i Hi. apply filter_In in Hi. destruct Hi as [Hi Hkeep].
    apply negb_true_iff in Hkeep. apply kept_ref; [now apply Hinc|exact Hkeep].
  - intros l' Hl'. apply in_map_iff in Hl'. destruct Hl' as (l & <- & Hl).
    apply filter_In in Hl. destruct Hl as [Hl Hkeep].
    apply negb_true_iff in Hkeep. destruct (Hlog l Hl) as [H1 H2].
    match goal with
    | |- context [if ?c then _ else _] => destruct c eqn:Ec
    end.
    + split.
      * simpl. now apply kept_ref.
      * simpl. intros u Hu. discriminate.
    + split.
      * now apply kept_ref.
      * apply (kept_ref Alert.id
                 (fun a => col_in (Alert.resource_id a)
                             (map Resource.id
                                (filter (fun r => N.eqb (Resource.product_id r)
                                                        (Product.id p))
                                        (resources d)))
                           || col_in (Alert.incident_id a)
                                (map Incident.id
                                   (filter
                                      (fun i =>
                                         col_in (Incident.resource_id i)
                                           (map Resource.id
                                              (filter
                                                 (fun r =>
                                                    N.eqb
                                                      (Resource.product_id r)
                                                      (Product.id p))
                                                 (resources d))))
                                      (incidents d))))
                 (alerts d)); [exact H2|exact Ec].
Qed.

(** X8. The deletion of a product leaves no dangling reference: in a store
    whose foreign keys all refer to stored rows they still do afterwards,
    no product with the identifier is left, and no resource of it. *)
Theorem delete_product_keeps_references
        (product_id : UUID) (product : Product.t) (w : World)
        (Hsession : session w = [])
        (Hdb : reachable 2 w)
        (Hfound : find (fun q => N.eqb (Product.id q) product_id)
                       (products (db w)) = Some product)
        (Hrefs : refs_ok (db w)) :
  exists w',
    Crud.delete_product product_id w = (Ok tt, w')
    /\ refs_ok (db w')
    /\ ~ In product_id (map Product.id (products (db w')))
    /\ ~ In product_id (map Resource.product_id (resources (db w'))).
Proof.
  pose proof (Hdb 0%nat ltac:(lia)) as Hf0.
  pose proof (Hdb 1%nat ltac:(lia)) as Hf1.
  destruct (find_id_some Product.id product_id _ _ Hfound) as [_ Hid].
  rewrite (delete_product_run product_id product w Hsession Hf0 Hf1 Hfound).
  eexists. split; [reflexivity|]. simpl.
  split; [now apply cascade_refs_ok|].
  unfold cascade_delete_product. simpl. rewrite Hid. split.
  - intros Hin. apply in_map_iff in Hin. destruct Hin as (q & Hq & Hin).
    apply filter_In in Hin. destruct Hin as [_ Hne].
    apply negb_true_iff, N.eqb_neq in Hne. contradiction.
  - intros Hin. apply in_map_iff in Hin. destruct Hin as (r & Hr & Hin).
    apply filter_In in Hin. destruct Hin as [_ Hne].
    apply negb_true_iff, N.eqb_neq in Hne. contradiction.
Qed.

Lemma delete_product_keeps_references_witness :
  let w := quiet_world audited_store true true in
  session w = []
  /\ reachable 2 w
  /\ refs_ok (db w)
  /\ exists w',
      Crud.delete_product 1 w = (Ok tt, w') /\ refs_ok (db w').
Proof.
  intros w.
  assert (Hr : reachable 2 w) by (intros k _; reflexivity).
  assert (Hrefs : refs_ok (db w)).
  { unfold refs_ok, refers. simpl.
    repeat split; intros;
      repeat match goal with
             | H : _ \/ _ |- _ => destruct H
             | H : False |- _ => destruct H
             | H : _ = _ |- _ => subst
             end;
      simpl in *; try discriminate;
      repeat match goal with
             | H : Some _ = Some _ |- _ => injection H as <-
             end; auto. }
  split; [reflexivity|]. split; [exact Hr|]. split; [exact Hrefs|].
  destruct (delete_product_keeps_references 1 sample_product w
              eq_refl Hr eq_refl Hrefs) as (w' & H1 & H2 & _).
  exists w'. auto.
Defined.

(** X9. What the deletion of a product does to the ledger, in general: every
    entry that is left is a stored entry, as it was or with its [alert_id]
    cleared and every other field as it was; an entry that belongs to no
    incident is always left; and the ledger never grows. *)
Theorem delete_product_ledger
        (product_id : UUID) (product : Product.t) (w : World)
        (Hsession : session w = [])
        (Hdb : reachable 2 w)
        (Hfound : find (fun q => N.eqb (Product.id q) product_id)
                       (products (db w)) = Some product) :
  exists w',
    Crud.delete_product product_id w = (Ok tt, w')
    /\ (forall l', In l' (audit_logs (db w')) ->
                   exists l, In l (audit_logs (db w))
                             /\ (l' = l \/ l' = AuditLog.set_alert_id l None))
    /\ (forall l, In l (audit_logs (db w)) ->
                  AuditLog.incident_id l = None ->
                  In l (audit_logs (db w'))
                  \/ In (AuditLog.set_alert_id l None) (audit_logs (db w')))
    /\ (List.length (audit_logs (db w'))
        <= List.length (audit_logs (db w)))%nat.
Proof.
  pose proof (Hdb 0%nat ltac:(lia)) as Hf0.
  pose proof (Hdb 1%nat ltac:(lia)) as Hf1.
  rewrite (delete_product_run product_id product w Hsession Hf0 Hf1 Hfound).
  eexists. split; [reflexivity|].
  unfold cascade_delete_product. simpl. split; [|split].
  - intros l' Hl'. apply in_map_iff in Hl'. destruct Hl' as (l & <- & Hl).
    apply filter_In in Hl. destruct Hl as [Hl _]. exists l.
    split; [exact Hl|].
    match goal with
    | |- context [if ?c then _ else _] => destruct c
    end; auto.
  - intros l Hl Hnone.
    match goal with
    | |- context [map ?f (filter ?p ?logs)] =>
        pose proof (in_map f (filter p logs) l) as Hin;
        assert (Hkept : In l (filter p logs))
    end.
    { apply filter_In. split; [exact Hl|]. now rewrite Hnone. }
    specialize (Hin Hkept). cbv beta in Hin.
    match type of Hin with
    | context [if ?c then _ else _] => destruct c
    end; auto.
  - rewrite length_map. apply filter_length_le.
Qed.

Lemma delete_product_ledger_witness :
  let w := quiet_world audited_store true true in
  session w = []
  /\ reachable 2 w
  /\ exists w',
      Crud.delete_product 1 w = (Ok tt, w')
      /\ (List.length (audit_logs (db w'))
          <= List.length (audit_logs (db w)))%nat.
Proof.
  intros w.
  assert (Hr : reachable 2 w) by (intros k _; reflexivity).
  split; [reflexivity|]. split; [exact Hr|].
  destruct (delete_product_ledger 1 sample_product w eq_refl Hr eq_refl)
    as (w' & H1 & _ & _ & H2).
  exists w'. auto.
Defined.

(** ** crud.py: the listings *)

Lemma filter_true {A} (l : list A) : filter (fun _ => true) l = l.
Proof. apply filter_all. auto. Qed.

Lemma query_page_is_page {A} (table : Store -> list A) (key : A -> datetime)
      (skip limit : nat) (w : World) :
  faults w 0%nat = false ->
  exists result,
    query_page table (fun _ => true) key skip limit w
    = (Ok result, with_faults w (stl (faults w)))
    /\ page_of key (table (db w)) skip limit result.
Proof.
  intros Hf. rewrite (query_page_run table _ key skip limit w Hf).
  rewrite filter_true. eexists. split; [reflexivity|].
  pose proof (order_by_desc_perm _ key (table (db w))) as Hperm.
  unfold page_of. split; [|split; [|split]].
  - rewrite length_firstn, length_skipn.
    now rewrite <- (Permutation_length Hperm).
  - apply newest_first_page, order_by_desc_sorted.
  - intros x Hx. apply In_page in Hx.
    now apply (Permutation_in x (Permutation_sym Hperm)).
  - intros -> Hlen. simpl. rewrite firstn_all2; [exact Hperm|].
    now rewrite <- (Permutation_length Hperm).
Qed.

(** X10. The four listings of crud.py return a page: the rows of the table
    newest first by their timestamp ([created_at], [triggered_at],
    [opened_at]), without the first [skip] and cut at [limit]; its length is
    the smaller of [limit] and the number of rows left after [skip]; and
    the store is left as it was. *)
Theorem listings_are_pages
        (skip limit : nat) (w : World)
        (Hdb : faults w 0%nat = false) :
  (exists result,
      Crud.get_products skip limit w
      = (Ok result, with_faults w (stl (faults w)))
      /\ page_of Product.created_at (products (db w)) skip limit result)
  /\ (exists result,
         Crud.get_resources skip limit w
         = (Ok result, with_faults w (stl (faults w)))
         /\ page_of Resource.created_at (resources (db w)) skip limit result)
  /\ (exists result,
         Crud.get_alerts skip limit w
         = (Ok result, with_faults w (stl (faults w)))
         /\ page_of Alert.triggered_at (alerts (db w)) skip limit result)
  /\ (exists result,
         Crud.get_incidents skip limit w
         = (Ok result, with_faults w (stl (faults w)))
         /\ page_of Incident.opened_at (incidents (db w)) skip limit result).
Proof.
  unfold Crud.get_products, Crud.get_resources, Crud.get_alerts,
    Crud.get_incidents.
  repeat split; now apply query_page_is_page.
Qed.

Lemma listings_are_pages_witness :
  let w := quiet_world sample_store true true in
  faults w 0%nat = false
  /\ exists result,
      Crud.get_alerts 0 100 w = (Ok result, with_faults w (stl (faults w)))
      /\ page_of Alert.triggered_at (alerts (db w)) 0 100 result.
Proof.
  intros w. split; [reflexivity|].
  exact (proj1 (proj2 (proj2 (listings_are_pages 0 100 w eq_refl)))).
Defined.

Lemma firstn_add {A} (n m : nat) (l : list A) :
  firstn n l ++ firstn m (skipn n l) = firstn (n + m) l.
Proof.
  revert l. induction n as [|n IH]; intros l; simpl; [reflexivity|].
  destruct l as [|x r]; simpl.
  - now rewrite firstn_nil.
  - now rewrite IH.
Qed.

Lemma page_distinct {A} (skip limit : nat) (rows : list A) :
  NoDup rows -> NoDup (firstn limit (skipn skip rows)).
Proof.
  intros H.
  rewrite <- (firstn_skipn skip rows) in H.
  apply NoDup_app_remove_l in H.
  rewrite <- (firstn_skipn limit (skipn skip rows)) in H.
  now apply NoDup_app_remove_r in H.
Qed.

Lemma query_page_concat {A} (table : Store -> list A) (p : A -> bool)
      (key : A -> datetime) (skip n m : nat) (w : World) :
  faults w 0%nat = false ->
  faults w 1%nat = false ->
  NoDup (map key (table (db w))) ->
  exists first second,
    fst (query_page table p key skip n w) = Ok first
    /\ fst (query_page table p key (skip + n) m
              (snd (query_page table p key skip n w))) = Ok second
    /\ fst (query_page table p key skip (n + m) w) = Ok (first ++ second)
    /\ NoDup (map key (first ++ second)).
Proof.
  intros Hf0 Hf1 Hkeys.
  rewrite !(query_page_run table p key _ _ w Hf0). simpl.
  rewrite query_page_run; [|exact Hf1]. simpl.
  do 2 eexists. split; [reflexivity|]. split; [reflexivity|].
  rewrite (Nat.add_comm skip n), <- skipn_skipn, firstn_add.
  split; [reflexivity|].
  rewrite <- firstn_map, <- skipn_map.
  apply page_distinct.
  apply (Permutation_NoDup
           (Permutation_map key
              (order_by_desc_perm _ key (filter p (table (db w)))))).
  clear Hf0 Hf1. induction (table (db w)) as [|x rows IH]; simpl.
  - constructor.
  - inversion Hkeys as [|? ? Hx Hrows]; subst.
    destruct (p x); simpl; [|now apply IH].
    constructor; [|now apply IH].
    intros Hin. apply Hx. apply in_map_iff in Hin.
    destruct Hin as (y & Hy & Hin). apply filter_In in Hin.
    rewrite <- Hy. apply in_map. tauto.
Qed.

(** X11. In a store where no two rows of a table carry the same timestamp,
    consecutive pages of a listing join: the page of [n] rows after [skip]
    followed by the page of [m] rows after [skip + n], fetched next, is the
    page of [n + m] rows after [skip], and no row comes twice in the two
    pages. *)
Theorem listings_pages_join
        (skip n m : nat) (w : World)
        (Hdb : reachable 2 w)
        (Hkeys : distinct_timestamps (db w)) :
  (exists first second,
      fst (Crud.get_products skip n w) = Ok first
      /\ fst (Crud.get_products (skip + n) m
                (snd (Crud.get_products skip n w))) = Ok second
      /\ fst (Crud.get_products skip (n + m) w) = Ok (first ++ second)
      /\ NoDup (map Product.created_at (first ++ second)))
  /\ (exists first second,
         fst (Crud.get_resources skip n w) = Ok first
         /\ fst (Crud.get_resources (skip + n) m
                   (snd (Crud.get_resources skip n w))) = Ok second
         /\ fst (Crud.get_resources skip (n + m) w) = Ok (first ++ second)
         /\ NoDup (map Resource.created_at (first ++ second)))
  /\ (exists first second,
         fst (Crud.get_alerts skip n w) = Ok first
         /\ fst (Crud.get_alerts (skip + n) m
                   (snd (Crud.get_alerts skip n w))) = Ok second
         /\ fst (Crud.get_alerts skip (n + m) w) = Ok (first ++ second)
         /\ NoDup (map Alert.triggered_at (first ++ second)))
  /\ (exists first second,
         fst (Crud.get_incidents skip n w) = Ok first
         /\ fst (Crud.get_incidents (skip + n) m
                   (snd (Crud.get_incidents skip n w))) = Ok second
         /\ fst (Crud.get_incidents skip (n + m) w) = Ok (first ++ second)
         /\ NoDup (map Incident.opened_at (first ++ second)))
  /\ (forall incident_id alert_id,
         exists first second,
           fst (AuditLogs.get_audit_logs incident_id alert_id skip n w)
           = Ok first
           /\ fst (AuditLogs.get_audit_logs incident_id alert_id (skip + n) m
                     (snd (AuditLogs.get_audit_logs incident_id alert_id
                             skip n w))) = Ok second
           /\ fst (AuditLogs.get_audit_logs incident_id alert_id skip (n + m)
                     w) = Ok (first ++ second)
           /\ NoDup (map AuditLog.event_time (first ++ second))).
Proof.
  pose proof (Hdb 0%nat ltac:(lia)) as Hf0.
  pose proof (Hdb 1%nat ltac:(lia)) as Hf1.
  destruct Hkeys as (Kp & Kr & Ka & Ki & Kl).
  unfold Crud.get_products, Crud.get_resources, Crud.get_alerts,
    Crud.get_incidents, AuditLogs.get_audit_logs.
  repeat split; intros; now apply query_page_concat.
Qed.

Lemma listings_pages_join_witness :
  let entry k t :=
    AuditLog.mk k (Some 5%N) None "alert_generated" t (Some "system") None in
  let ledger := [entry 9%N 140%Z; entry 10%N 160%Z; entry 11%N 150%Z] in
  let w := quiet_world (mkStore [] [] [] [] ledger) true true in
  reachable 2 w
  /\ distinct_timestamps (db w)
  /\ fst (AuditLogs.get_audit_logs (Some 5%N) None 0 1 w)
     = Ok [entry 10%N 160%Z]
  /\ fst (AuditLogs.get_audit_logs (Some 5%N) None (0 + 1) 2
            (snd (AuditLogs.get_audit_logs (Some 5%N) None 0 1 w)))
     = Ok [entry 11%N 150%Z; entry 9%N 140%Z]
  /\ exists first second,
      fst (AuditLogs.get_audit_logs (Some 5%N) None 0 1 w) = Ok first
      /\ fst (AuditLogs.get_audit_logs (Some 5%N) None (0 + 1) 2
                (snd (AuditLogs.get_audit_logs (Some 5%N) None 0 1 w)))
         = Ok second
      /\ fst (AuditLogs.get_audit_logs (Some 5%N) None 0 (1 + 2) w)
         = Ok (first ++ second)
      /\ NoDup (map AuditLog.event_time (first ++ second)).
Proof.
  intros entry ledger w.
  assert (Hr : reachable 2 w) by (intros k _; reflexivity).
  assert (Hk : distinct_timestamps (db w)).
  { unfold distinct_timestamps. simpl.
    repeat split; repeat constructor; simpl; intuition discriminate. }
  split; [exact Hr|]. split; [exact Hk|].
  split; [reflexivity|]. split; [reflexivity|].
  exact (proj2 (proj2 (proj2 (proj2 (listings_pages_join 0 1 2 w Hr Hk))))
           (Some 5%N) None).
Defined.

(** ** audit_log.py *)

Lemma query_page_filtered {A} (table : Store -> list A) (p : A -> bool)
      (key : A -> datetime) (skip limit : nat) (w : World) :
  faults w 0%nat = false ->
  exists result,
    query_page table p key skip limit w
    = (Ok result, with_faults w (stl (faults w)))
    /\ page_of key (filter p (table (db w))) skip limit result.
Proof.
  intros Hf. rewrite (query_page_run table p key skip limit w Hf).
  eexists. split; [reflexivity|].
  pose proof (order_by_desc_perm _ key (filter p (table (db w)))) as Hperm.
  unfold page_of. split; [|split; [|split]].
  - rewrite length_firstn, length_skipn.
    now rewrite <- (Permutation_length Hperm).
  - apply newest_first_page, order_by_desc_sorted.
  - intros x Hx. apply In_page in Hx.
    now apply (Permutation_in x (Permutation_sym Hperm)).
  - intros -> Hlen. simpl. rewrite firstn_all2; [exact Hperm|].
    now rewrite <- (Permutation_length Hperm).
Qed.

(** X12. The listing of the audit log applies the filters it is given together:
    an entry is eligible exactly when its [incident_id] is the given
    incident (if one is given) and its [alert_id] is the given alert (if
    one is given), so that an entry with a NULL column never passes a
    filter on that column; the result is a page of the eligible entries. *)
Theorem get_audit_logs_filters
        (incident_id alert_id : option UUID) (skip limit : nat) (w : World)
        (Hdb : faults w 0%nat = false) :
  let eligible :=
    filter (AuditLogs.audit_filter incident_id alert_id)
           (audit_logs (db w)) in
  (forall l,
      In l eligible <->
      In l (audit_logs (db w))
      /\ (forall i, incident_id = Some i -> AuditLog.incident_id l = Some i)
      /\ (forall a, alert_id = Some a -> AuditLog.alert_id l = Some a))
  /\ exists result,
      AuditLogs.get_audit_logs incident_id alert_id skip limit w
      = (Ok result, with_faults w (stl (faults w)))
      /\ page_of AuditLog.event_time eligible skip limit result
      /\ forall l, In l result ->
                   (forall i, incident_id = Some i ->
                              AuditLog.incident_id l = Some i)
                   /\ (forall a, alert_id = Some a ->
                                 AuditLog.alert_id l = Some a).
Proof.
  intros eligible.
  assert (Hel : forall l,
             In l eligible <->
             In l (audit_logs (db w))
             /\ (forall i, incident_id = Some i ->
                           AuditLog.incident_id l = Some i)
             /\ (forall a, alert_id = Some a ->
                           AuditLog.alert_id l = Some a)).
  { intros l. unfold eligible. rewrite filter_In.
    unfold AuditLogs.audit_filter. rewrite andb_true_iff.
    destruct incident_id as [i|], alert_id as [a|];
      rewrite ?col_eq_true; split.
    - intros (Hin & H1 & H2). repeat split; auto; congruence.
    - intros (Hin & H1 & H2). auto.
    - intros (Hin & H1 & _). repeat split; auto; congruence.
    - intros (Hin & H1 & _). auto.
    - intros (Hin & _ & H2). repeat split; auto; congruence.
    - intros (Hin & _ & H2). auto.
    - intros (Hin & _). repeat split; auto; congruence.
    - intros (Hin & _). auto. }
  split; [exact Hel|].
  unfold AuditLogs.get_audit_logs.
  destruct (query_page_filtered audit_logs
              (AuditLogs.audit_filter incident_id alert_id)
              AuditLog.event_time skip limit w Hdb) as (result & Hrun & Hpage).
  exists result. split; [exact Hrun|]. split; [exact Hpage|].
  intros l Hl. destruct Hpage as (_ & _ & Hin & _).
  apply Hin, Hel in Hl. tauto.
Qed.

Lemma get_audit_logs_filters_witness :
  let w := quiet_world audited_store true true in
  faults w 0%nat = false
  /\ exists result,
      AuditLogs.get_audit_logs (Some 5%N) (Some 7%N) 0 100 w
      = (Ok result, with_faults w (stl (faults w)))
      /\ forall l, In l result ->
                   (forall i, Some 5%N = Some i ->
                              AuditLog.incident_id l = Some i)
                   /\ (forall a, Some 7%N = Some a ->
                                 AuditLog.alert_id l = Some a).
Proof.
  intros w. split; [reflexivity|].
  destruct (get_audit_logs_filters (Some 5%N) (Some 7%N) 0 100 w eq_refl)
    as (_ & result & H1 & _ & H2).
  exists result. auto.
Defined.

Lemma audit_entry_taken (alert : Alert.t) (event_type : string)
      (actor : option string) (details : option (Py.dict json))
      (incident : option Incident.t) (w : World) :
  (String.length event_type <= 64)%nat ->
  (forall a, actor = Some a -> (String.length a <= 64)%nat) ->
  details_ok details = true ->
  audit_row_ok (audit_entry alert event_type actor details incident w) = true.
Proof.
  intros He Ha Hd. unfold audit_row_ok, audit_entry.
  cbn [AuditLog.event_type AuditLog.actor AuditLog.details].
  rewrite (or_empty_ok details Hd). unfold fits.
  apply Nat.leb_le in He. rewrite He.
  destruct actor as [a|]; [|reflexivity].
  simpl. unfold fits. specialize (Ha a eq_refl).
  apply Nat.leb_le in Ha. now rewrite Ha.
Qed.

(** X13. An entry that [log_alert_event] writes, with an event type and an
    actor that fit their columns of 64 characters and details that are
    JSON, is read back by its identifier as it was written, and an
    identifier that names no entry is answered with 404 Not Found. With
    details that hold a [datetime], whatever the rest, nothing is written
    and the persistence error is raised. *)
Theorem audit_entry_round_trip
        (alert : Alert.t) (event_type : string) (actor : option string)
        (details : option (Py.dict json)) (incident : option Incident.t)
        (w : World)
        (Hsession : session w = [])
        (Hdb : reachable 3 w)
        (Hfresh : uuid_in (uuid4 w 0%nat)
                          (map AuditLog.id (audit_logs (db w))) = false)
        (Hevent : (String.length event_type <= 64)%nat)
        (Hactor : forall a, actor = Some a -> (String.length a <= 64)%nat)
        (Hdetails : details_ok details = true) :
  (forall stamped,
      details_ok (Some stamped) = false ->
      exists w0,
        Alerting.log_alert_event alert event_type actor (Some stamped)
          incident w
        = (Raise SQLAlchemyError, w0)
        /\ db w0 = db w)
  /\ exists entry w',
    Alerting.log_alert_event alert event_type actor details incident w
    = (Ok entry, w')
    /\ AuditLog.incident_id entry
       = match incident with
         | Some i => Some (Incident.id i)
         | None => Alert.incident_id alert
         end
    /\ fst (AuditLogs.get_audit_log (AuditLog.id entry) w') = Ok entry
    /\ forall unknown,
        ~ In unknown (map AuditLog.id (audit_logs (db w'))) ->
        fst (AuditLogs.get_audit_log unknown w')
        = Raise (HTTPException 404 "Audit log entry not found.").
Proof.
  pose proof (Hdb 0%nat ltac:(lia)) as Hf0.
  pose proof (Hdb 1%nat ltac:(lia)) as Hf1.
  pose proof (Hdb 2%nat ltac:(lia)) as Hf2.
  split.
  { intros stamped Hst.
    apply log_alert_event_refused; [exact Hsession|].
    unfold audit_row_ok, audit_entry.
    cbn [AuditLog.event_type AuditLog.actor AuditLog.details].
    rewrite or_empty_Some, Hst. apply andb_false_r. }
  rewrite (log_alert_event_ok alert event_type actor details incident w
             Hsession Hf0 Hf1 Hfresh
             (audit_entry_taken alert event_type actor details incident w
                Hevent Hactor Hdetails)).
  do 2 eexists. split; [reflexivity|]. split; [reflexivity|].
  unfold AuditLogs.get_audit_log, logged. run_monad. rewrite Hf2. simpl.
  split.
  - match goal with
    | |- context [find ?p (?l ++ [?x])] =>
        change (find p (l ++ [x]))
          with (find (fun r => N.eqb (AuditLog.id r) (AuditLog.id x))
                     (l ++ [x]));
        rewrite (find_appended AuditLog.id l x Hfresh)
    end.
    reflexivity.
  - intros unknown Hun.
    rewrite (find_id_none AuditLog.id unknown _ Hun). reflexivity.
Qed.

Lemma audit_entry_round_trip_witness :
  let w := quiet_world sample_store true true in
  session w = []
  /\ reachable 3 w
  /\ (String.length "alert_generated" <= 64)%nat
  /\ (String.length "oncall" <= 64)%nat
  /\ details_ok (Some [("note", JStr "paged")]) = true
  /\ exists entry w',
      Alerting.log_alert_event sample_alert "alert_generated"
        (Some "oncall") (Some [("note", JStr "paged")]) None w
      = (Ok entry, w')
      /\ fst (AuditLogs.get_audit_log (AuditLog.id entry) w') = Ok entry.
Proof.
  intros w.
  assert (Hr : reachable 3 w) by (intros k _; reflexivity).
  assert (He : (String.length "alert_generated" <= 64)%nat) by (simpl; lia).
  assert (Hl : (String.length "oncall" <= 64)%nat) by (simpl; lia).
  assert (Ha : forall a, Some "oncall" = Some a ->
                         (String.length a <= 64)%nat)
    by (intros a [= <-]; exact Hl).
  split; [reflexivity|]. split; [exact Hr|]. split; [exact He|].
  split; [exact Hl|]. split; [reflexivity|].
  destruct (proj2 (audit_entry_round_trip sample_alert "alert_generated"
                     (Some "oncall") (Some [("note", JStr "paged")]) None w
                     eq_refl Hr eq_refl He Ha eq_refl))
    as (entry & w' & H1 & _ & H2 & _).
  exists entry, w'. auto.
Defined.

(** ** alerting.py: channels, delivery and its endpoint *)

(** X14. With no Slack webhook configured ([SLACK_WEBHOOK_URL] empty, its
    default) no POST is made: the delivery succeeds exactly when the email
    goes through, and its audit entry records [slack_sent] as [False]. *)
Theorem deliver_alert_slack_unconfigured
        (alert : Alert.t) (incident : option Incident.t) (w : World)
        (Hsession : session w = [])
        (Hdb : reachable 2 w)
        (Hfresh : uuid_in (uuid4 w 0%nat)
                          (map AuditLog.id (audit_logs (db w))) = false)
        (Hslack : SLACK_WEBHOOK_URL w = "") :
  let email_sent :=
    smtp w 0%nat (Alerting.alert_subject alert)
         (Alerting.alert_body (runtime w) alert) in
  exists entry w',
    Alerting.deliver_alert alert incident w = (Ok email_sent, w')
    /\ webhook w' = webhook w
    /\ audit_logs (db w') = audit_logs (db w) ++ [entry]
    /\ AuditLog.details entry
       = Some [("email_sent", JBool email_sent); ("slack_sent", JBool false)].
Proof.
  intros email_sent.
  pose proof (Hdb 0%nat ltac:(lia)) as Hf0.
  pose proof (Hdb 1%nat ltac:(lia)) as Hf1.
  set (w1 := with_smtp w (stl (smtp w))).
  assert (He : Alerting.send_email_alert (Alerting.alert_subject alert)
                 (Alerting.alert_body (runtime w) alert) w
               = (Ok email_sent, w1)) by reflexivity.
  assert (Hsl : Alerting.send_slack_alert
                  (Alerting.alert_slack_message
                     (Alerting.alert_subject alert)
                     (Alerting.alert_body (runtime w) alert)) w1
                = (Ok false, w1)).
  { unfold Alerting.send_slack_alert. simpl. now rewrite Hslack. }
  rewrite (deliver_alert_run alert incident w w1 w1 email_sent false
             Hsession Hf0 Hf1 Hfresh He Hsl).
  rewrite orb_false_r.
  do 2 eexists. split; [reflexivity|]. simpl. auto.
Qed.

Lemma deliver_alert_slack_unconfigured_witness :
  let w := mkWorld sample_store [] (fun k => (500 + Z.of_nat k)%Z)
                   (fun k => (1000 + N.of_nat k)%N) (fun _ => false)
                   (fun _ _ _ => true) (fun _ _ => Some 200) ""
                   plain_runtime in
  session w = []
  /\ reachable 2 w
  /\ SLACK_WEBHOOK_URL w = ""
  /\ exists entry w',
      Alerting.deliver_alert sample_alert None w = (Ok true, w')
      /\ AuditLog.details entry
         = Some [("email_sent", JBool true); ("slack_sent", JBool false)].
Proof.
  intros w.
  assert (Hr : reachable 2 w) by (intros k _; reflexivity).
  split; [reflexivity|]. split; [exact Hr|]. split; [reflexivity|].
  destruct (deliver_alert_slack_unconfigured sample_alert None w
              eq_refl Hr eq_refl eq_refl) as (entry & w' & H1 & _ & _ & H2).
  exists entry, w'. auto.
Defined.

(** X15. When the commit of the audit entry fails, the delivery raises the
    persistence error and the ledger is as before, although the email
    channel has been tried: the notification is out and unrecorded. *)
Theorem deliver_alert_commit_failure
        (alert : Alert.t) (incident : option Incident.t) (w : World)
        (Hsession : session w = [])
        (Hfault : faults w 0%nat = true) :
  fst (Alerting.deliver_alert alert incident w) = Raise SQLAlchemyError
  /\ db (snd (Alerting.deliver_alert alert incident w)) = db w
  /\ smtp (snd (Alerting.deliver_alert alert incident w)) = stl (smtp w).
Proof.
  unfold Alerting.deliver_alert, Alerting.log_alert_event,
    Alerting.send_email_alert, Alerting.send_slack_alert.
  destruct w as [d s c u f sm wh url rt]. simpl in *. subst s.
  run_monad.
  destruct (String.eqb url ""); simpl.
  - rewrite Hfault. simpl. auto.
  - destruct (wh 0%nat _); simpl; rewrite Hfault; simpl; auto.
Qed.

Lemma deliver_alert_commit_failure_witness :
  let w := with_faults (quiet_world sample_store true true)
                       (fun k => Nat.eqb k 0) in
  session w = []
  /\ faults w 0%nat = true
  /\ fst (Alerting.deliver_alert sample_alert None w) = Raise SQLAlchemyError
  /\ db (snd (Alerting.deliver_alert sample_alert None w)) = db w.
Proof.
  intros w. split; [reflexivity|]. split; [reflexivity|].
  destruct (deliver_alert_commit_failure sample_alert None w eq_refl eq_refl)
    as (H1 & H2 & _).
  auto.
Defined.

(** X16. An identifier that names no alert is answered with 404 Not Found by
    the deliver and the resolve endpoints when the database answers; the
    store is left as it was and no channel is tried. *)
Theorem alert_not_found
        (alert_id : UUID) (actor : option string) (w : World)
        (Habsent : ~ In alert_id (map Alert.id (alerts (db w)))) :
  db (snd (Alerting.deliver_alert_endpoint alert_id w)) = db w
  /\ smtp (snd (Alerting.deliver_alert_endpoint alert_id w)) = smtp w
  /\ webhook (snd (Alerting.deliver_alert_endpoint alert_id w)) = webhook w
  /\ db (snd (Alerting.resolve_alert_endpoint alert_id actor w)) = db w
  /\ (faults w 0%nat = false ->
      fst (Alerting.deliver_alert_endpoint alert_id w)
      = Raise (HTTPException 404 "Alert not found.")
      /\ fst (Alerting.resolve_alert_endpoint alert_id actor w)
         = Raise (HTTPException 404 "Alert not found.")).
Proof.
  pose proof (find_id_none Alert.id alert_id (alerts (db w)) Habsent)
    as Hfind.
  unfold Alerting.deliver_alert_endpoint, Alerting.resolve_alert_endpoint,
    get_db, Crud.get_alert.
  destruct w as [d s c u f sm wh url rt]. simpl in *.
  run_monad. destruct (f 0%nat); simpl.
  - repeat split; discriminate.
  - rewrite Hfind. simpl. repeat split.
Qed.

Lemma alert_not_found_witness :
  let w := quiet_world sample_store true true in
  ~ In 8%N (map Alert.id (alerts (db w)))
  /\ faults w 0%nat = false
  /\ fst (Alerting.deliver_alert_endpoint 8 w)
     = Raise (HTTPException 404 "Alert not found.")
  /\ db (snd (Alerting.deliver_alert_endpoint 8 w)) = db w.
Proof.
  intros w.
  assert (H : ~ In 8%N (map Alert.id (alerts (db w))))
    by (simpl; intuition discriminate).
  split; [exact H|]. split; [reflexivity|].
  destruct (alert_not_found 8 None w H) as (H1 & _ & _ & _ & H2).
  destruct (H2 eq_refl) as (H3 & _). auto.
Defined.

Lemma deliver_alert_endpoint_run (alert_id : UUID) (alert : Alert.t)
      (w : World) :
  faults w 0%nat = false ->
  find (fun a => N.eqb (Alert.id a) alert_id) (alerts (db w)) = Some alert ->
  (forall iid, Alert.incident_id alert = Some iid ->
               faults w 1%nat = false
               /\ exists incident,
                   find (fun i => N.eqb (Incident.id i) iid)
                        (incidents (db w)) = Some incident) ->
  exists incident W,
    Alerting.deliver_alert_endpoint alert_id w
    = (let (r, w') :=
         (success <- Alerting.deliver_alert alert incident ;;
          if negb success
          then raise (HTTPException HTTP_500_INTERNAL_SERVER_ERROR
                        "Failed to deliver alert via any channel.")
          else ret "Alert delivered successfully.") W in
       (r, with_session w' []))
    /\ match incident with
       | Some i => Some (Incident.id i)
       | None => Alert.incident_id alert
       end = Alert.incident_id alert
    /\ db W = db w /\ session W = [] /\ clock W = clock w
    /\ uuid4 W = uuid4 w /\ smtp W = smtp w /\ webhook W = webhook w
    /\ SLACK_WEBHOOK_URL W = SLACK_WEBHOOK_URL w /\ runtime W = runtime w
    /\ faults W
       = match Alert.incident_id alert with
         | Some _ => stl (stl (faults w))
         | None => stl (faults w)
         end.
Proof.
  intros Hf0 Hfound Hinc.
  unfold Alerting.deliver_alert_endpoint, get_db, Crud.get_alert,
    Crud.get_incident.
  destruct w as [d s c u f sm wh url rt]. simpl in *.
  destruct (Alert.incident_id alert) as [iid|] eqn:Ei.
  - destruct (Hinc iid eq_refl) as (Hf1 & incident & Hi).
    destruct (find_id_some Incident.id iid _ _ Hi) as [_ Hid].
    exists (Some incident). eexists.
    split; [|split; [simpl; now rewrite Hid|]].
    + unfold bind at 1. unfold bind at 1. unfold query_first at 1.
      run_monad. rewrite Hf0. simpl. rewrite Hfound. simpl.
      rewrite Ei. simpl. rewrite Hf1. simpl. rewrite Hi. simpl.
      reflexivity.
    + simpl. repeat split.
  - exists None. eexists. split; [|split; [reflexivity|]].
    + run_monad. rewrite Hf0. simpl. rewrite Hfound. simpl.
      rewrite Ei. simpl. reflexivity.
    + simpl. repeat split.
Qed.

(** What a channel answers depends on its own supply of answers and on
    the configuration, not on the rest of the world. *)
Lemma send_email_alert_answer (subject body : string) (w W : World) :
  smtp W = smtp w ->
  fst (Alerting.send_email_alert subject body W)
  = fst (Alerting.send_email_alert subject body w).
Proof.
  intros H. unfold Alerting.send_email_alert. simpl. now rewrite H.
Qed.

Lemma send_slack_alert_answer (message : string) (w W : World) :
  SLACK_WEBHOOK_URL W = SLACK_WEBHOOK_URL w ->
  webhook W = webhook w ->
  fst (Alerting.send_slack_alert message W)
  = fst (Alerting.send_slack_alert message w).
Proof.
  intros H1 H2. unfold Alerting.send_slack_alert. rewrite H1, H2.
  destruct (String.eqb (SLACK_WEBHOOK_URL w) ""); [reflexivity|].
  now destruct (shd (webhook w) message).
Qed.

(** X17. The deliver endpoint, for a stored alert whose incident (if it has
    one) is stored, where [email_sent] and [slack_sent] are what the email
    and the Slack channel answer for the alert's notification: it answers
    with the success message when one of the two is true and with 500 when
    both are false, and in both cases it has appended one
    [alert_generated] entry for the alert, under the alert's incident,
    that records these two answers; no other table changes. *)
Theorem deliver_alert_endpoint_outcome
        (alert_id : UUID) (alert : Alert.t) (w : World)
        (email_sent slack_sent : bool)
        (Hdb : reachable 4 w)
        (Hfound : find (fun a => N.eqb (Alert.id a) alert_id)
                       (alerts (db w)) = Some alert)
        (Hincident : forall iid,
            Alert.incident_id alert = Some iid ->
            exists incident,
              find (fun i => N.eqb (Incident.id i) iid) (incidents (db w))
              = Some incident)
        (Hfresh : uuid_in (uuid4 w 0%nat)
                          (map AuditLog.id (audit_logs (db w))) = false)
        (Hemail : fst (Alerting.send_email_alert
                         (Alerting.alert_subject alert)
                         (Alerting.alert_body (runtime w) alert) w)
                  = Ok email_sent)
        (Hslack : fst (Alerting.send_slack_alert
                         (Alerting.alert_slack_message
                            (Alerting.alert_subject alert)
                            (Alerting.alert_body (runtime w) alert)) w)
                  = Ok slack_sent) :
  exists entry w',
    Alerting.deliver_alert_endpoint alert_id w
    = (if email_sent || slack_sent
       then Ok "Alert delivered successfully."
       else Raise (HTTPException 500
                     "Failed to deliver alert via any channel."),
       w')
    /\ audit_logs (db w') = audit_logs (db w) ++ [entry]
    /\ same_entities (db w) (db w')
    /\ AuditLog.event_type entry = "alert_generated"
    /\ AuditLog.alert_id entry = Some alert_id
    /\ AuditLog.incident_id entry = Alert.incident_id alert
    /\ AuditLog.details entry
       = Some [("email_sent", JBool email_sent);
               ("slack_sent", JBool slack_sent)].
Proof.
  assert (Hf : forall k, (k < 4)%nat -> faults w k = false) by exact Hdb.
  destruct (find_id_some Alert.id alert_id _ _ Hfound) as [_ Hid].
  destruct (deliver_alert_endpoint_run alert_id alert w
              (Hf 0%nat ltac:(lia)) Hfound)
    as (incident & W & Hrun & Hinc & D & S & C & U & SM & WH & URL & RT & F).
  { intros iid Hi. split; [apply Hf; lia|now apply Hincident]. }
  destruct (send_email_alert_total (Alerting.alert_subject alert)
              (Alerting.alert_body (runtime W) alert) W)
    as (e & W1 & He & D1 & S1 & C1 & U1 & F1 & R1).
  destruct (send_slack_alert_total
              (Alerting.alert_slack_message (Alerting.alert_subject alert)
                 (Alerting.alert_body (runtime W) alert)) W1)
    as (sl & W2 & Hsl & D2 & _).
  assert (Ee : e = email_sent).
  { pose proof (send_email_alert_answer (Alerting.alert_subject alert)
                  (Alerting.alert_body (runtime W) alert) w W SM) as H.
    rewrite He, RT, Hemail in H. simpl in H. congruence. }
  assert (Es : sl = slack_sent).
  { assert (URL1 : SLACK_WEBHOOK_URL W1 = SLACK_WEBHOOK_URL w).
    { rewrite <- URL. unfold Alerting.send_email_alert in He.
      injection He as _ <-. reflexivity. }
    assert (WH1 : webhook W1 = webhook w).
    { rewrite <- WH. unfold Alerting.send_email_alert in He.
      injection He as _ <-. reflexivity. }
    pose proof (send_slack_alert_answer
                  (Alerting.alert_slack_message
                     (Alerting.alert_subject alert)
                     (Alerting.alert_body (runtime W) alert)) w W1 URL1 WH1)
      as H.
    rewrite Hsl, RT, Hslack in H. simpl in H. congruence. }
  subst e sl.
  assert (Hf0 : faults W 0%nat = false /\ faults W 1%nat = false).
  { rewrite F. destruct (Alert.incident_id alert); unfold stl;
      split; apply Hf; lia. }
  assert (Hu : uuid_in (uuid4 W 0%nat) (map AuditLog.id (audit_logs (db W)))
               = false) by now rewrite U, D.
  rewrite Hrun. unfold bind at 1.
  rewrite (deliver_alert_run alert incident W W1 W2 email_sent slack_sent S
             (proj1 Hf0) (proj2 Hf0) Hu He Hsl).
  do 2 eexists. split.
  - destruct (email_sent || slack_sent); reflexivity.
  - unfold same_entities. simpl. rewrite D2, D1, D.
    split; [reflexivity|]. split; [auto|]. simpl.
    rewrite Hinc, Hid. auto.
Qed.

Lemma deliver_alert_endpoint_outcome_witness :
  let w := quiet_world sample_store true false in
  reachable 4 w
  /\ find (fun a => N.eqb (Alert.id a) 7) (alerts (db w)) = Some sample_alert
  /\ fst (Alerting.send_email_alert (Alerting.alert_subject sample_alert)
            (Alerting.alert_body (runtime w) sample_alert) w) = Ok true
  /\ fst (Alerting.send_slack_alert
            (Alerting.alert_slack_message
               (Alerting.alert_subject sample_alert)
               (Alerting.alert_body (runtime w) sample_alert)) w) = Ok false
  /\ exists entry w',
      Alerting.deliver_alert_endpoint 7 w
      = (Ok "Alert delivered successfully.", w')
      /\ audit_logs (db w') = audit_logs (db w) ++ [entry]
      /\ AuditLog.incident_id entry = Some 5%N
      /\ AuditLog.details entry
         = Some [("email_sent", JBool true); ("slack_sent", JBool false)].
Proof.
  intros w.
  assert (Hr : reachable 4 w) by (intros k _; reflexivity).
  assert (Hi : forall iid,
             Alert.incident_id sample_alert = Some iid ->
             exists incident,
               find (fun i => N.eqb (Incident.id i) iid) (incidents (db w))
               = Some incident).
  { intros iid [= <-]. exists sample_incident. reflexivity. }
  split; [exact Hr|]. split; [reflexivity|]. split; [reflexivity|].
  split; [reflexivity|].
  destruct (deliver_alert_endpoint_outcome 7 sample_alert w true false
              Hr eq_refl Hi eq_refl eq_refl eq_refl)
    as (entry & w' & H1 & H2 & _ & _ & _ & H3 & H4).
  exists entry, w'. auto.
Defined.

(** ** alerting.py: what a resolution touches *)

Lemma update_alert_ids (a : Alert.t) (rows : list Alert.t) :
  map Alert.id (update_alert a rows) = map Alert.id rows.
Proof.
  unfold update_alert. rewrite map_map. apply map_ext_in.
  intros r _. destruct (N.eqb_spec (Alert.id r) (Alert.id a)); congruence.
Qed.

Lemma update_alert_In (a : Alert.t) (rows : list Alert.t) (r : Alert.t) :
  In r (update_alert a rows) ->
  (r = a /\ In (Alert.id a) (map Alert.id rows))
  \/ (In r rows /\ Alert.id r <> Alert.id a).
Proof.
  unfold update_alert. rewrite in_map_iff. intros (x & Hx & Hin).
  destruct (N.eqb_spec (Alert.id x) (Alert.id a)) as [E|E].
  - left. split; [congruence|]. rewrite <- E. now apply in_map.
  - right. subst x. auto.
Qed.

Lemma update_alert_keeps (a : Alert.t) (rows : list Alert.t) (r : Alert.t) :
  In r rows -> Alert.id r <> Alert.id a -> In r (update_alert a rows).
Proof.
  intros Hin Hne. unfold update_alert. apply in_map_iff. exists r.
  split; [|exact Hin].
  destruct (N.eqb_spec (Alert.id r) (Alert.id a)); [contradiction|reflexivity].
Qed.

(** X18. A resolution of a stored alert that is not resolved (fresh
    session, the commit of the status change and the refresh answered)
    rewrites the rows of [alerts] that carry the alert's identifier and
    nothing else: the identifiers of the table stay in place, every other
    alert is left as it is, the alert is stored as resolved and keeps every
    field but [status] and [resolved_at], and the products, the resources,
    the incidents and the audit log are left as they were. *)
Theorem resolve_alert_only_its_row
        (alert : Alert.t) (actor : option string) (w : World)
        (Hactive : Alert.status alert <> RESOLVED)
        (Hsession : session w = [])
        (Hcommit : faults w 0%nat = false)
        (Hrefresh : faults w 1%nat = false)
        (Hstored : uuid_in (Alert.id alert) (map Alert.id (alerts (db w)))
                   = true) :
  let w' := snd (Alerting.resolve_alert alert actor w) in
  let alert' := resolved alert (clock w 0%nat) in
  map Alert.id (alerts (db w')) = map Alert.id (alerts (db w))
  /\ (forall r, In r (alerts (db w)) -> Alert.id r <> Alert.id alert ->
                In r (alerts (db w')))
  /\ (forall r, In r (alerts (db w')) ->
                r = alert'
                \/ (In r (alerts (db w)) /\ Alert.id r <> Alert.id alert))
  /\ In alert' (alerts (db w'))
  /\ products (db w') = products (db w)
  /\ resources (db w') = resources (db w)
  /\ incidents (db w') = incidents (db w)
  /\ audit_logs (db w') = audit_logs (db w)
  /\ (Alert.id alert' = Alert.id alert
      /\ Alert.resource_id alert' = Alert.resource_id alert
      /\ Alert.type alert' = Alert.type alert
      /\ Alert.title alert' = Alert.title alert
      /\ Alert.description alert' = Alert.description alert
      /\ Alert.triggered_at alert' = Alert.triggered_at alert
      /\ Alert.severity alert' = Alert.severity alert
      /\ Alert.details alert' = Alert.details alert
      /\ Alert.incident_id alert' = Alert.incident_id alert).
Proof.
  intros w' alert'. subst w'.
  destruct (resolve_alert_unlogged alert actor w Hactive Hsession Hcommit
              Hrefresh Hstored) as (w1 & E & D).
  rewrite E. cbn [snd]. rewrite D. fold alert'. simpl.
  split; [apply update_alert_ids|].
  split; [intros r Hr Hne; now apply update_alert_keeps|].
  split.
  { intros r Hr. apply update_alert_In in Hr.
    destruct Hr as [[-> _]|Hr]; auto. }
  split.
  { pose proof (find_updated alert' (alerts (db w)) Hstored) as Hfind.
    apply find_some in Hfind. exact (proj1 Hfind). }
  repeat split.
Qed.

Lemma resolve_alert_only_its_row_witness :
  let other := Alert.mk 8 None MISCONFIGURATION ACKNOWLEDGED "Open bucket"
                        None 135 None "info" None None in
  let d := mkStore [sample_product] [sample_resource] [sample_alert; other]
                   [sample_incident] [sample_audit_log] in
  let w := quiet_world d true true in
  Alert.status sample_alert <> RESOLVED
  /\ session w = []
  /\ faults w 0%nat = false /\ faults w 1%nat = false
  /\ alerts (db (snd (Alerting.resolve_alert sample_alert None w)))
     = [resolved sample_alert 500; other]
  /\ (In other (alerts (db w)) -> Alert.id other <> Alert.id sample_alert ->
      In other (alerts (db (snd (Alerting.resolve_alert sample_alert None
                                                         w))))).
Proof.
  intros other d w.
  assert (Ha : Alert.status sample_alert <> RESOLVED) by discriminate.
  split; [exact Ha|]. split; [reflexivity|]. split; [reflexivity|].
  split; [reflexivity|]. split; [vm_compute; reflexivity|].
  destruct (resolve_alert_only_its_row sample_alert None w Ha eq_refl
              eq_refl eq_refl eq_refl) as (_ & H & _).
  exact (H other).
Defined.

(** ** security_events.py: failures of detection *)

Lemma bind_raise {A B} (m : M A) (k : A -> M B) (w : World) (e : exn) :
  fst (m w) = Raise e -> bind m k w = (Raise e, snd (m w)).
Proof.
  unfold bind. destruct (m w) as [[a|e'] w']; simpl; congruence.
Qed.

(** X19. A recognized event on an identifier that names no resource is answered
    with 404 Not Found when the database answers; no alert is created, no
    audit entry is written and no channel is tried. *)
Theorem detect_security_event_resource_not_found
        (resource_id : UUID) (event_type : string) (actor : option string)
        (details : option (Py.dict json)) (w : World)
        (Hrecognized : In event_type SecurityEvents.SECURITY_EVENT_TYPES)
        (Habsent : ~ In resource_id (map Resource.id (resources (db w)))) :
  let run := SecurityEvents.detect_security_event resource_id event_type
               actor details w in
  db (snd run) = db w
  /\ session (snd run) = session w
  /\ smtp (snd run) = smtp w
  /\ webhook (snd run) = webhook w
  /\ (faults w 0%nat = false ->
      fst run = Raise (HTTPException 404 "Resource not found.")).
Proof.
  pose proof (find_id_none Resource.id resource_id _ Habsent) as Hfind.
  apply in_list_In in Hrecognized.
  unfold SecurityEvents.detect_security_event, Crud.get_resource.
  rewrite Hrecognized.
  destruct w as [d s c u f sm wh url rt]. simpl in *.
  run_monad. destruct (f 0%nat); simpl.
  - repeat split. discriminate.
  - rewrite Hfind. simpl. repeat split.
Qed.

Lemma detect_security_event_resource_not_found_witness :
  let w := quiet_world sample_store true true in
  In "policy_violation" SecurityEvents.SECURITY_EVENT_TYPES
  /\ ~ In 4%N (map Resource.id (resources (db w)))
  /\ faults w 0%nat = false
  /\ fst (SecurityEvents.detect_security_event 4 "policy_violation" None
            None w)
     = Raise (HTTPException 404 "Resource not found.")
  /\ db (snd (SecurityEvents.detect_security_event 4 "policy_violation" None
                None w)) = db w.
Proof.
  intros w.
  assert (H1 : In "policy_violation" SecurityEvents.SECURITY_EVENT_TYPES)
    by (simpl; auto).
  assert (H2 : ~ In 4%N (map Resource.id (resources (db w))))
    by (simpl; intuition discriminate).
  split; [exact H1|]. split; [exact H2|]. split; [reflexivity|].
  destruct (detect_security_event_resource_not_found 4 "policy_violation"
              None None w H1 H2) as (Ha & _ & _ & _ & Hb).
  split; [apply Hb; reflexivity|exact Ha].
Defined.

(** X20. Detection is not one transaction: when the alert has been committed
    and refreshed and the commit of the delivery's audit entry then fails,
    the persistence error is raised, the new alert is in the store, and
    the ledger holds no entry for it. *)
Theorem detect_security_event_not_atomic
        (resource_id : UUID) (event_type : string) (actor : option string)
        (details : option (Py.dict json)) (resource : Resource.t) (w : World)
        (Hrecognized : In event_type SecurityEvents.SECURITY_EVENT_TYPES)
        (Hsession : session w = [])
        (Hdb : reachable 3 w)
        (Hfault : faults w 3%nat = true)
        (Hresource : find (fun r => N.eqb (Resource.id r) resource_id)
                          (resources (db w)) = Some resource)
        (Hfresh : uuid_in (uuid4 w 0%nat) (map Alert.id (alerts (db w)))
                  = false) :
  let run := SecurityEvents.detect_security_event resource_id event_type
               actor details w in
  fst run = Raise SQLAlchemyError
  /\ alerts (db (snd run))
     = alerts (db w) ++ [security_alert resource event_type details w]
  /\ audit_logs (db (snd run)) = audit_logs (db w).
Proof.
  apply in_list_In in Hrecognized.
  intros run. subst run.
  rewrite (detect_security_event_create resource_id event_type actor details
             resource w Hrecognized Hsession Hdb Hresource Hfresh).
  set (a := security_alert resource event_type details w).
  set (W := alert_created w a).
  assert (HW : forall incident,
             fst (Alerting.deliver_alert a incident W)
             = Raise SQLAlchemyError
             /\ db (snd (Alerting.deliver_alert a incident W)) = db W).
  { intros incident.
    unfold Alerting.deliver_alert, Alerting.log_alert_event,
      Alerting.send_email_alert, Alerting.send_slack_alert.
    unfold W, alert_created.
    destruct w as [d s c u f sm wh url rt]. simpl in *.
    run_monad.
    destruct (String.eqb url ""); simpl.
    - rewrite Hfault. simpl. auto.
    - destruct (wh 0%nat _); simpl; rewrite Hfault; simpl; auto. }
  destruct (HW None) as [H1 H2].
  rewrite (bind_raise _ _ _ _ H1). simpl. rewrite H2. simpl. auto.
Qed.

Lemma detect_security_event_not_atomic_witness :
  let w := with_faults (quiet_world sample_store true true)
                       (fun k => Nat.eqb k 3) in
  In "resource_exposure" SecurityEvents.SECURITY_EVENT_TYPES
  /\ session w = []
  /\ reachable 3 w
  /\ faults w 3%nat = true
  /\ fst (SecurityEvents.detect_security_event 3 "resource_exposure" None
            None w) = Raise SQLAlchemyError
  /\ List.length
       (alerts (db (snd (SecurityEvents.detect_security_event
                           3 "resource_exposure" None None w)))) = 2%nat
  /\ audit_logs (db (snd (SecurityEvents.detect_security_event
                            3 "resource_exposure" None None w)))
     = [sample_audit_log].
Proof.
  intros w.
  assert (H1 : In "resource_exposure" SecurityEvents.SECURITY_EVENT_TYPES)
    by (simpl; auto 6).
  assert (Hr : reachable 3 w).
  { intros k Hk. destruct k as [|[|[|k]]]; [reflexivity..|lia]. }
  split; [exact H1|]. split; [reflexivity|]. split; [exact Hr|].
  split; [reflexivity|].
  destruct (detect_security_event_not_atomic 3 "resource_exposure" None None
              sample_resource w H1 eq_refl Hr eq_refl eq_refl eq_refl)
    as (Ha & Hb & Hc).
  split; [exact Ha|]. split; [now rewrite Hb|exact Hc].
Defined.

(** ** main.py: what the requests leave alone *)

(** X21. A read request (every GET) leaves the store as it was, and the clock,
    the identifier supply and the channels untouched. *)
Theorem reads_change_nothing
        (r : Main.request) (w : World)
        (Hread : is_read r = true) :
  db (snd (Main.handle r w)) = db w
  /\ clock (snd (Main.handle r w)) = clock w
  /\ uuid4 (snd (Main.handle r w)) = uuid4 w
  /\ smtp (snd (Main.handle r w)) = smtp w
  /\ webhook (snd (Main.handle r w)) = webhook w.
Proof.
  destruct r; try discriminate;
    unfold Main.handle, Main.fmap, get_db, AuditLogs.list_audit_logs,
      AuditLogs.get_audit_log_endpoint, AuditLogs.get_audit_logs,
      AuditLogs.get_audit_log, Crud.get_products, Crud.get_product,
      Crud.get_resources, Crud.get_resource, Crud.get_alerts, Crud.get_alert,
      Crud.get_incidents, Crud.get_incident, get_db, query_page;
    destruct w as [d s c u f sm wh url rt]; run_monad;
    destruct (f 0%nat); simpl; auto;
    match goal with
    | |- context [find ?p ?l] => destruct (find p l); simpl; auto
    end.
Qed.

Lemma reads_change_nothing_witness :
  let w := quiet_world sample_store true true in
  is_read (Main.GET_audit_logs (Some 5%N) None 0 10) = true
  /\ db (snd (Main.handle (Main.GET_audit_logs (Some 5%N) None 0 10) w))
     = db w.
Proof.
  intros w. split; [reflexivity|].
  exact (proj1 (reads_change_nothing
                  (Main.GET_audit_logs (Some 5%N) None 0 10) w eq_refl)).
Defined.

Lemma stable_handle_no_products
      (P : Store -> list pending -> Prop) (r : Main.request) :
  (forall d s d', P d s -> flush s d = Some d' -> P d' []) ->
  (forall d s, P d s -> P d []) ->
  writes_products r = false ->
  (forall l, accepts P (Add_AuditLog l)) ->
  (forall a now, accepts P (Dirty_Alert (resolved a now))) ->
  (forall a, Alert.status a = ACTIVE -> Alert.resolved_at a = None ->
             accepts P (Add_Alert a)) ->
  stable P (Main.handle r).
Proof.
  intros Hflush Hclose Hr Hlog Hdirty Halert.
  destruct r; try discriminate; simpl; apply stable_fmap.
  - apply stable_get_db, stable_query_page. exact Hclose.
  - apply stable_get_db; [exact Hclose|apply stable_get_product].
  - apply stable_get_db, stable_query_page. exact Hclose.
  - apply stable_get_db; [exact Hclose|apply stable_get_resource].
  - apply stable_get_db, stable_query_page. exact Hclose.
  - apply stable_get_db; [exact Hclose|apply stable_get_alert].
  - apply stable_get_db, stable_query_page. exact Hclose.
  - apply stable_get_db; [exact Hclose|apply stable_get_incident].
  - now apply stable_deliver_alert_endpoint.
  - now apply stable_resolve_alert_endpoint.
  - unfold SecurityEvents.detect_security_event_endpoint.
    apply stable_get_db; [exact Hclose|].
    now apply stable_detect_security_event.
  - unfold AuditLogs.list_audit_logs.
    apply stable_get_db, stable_query_page. exact Hclose.
  - unfold AuditLogs.get_audit_log_endpoint.
    apply stable_get_db; [exact Hclose|].
    unfold AuditLogs.get_audit_log.
    apply stable_bind; [apply stable_query_first|intros [l|]];
      [apply stable_ret|apply stable_raise].
Qed.

Lemma flush_one_entities (base d d' : Store) (c : pending) :
  (products d = products base /\ resources d = resources base
   /\ incidents d = incidents base) ->
  entity_safe c ->
  flush_one d c = Some d' ->
  products d' = products base /\ resources d' = resources base
  /\ incidents d' = incidents base.
Proof.
  intros Hd Hc.
  destruct c as [p|a|l|p|a|p]; simpl in *; try contradiction.
  - case_guard; [discriminate|]. now intros [= <-].
  - case_guard; [discriminate|]. now intros [= <-].
  - now intros [= <-].
Qed.

Lemma entities_kept_flush (base d : Store) (s : list pending) (d' : Store) :
  entities_kept base d s -> flush s d = Some d' -> entities_kept base d' [].
Proof.
  unfold entities_kept. revert d.
  induction s as [|c rest IH]; intros d [Hd Hs]; simpl.
  - intros [= <-]. auto.
  - inversion Hs as [|? ? Hc Hrest]; subst.
    destruct (flush_one d c) as [d1|] eqn:E; [|discriminate].
    apply IH. split; [|exact Hrest].
    now apply (flush_one_entities base d d1 c).
Qed.

Lemma entities_kept_accepts (base : Store) (c : pending) :
  entity_safe c -> accepts (entities_kept base) c.
Proof.
  intros Hc d s [Hd Hs]. split; [exact Hd|].
  apply Forall_app. split; [exact Hs|]. now constructor.
Qed.

(** X22. No request but the three that write products (POST, PUT and DELETE of
    a product) changes the products, the resources or the incidents,
    whatever the channels and the database answer: delivering, resolving
    and detecting write alerts and audit entries only. *)
Theorem lifecycle_requests_frame
        (r : Main.request) (w : World)
        (Hr : writes_products r = false) :
  products (db (snd (Main.handle r w))) = products (db w)
  /\ resources (db (snd (Main.handle r w))) = resources (db w)
  /\ incidents (db (snd (Main.handle r w))) = incidents (db w).
Proof.
  assert (Hst : stable (entities_kept (db w)) (Main.handle r)).
  { apply stable_handle_no_products; try exact Hr.
    - apply entities_kept_flush.
    - intros d s [Hd _]. split; [exact Hd|constructor].
    - intros l. now apply entities_kept_accepts.
    - intros a now. now apply entities_kept_accepts.
    - intros a _ _. now apply entities_kept_accepts. }
  assert (Heq : Main.handle r (with_session w []) = Main.handle r w).
  { destruct r; reflexivity. }
  assert (H0 : entities_kept (db w) (db (with_session w []))
                 (session (with_session w []))).
  { split; [auto|constructor]. }
  pose proof (Hst _ H0) as [H1 _]. now rewrite Heq in H1.
Qed.

Lemma lifecycle_requests_frame_witness :
  let w := quiet_world sample_store true true in
  let r := Main.POST_security_event 3 "policy_violation" None None in
  writes_products r = false
  /\ products (db (snd (Main.handle r w))) = products (db w)
  /\ resources (db (snd (Main.handle r w))) = resources (db w)
  /\ incidents (db (snd (Main.handle r w))) = incidents (db w).
Proof.
  intros w r. split; [reflexivity|].
  exact (lifecycle_requests_frame r w eq_refl).
Defined.

(** ** The life of an alert across requests *)

Lemma alert_step_refl (a : Alert.t) : alert_step a a.
Proof. split; auto. Qed.

Lemma alert_step_trans (a b c : Alert.t) :
  alert_step a b -> alert_step b c -> alert_step a c.
Proof.
  intros [I1 S1] [I2 S2]. split; [congruence|].
  destruct S2 as [S2|S2]; [|auto].
  destruct S1 as [S1|S1]; [left|right]; congruence.
Qed.

Lemma Forall2_step_refl (l : list Alert.t) : Forall2 alert_step l l.
Proof. induction l; constructor; auto using alert_step_refl. Qed.

Lemma advances_refl (l : list Alert.t) : advances l l.
Proof.
  exists l, []. split; [now rewrite app_nil_r|apply Forall2_step_refl].
Qed.

Lemma Forall2_step_trans (l1 l2 l3 : list Alert.t) :
  Forall2 alert_step l1 l2 -> Forall2 alert_step l2 l3 ->
  Forall2 alert_step l1 l3.
Proof.
  intros H. revert l3. induction H as [|a b r1 r2 Hab Hr IH]; intros l3 H3.
  - inversion H3. constructor.
  - inversion H3 as [|? c ? r3 Hbc Hr3]; subst.
    constructor; [now apply (alert_step_trans a b c)|now apply IH].
Qed.

Lemma advances_trans (l1 l2 l3 : list Alert.t) :
  advances l1 l2 -> advances l2 l3 -> advances l1 l3.
Proof.
  intros (k1 & a1 & -> & H1) (k2 & a2 & -> & H2).
  apply Forall2_app_inv_l in H2.
  destruct H2 as (k2a & k2b & Ha & Hb & ->).
  exists k2a, (k2b ++ a2). split; [now rewrite app_assoc|].
  now apply (Forall2_step_trans l1 k1 k2a).
Qed.

Lemma update_alert_steps (a : Alert.t) (rows : list Alert.t) :
  Alert.status a = RESOLVED ->
  Forall2 alert_step rows (update_alert a rows).
Proof.
  intros Hs. unfold update_alert.
  induction rows as [|r rest IH]; simpl; constructor; [|exact IH].
  destruct (N.eqb_spec (Alert.id r) (Alert.id a)) as [E|E].
  - split; auto.
  - apply alert_step_refl.
Qed.

Lemma flush_one_advances (base : list Alert.t) (d d' : Store) (c : pending) :
  advances base (alerts d) -> advance_ok c -> flush_one d c = Some d' ->
  advances base (alerts d').
Proof.
  intros Hd Hc.
  destruct c as [p|a|l|p|a|p]; simpl in *; try contradiction.
  - destruct (_ || _); [discriminate|]. now intros [= <-].
  - destruct (uuid_in _ _); [discriminate|]. intros [= <-]. simpl.
    apply (advances_trans base (alerts d)); [exact Hd|].
    exists (alerts d), [a]. split; [reflexivity|apply Forall2_step_refl].
  - case_guard; [discriminate|]. now intros [= <-].
  - destruct (existsb _ _); [discriminate|]. now intros [= <-].
  - intros [= <-]. simpl.
    apply (advances_trans base (alerts d)); [exact Hd|].
    exists (update_alert a (alerts d)), []. split; [now rewrite app_nil_r|].
    now apply update_alert_steps.
Qed.

Lemma alerts_advance_flush (base : list Alert.t) (d : Store)
      (s : list pending) (d' : Store) :
  alerts_advance base d s -> flush s d = Some d' ->
  alerts_advance base d' [].
Proof.
  unfold alerts_advance. revert d.
  induction s as [|c rest IH]; intros d [Hd Hs]; simpl.
  - intros [= <-]. auto.
  - inversion Hs as [|? ? Hc Hrest]; subst.
    destruct (flush_one d c) as [d1|] eqn:E; [|discriminate].
    apply IH. split; [|exact Hrest].
    now apply (flush_one_advances base d d1 c).
Qed.

Lemma alerts_advance_accepts (base : list Alert.t) (c : pending) :
  advance_ok c -> accepts (alerts_advance base) c.
Proof.
  intros Hc d s [Hd Hs]. split; [exact Hd|].
  apply Forall_app. split; [exact Hs|]. now constructor.
Qed.

Lemma Forall2_step_In (l l' : list Alert.t) (a : Alert.t) :
  Forall2 alert_step l l' -> In a l ->
  exists a', In a' l' /\ alert_step a a'.
Proof.
  intros H. induction H as [|x y r r' Hxy Hr IH]; intros Hin.
  - destruct Hin.
  - destruct Hin as [<-|Hin].
    + exists y. split; [now left|exact Hxy].
    + destruct (IH Hin) as (a' & Ha' & Hs). exists a'. split; [now right|auto].
Qed.

Lemma handle_advances (r : Main.request) (w : World) :
  deletes_product r = false ->
  advances (alerts (db w)) (alerts (db (snd (Main.handle r w)))).
Proof.
  intros Hr.
  assert (Hst : stable (alerts_advance (alerts (db w))) (Main.handle r)).
  { apply stable_handle_but_delete.
    - apply alerts_advance_flush.
    - intros d s [Hd _]. split; [exact Hd|constructor].
    - intros product_id ->. discriminate.
    - intros l. now apply alerts_advance_accepts.
    - intros a now. now apply alerts_advance_accepts.
    - intros a _ _. now apply alerts_advance_accepts.
    - intros p. now apply alerts_advance_accepts.
    - intros p. now apply alerts_advance_accepts. }
  assert (Heq : Main.handle r (with_session w []) = Main.handle r w).
  { destruct r; reflexivity. }
  assert (H0 : alerts_advance (alerts (db w)) (db (with_session w []))
                 (session (with_session w []))).
  { split; [apply advances_refl|constructor]. }
  pose proof (Hst _ H0) as [H1 _]. now rewrite Heq in H1.
Qed.

(** X23. Along any run of requests that deletes no product, whatever the
    channels and the database answer, the alerts stay in place: no alert
    is removed or reordered, each keeps its identifier, and its status is
    the one it had or [resolved]. So a resolved alert stays resolved, and
    no request makes an alert [acknowledged] or [active] again. *)
Theorem alerts_only_advance
        (rs : list Main.request) (w : World)
        (Hrs : forallb (fun r => negb (deletes_product r)) rs = true) :
  advances (alerts (db w)) (alerts (db (Main.serve rs w)))
  /\ (forall a,
         In a (alerts (db w)) ->
         exists a', In a' (alerts (db (Main.serve rs w)))
                    /\ Alert.id a' = Alert.id a
                    /\ (Alert.status a = RESOLVED ->
                        Alert.status a' = RESOLVED)
                    /\ (Alert.status a' = ACKNOWLEDGED ->
                        Alert.status a = ACKNOWLEDGED)
                    /\ (Alert.status a' = ACTIVE -> Alert.status a = ACTIVE))
  /\ (List.length (alerts (db w))
      <= List.length (alerts (db (Main.serve rs w))))%nat.
Proof.
  assert (Hadv : advances (alerts (db w)) (alerts (db (Main.serve rs w)))).
  { revert w. induction rs as [|r rest IH]; intros w; simpl.
    - apply advances_refl.
    - simpl in Hrs. apply andb_true_iff in Hrs. destruct Hrs as [Hr Hrest].
      apply negb_true_iff in Hr.
      apply (advances_trans _ (alerts (db (snd (Main.handle r w)))));
        [now apply handle_advances|now apply IH]. }
  split; [exact Hadv|].
  destruct Hadv as (kept & added & E & F). rewrite E. split.
  - intros a Ha.
    destruct (Forall2_step_In _ _ a F Ha) as (a' & Ha' & [Hid Hst]).
    exists a'. split; [apply in_or_app; now left|].
    split; [exact Hid|].
    repeat split; intros H; destruct Hst as [Hst|Hst]; congruence.
  - rewrite length_app, <- (Forall2_length F). lia.
Qed.

Lemma alerts_only_advance_witness :
  let w := quiet_world sample_store true false in
  let rs := [Main.POST_alert_resolve 7 None;
             Main.POST_security_event 3 "policy_violation" None None;
             Main.POST_alert_deliver 7;
             Main.POST_alert_resolve 7 (Some "oncall")] in
  forallb (fun r => negb (deletes_product r)) rs = true
  /\ advances (alerts (db w)) (alerts (db (Main.serve rs w)))
  /\ map Alert.status (alerts (db (Main.serve rs w))) = [RESOLVED; ACTIVE].
Proof.
  intros w rs. split; [reflexivity|].
  split; [exact (proj1 (alerts_only_advance rs w eq_refl))|].
  vm_compute. reflexivity.
Defined.

(** ** The keys of the store *)

Lemma NoDup_map_snoc {A B} (f : A -> B) (l : list A) (x : A) :
  NoDup (map f l) -> ~ In (f x) (map f l) -> NoDup (map f (l ++ [x])).
Proof.
  intros Hnd Hx. rewrite map_app. simpl.
  apply NoDup_app; [exact Hnd|repeat constructor; auto|].
  intros b Hb [<-|[]]. contradiction.
Qed.

Lemma filter_keeps_unique {R K} (col : R -> K) (keep : R -> bool)
  (rows : list R) (U : NoDup (map col rows)) :
  NoDup (map col (filter keep rows)).
Proof.
  induction rows as [|x r IH]; simpl in *; [constructor|].
  inversion U as [|? ? Hx Hr]; subst.
  destruct (keep x); simpl; [|now apply IH].
  constructor; [|now apply IH].
  intros Hin. apply Hx. apply in_map_iff in Hin.
  destruct Hin as (y & Hy & Hin). apply filter_In in Hin.
  rewrite <- Hy. apply in_map. tauto.
Qed.

Lemma uuid_in_false (u : UUID) (xs : list UUID) :
  uuid_in u xs = false -> ~ In u xs.
Proof. intros H Hin. apply uuid_in_In in Hin. congruence. Qed.

Lemma in_list_false (x : string) (xs : list string) :
  Py.in_list x xs = false -> ~ In x xs.
Proof. intros H Hin. apply in_list_In in Hin. congruence. Qed.

Lemma update_product_row_ids (p : Product.t) (rows : list Product.t) :
  map Product.id (update_product_row p rows) = map Product.id rows.
Proof.
  unfold update_product_row. rewrite map_map. apply map_ext_in.
  intros r _. destruct (N.eqb_spec (Product.id r) (Product.id p)); congruence.
Qed.

Lemma update_product_row_absent (p : Product.t) (rows : list Product.t) :
  ~ In (Product.id p) (map Product.id rows) ->
  update_product_row p rows = rows.
Proof.
  intros H. unfold update_product_row. apply map_same. intros r Hr.
  destruct (N.eqb_spec (Product.id r) (Product.id p)) as [E|E]; [|reflexivity].
  exfalso. apply H. rewrite <- E. now apply in_map.
Qed.

Lemma existsb_false_In {A} (p : A -> bool) (l : list A) (x : A) :
  existsb p l = false -> In x l -> p x = false.
Proof.
  intros H Hin. destruct (p x) eqn:E; [|reflexivity].
  assert (Ht : existsb p l = true) by (apply existsb_exists; eauto).
  congruence.
Qed.

Lemma update_product_row_names (p : Product.t) (rows : list Product.t) :
  NoDup (map Product.id rows) ->
  NoDup (map Product.name rows) ->
  existsb (fun q => String.eqb (Product.name q) (Product.name p)
                    && negb (N.eqb (Product.id q) (Product.id p))) rows
  = false ->
  NoDup (map Product.name (update_product_row p rows))
  /\ forall n, In n (map Product.name (update_product_row p rows)) ->
               n = Product.name p \/ In n (map Product.name rows).
Proof.
  induction rows as [|r rest IH]; intros Hid Hname Hcheck.
  - split; [constructor|intros n []].
  - inversion Hid as [|? ? Hi Hidr]; subst.
    inversion Hname as [|? ? Hn Hnr]; subst.
    simpl in Hcheck. apply orb_false_iff in Hcheck.
    destruct Hcheck as [Hr Hrest].
    destruct (IH Hidr Hnr Hrest) as [IH1 IH2].
    simpl. destruct (N.eqb_spec (Product.id r) (Product.id p)) as [E|E].
    + rewrite E in Hi.
      rewrite (update_product_row_absent p rest Hi). split.
      * simpl. constructor; [|exact Hnr].
        intros Hin. apply in_map_iff in Hin. destruct Hin as (q & Hq & Hin).
        pose proof (existsb_false_In _ _ q Hrest Hin) as Hqr. simpl in Hqr.
        rewrite Hq, String.eqb_refl in Hqr. simpl in Hqr.
        apply negb_false_iff, N.eqb_eq in Hqr.
        apply Hi. rewrite <- Hqr. now apply in_map.
      * simpl. intros n [<-|Hn']; auto.
    + split.
      * simpl. constructor; [|exact IH1].
        intros Hin. destruct (IH2 _ Hin) as [Hp|Hp]; [|contradiction].
        rewrite Hp, String.eqb_refl in Hr. simpl in Hr. discriminate.
      * simpl. intros n [<-|Hn']; [auto|].
        destruct (IH2 _ Hn'); auto.
Qed.

Lemma flush_one_keys (d d' : Store) (c : pending) :
  keys_unique d -> flush_one d c = Some d' -> keys_unique d'.
Proof.
  unfold keys_unique. intros (Hp & Hn & Hr & Ha & Hi & Hl).
  destruct c as [p|a|l|p|a|p]; simpl.
  - destruct (uuid_in _ _) eqn:E1; [discriminate|].
    destruct (Py.in_list _ _) eqn:E2; [discriminate|].
    simpl. intros [= <-]. simpl.
    apply uuid_in_false in E1. apply in_list_false in E2.
    repeat split; auto; now apply NoDup_map_snoc.
  - destruct (uuid_in _ _) eqn:E1; [discriminate|].
    intros [= <-]. simpl. apply uuid_in_false in E1.
    repeat split; auto; now apply NoDup_map_snoc.
  - destruct (uuid_in _ _) eqn:E1; [discriminate|].
    simpl. case_guard; [discriminate|].
    intros [= <-]. simpl. apply uuid_in_false in E1.
    repeat split; auto; now apply NoDup_map_snoc.
  - destruct (existsb _ _) eqn:E1; [discriminate|].
    intros [= <-]. simpl. rewrite update_product_row_ids.
    repeat split; auto.
    now apply update_product_row_names.
  - intros [= <-]. simpl. rewrite update_alert_ids. auto 10.
  - intros [= <-]. unfold cascade_delete_product. simpl.
    repeat split; try now apply filter_keeps_unique.
    rewrite map_map.
    match goal with
    | |- NoDup (map ?f (filter ?q ?logs)) =>
        assert (Hext : map f (filter q logs)
                       = map AuditLog.id (filter q logs))
    end.
    { apply map_ext. intros l.
      match goal with
      | |- context [if ?b then _ else _] => destruct b; reflexivity
      end. }
    rewrite Hext. now apply filter_keeps_unique.
Qed.

Lemma flush_keys (s : list pending) (d d' : Store) :
  keys_unique d -> flush s d = Some d' -> keys_unique d'.
Proof.
  revert d. induction s as [|c rest IH]; intros d Hd; simpl.
  - now intros [= <-].
  - destruct (flush_one d c) as [d1|] eqn:E; [|discriminate].
    apply IH. now apply (flush_one_keys d d1 c).
Qed.

Lemma handle_keys (r : Main.request) (w : World) :
  keys_unique (db w) -> keys_unique (db (snd (Main.handle r w))).
Proof.
  intros H.
  assert (Hst : stable (fun d _ => keys_unique d) (Main.handle r)).
  { apply stable_handle; try (intros; intros d s Hd; exact Hd).
    - intros d s d' Hd Hf. now apply (flush_keys s d d').
    - auto. }
  exact (Hst w H).
Qed.

(** X24. The database's uniqueness constraints hold along every run: if the
    primary keys of each table and the names of the products are pairwise
    distinct, they still are after any sequence of requests, whatever the
    channels and the database answer; a generated identifier or a name
    that is taken makes the commit fail instead. *)
Theorem keys_stay_unique
        (rs : list Main.request) (w : World)
        (Hkeys : keys_unique (db w)) :
  keys_unique (db (Main.serve rs w)).
Proof.
  revert w Hkeys. induction rs as [|r rest IH]; intros w Hkeys; simpl.
  - exact Hkeys.
  - apply IH. now apply handle_keys.
Qed.

Lemma keys_stay_unique_witness :
  let w := quiet_world sample_store true true in
  let rs := [Main.POST_products "billing" None;
             Main.POST_products "billing" (Some "again");
             Main.POST_security_event 3 "policy_violation" None None;
             Main.PUT_product 1 (Some "billing") None] in
  keys_unique (db w)
  /\ keys_unique (db (Main.serve rs w))
  /\ map Product.name (products (db (Main.serve rs w)))
     = ["payments"; "billing"].
Proof.
  intros w rs.
  assert (H : keys_unique (db w)).
  { unfold keys_unique. simpl.
    repeat split; repeat constructor; simpl; intuition discriminate. }
  split; [exact H|]. split; [exact (keys_stay_unique rs w H)|].
  vm_compute. reflexivity.
Defined.

(** ** The ledger along a run *)

(** X25. Along any run of requests that deletes no product, whatever the
    channels and the database answer, the ledger only grows at its end:
    the entries it held are still there, in place and unchanged. *)
Theorem ledger_only_grows
        (rs : list Main.request) (w : World)
        (Hrs : forallb (fun r => negb (deletes_product r)) rs = true) :
  exists suffix,
    audit_logs (db (Main.serve rs w)) = audit_logs (db w) ++ suffix.
Proof.
  revert w. induction rs as [|r rest IH]; intros w; simpl.
  - exists []. now rewrite app_nil_r.
  - simpl in Hrs. apply andb_true_iff in Hrs. destruct Hrs as [Hr Hrest].
    apply negb_true_iff in Hr.
    destruct (audit_log_append_only r w) as [s1 H1].
    { intros product_id ->. discriminate. }
    destruct (IH Hrest (snd (Main.handle r w))) as [s2 H2].
    exists (s1 ++ s2). now rewrite H2, H1, app_assoc.
Qed.

Lemma ledger_only_grows_witness :
  let w := quiet_world sample_store true false in
  let rs := [Main.POST_alert_deliver 7;
             Main.PUT_product 1 (Some "ledger") None;
             Main.POST_alert_resolve 7 None] in
  forallb (fun r => negb (deletes_product r)) rs = true
  /\ exists suffix,
      audit_logs (db (Main.serve rs w)) = audit_logs (db w) ++ suffix.
Proof.
  intros w rs. split; [reflexivity|].
  exact (ledger_only_grows rs w eq_refl).
Defined.

(** ** monitoring.py: more on the evaluator *)

(** X26. Evaluation goes metric by metric: the breaches of two mappings laid
    end to end are the breaches of the first followed by those of the
    second; there is at most one breach per metric, and none without
    thresholds. *)
Theorem evaluate_metrics_append
        (V : Type) (gt : V -> V -> bool)
        (first second : Py.dict (option V)) (thresholds : Py.dict V) :
  Monitoring.evaluate_metrics gt (first ++ second) thresholds
  = Monitoring.evaluate_metrics gt first thresholds
    ++ Monitoring.evaluate_metrics gt second thresholds
  /\ (List.length (Monitoring.evaluate_metrics gt first thresholds)
      <= List.length first)%nat
  /\ Monitoring.evaluate_metrics gt first [] = [].
Proof.
  rewrite !evaluate_metrics_flat_map. split; [apply flat_map_app|].
  split.
  - induction first as [|[m v] rest IH]; [simpl; lia|].
    assert (H : (List.length (Monitoring.breach_of gt thresholds (m, v))
                 <= 1)%nat).
    { unfold Monitoring.breach_of, Monitoring.evaluate_step.
      destruct (Py.get thresholds m) as [t|]; destruct v as [v|]; simpl;
        try lia.
      destruct (gt v t); simpl; lia. }
    change (flat_map (Monitoring.breach_of gt thresholds) ((m, v) :: rest))
      with (Monitoring.breach_of gt thresholds (m, v)
            ++ flat_map (Monitoring.breach_of gt thresholds) rest).
    rewrite length_app.
    change (List.length ((m, v) :: rest)) with (S (List.length rest)).
    lia.
  - induction first as [|[m v] rest IH]; simpl; [reflexivity|].
    rewrite IH. now destruct v.
Qed.

Lemma SFltb_irrefl (s : SpecFloat.spec_float) : SpecFloat.SFltb s s = false.
Proof.
  unfold SpecFloat.SFltb, SpecFloat.SFcompare.
  destruct s as [[|]|[|]| |[|] m e]; try reflexivity;
    now rewrite Z.compare_refl, Pos.compare_refl.
Qed.

Lemma float_gt_strict (x : float) : Monitoring.float_gt x x = false.
Proof.
  unfold Monitoring.float_gt. rewrite FloatAxioms.ltb_spec.
  apply SFltb_irrefl.
Qed.

Lemma float_gt_nan (x : float) :
  Monitoring.float_gt nan x = false /\ Monitoring.float_gt x nan = false.
Proof.
  unfold Monitoring.float_gt. rewrite !FloatAxioms.ltb_spec.
  replace (FloatOps.Prim2SF nan) with SpecFloat.S754_nan by reflexivity.
  split; [|reflexivity].
  unfold SpecFloat.SFltb, SpecFloat.SFcompare.
  destruct (FloatOps.Prim2SF x) as [[|]|[|]| |[|] m e]; reflexivity.
Qed.

(** X27. On floats a breach is strict: an observation equal to its threshold is
    not reported, and neither is an observation that is NaN or one whose
    threshold is NaN. *)
Theorem breaches_are_strict
        (metrics : Py.dict (option float)) (thresholds : Py.dict float)
        (b : Monitoring.Breach float)
        (Hb : In b (Monitoring.evaluate_metrics Monitoring.float_gt metrics
                                                thresholds)) :
  Monitoring.value b <> Monitoring.threshold b
  /\ Monitoring.value b <> nan
  /\ Monitoring.threshold b <> nan.
Proof.
  apply evaluate_metrics_In in Hb. destruct Hb as (_ & _ & Hgt).
  repeat split; intros E; rewrite E in Hgt.
  - now rewrite float_gt_strict in Hgt.
  - now rewrite (proj1 (float_gt_nan _)) in Hgt.
  - now rewrite (proj2 (float_gt_nan _)) in Hgt.
Qed.

Lemma breaches_are_strict_witness :
  let metrics := [("CPUUtilization", Some 80.0%float);
                  ("MemoryUtilization", Some 80.5%float);
                  ("NetworkIn", Some nan)] in
  let b := Monitoring.mkBreach "MemoryUtilization" 80.5%float 80.0%float in
  Monitoring.evaluate_metrics Monitoring.float_gt metrics
                              Monitoring.DEFAULT_THRESHOLDS = [b]
  /\ Monitoring.value b <> Monitoring.threshold b.
Proof.
  intros metrics b.
  assert (H : Monitoring.evaluate_metrics Monitoring.float_gt metrics
                                          Monitoring.DEFAULT_THRESHOLDS = [b])
    by reflexivity.
  split; [exact H|].
  apply (breaches_are_strict metrics Monitoring.DEFAULT_THRESHOLDS b).
  rewrite H. now left.
Defined.

(** ** monitoring.py: collection and the metrics endpoints *)

Lemma load_global_datetime :
  Collector.load_global "datetime"
  = Collector.fail (Collector.NameError "datetime").
Proof. reflexivity. Qed.

Lemma fetch_metric_run (Client : Type)
      (get_metric_statistics :
         Client -> string -> string -> string -> datetime -> datetime ->
         nat -> list string -> Collector.C (Py.dict (list (Py.dict float))))
      (replace_microsecond_0 : datetime -> datetime)
      (client : Client) (resource : Resource.t)
      (results : Collector.Metrics) (metric : string) (w : World) :
  Collector.fetch_metric Client get_metric_statistics replace_microsecond_0
    client resource results metric w
  = (Collector.Raised (Collector.NameError "datetime"), w).
Proof.
  unfold Collector.fetch_metric, Collector.try_except.
  rewrite load_global_datetime. reflexivity.
Qed.

Lemma fetch_aws_metrics_run (Client : Type)
      (boto3_client : string -> string -> Collector.C Client)
      (get_metric_statistics :
         Client -> string -> string -> string -> datetime -> datetime ->
         nat -> list string -> Collector.C (Py.dict (list (Py.dict float))))
      (replace_microsecond_0 : datetime -> datetime)
      (resource : Resource.t) (metric : string) (rest : list string)
      (w : World) :
  Collector.fetch_aws_metrics Client boto3_client get_metric_statistics
    replace_microsecond_0 resource (metric :: rest) w
  = match boto3_client "cloudwatch" "us-east-1" w with
    | (Collector.Return _, w1) =>
        (Collector.Raised (Collector.NameError "datetime"), w1)
    | (Collector.Raised e, w1) => (Collector.Raised e, w1)
    end.
Proof.
  unfold Collector.fetch_aws_metrics, Collector.get_cloudwatch_client,
    Collector.then_.
  destruct (boto3_client "cloudwatch" "us-east-1" w) as [[client|e] w1];
    [|reflexivity].
  simpl. unfold Collector.then_. now rewrite fetch_metric_run.
Qed.

Lemma collect_unfetched (Client : Type)
      (boto3_client : string -> string -> Collector.C Client)
      (get_metric_statistics :
         Client -> string -> string -> string -> datetime -> datetime ->
         nat -> list string -> Collector.C (Py.dict (list (Py.dict float))))
      (replace_microsecond_0 : datetime -> datetime)
      (resource : Resource.t) (w : World) :
  fetched resource = false ->
  Collector.collect_and_evaluate_metrics_for_resource Client boto3_client
    get_metric_statistics replace_microsecond_0 resource w
  = (Collector.Return ([], []), w).
Proof.
  unfold fetched, Collector.collect_and_evaluate_metrics_for_resource.
  destruct (Resource.monitoring_enabled resource); simpl; [|reflexivity].
  intros ->. reflexivity.
Qed.

Lemma collect_fetched (Client : Type)
      (boto3_client : string -> string -> Collector.C Client)
      (get_metric_statistics :
         Client -> string -> string -> string -> datetime -> datetime ->
         nat -> list string -> Collector.C (Py.dict (list (Py.dict float))))
      (replace_microsecond_0 : datetime -> datetime)
      (resource : Resource.t) (w : World) :
  fetched resource = true ->
  Collector.collect_and_evaluate_metrics_for_resource Client boto3_client
    get_metric_statistics replace_microsecond_0 resource w
  = match boto3_client "cloudwatch" "us-east-1" w with
    | (Collector.Return _, w1) =>
        (Collector.Raised (Collector.NameError "datetime"), w1)
    | (Collector.Raised e, w1) => (Collector.Raised e, w1)
    end.
Proof.
  unfold fetched, Collector.collect_and_evaluate_metrics_for_resource.
  intros H. apply andb_true_iff in H. destruct H as [-> ->]. simpl.
  unfold Collector.then_, Monitoring.SUPPORTED_METRICS.
  rewrite fetch_aws_metrics_run.
  now destruct (boto3_client "cloudwatch" "us-east-1" w) as [[client|e] w1].
Qed.

Lemma collect_fetched_raises (Client : Type)
      (boto3_client : string -> string -> Collector.C Client)
      (get_metric_statistics :
         Client -> string -> string -> string -> datetime -> datetime ->
         nat -> list string -> Collector.C (Py.dict (list (Py.dict float))))
      (replace_microsecond_0 : datetime -> datetime)
      (resource : Resource.t) (w : World) :
  fetched resource = true ->
  exists e w',
    Collector.collect_and_evaluate_metrics_for_resource Client boto3_client
      get_metric_statistics replace_microsecond_0 resource w
    = (Collector.Raised e, w').
Proof.
  intros H. rewrite collect_fetched by exact H.
  destruct (boto3_client "cloudwatch" "us-east-1" w) as [[client|e] w1];
    eauto.
Qed.

(** X28. The metrics of a monitored AWS EC2 resource are never collected:
    [collect_and_evaluate_metrics_for_resource] raises for it, whatever the
    client library answers. When no client can be made it raises what
    [boto3.client] raised; otherwise it raises [NameError] for [datetime],
    a name the module does not bind, while it builds the arguments of the
    request for the first metric, so that CloudWatch is never asked. *)
Theorem monitored_ec2_never_collected (Client : Type)
        (boto3_client : string -> string -> Collector.C Client)
        (get_metric_statistics :
           Client -> string -> string -> string -> datetime -> datetime ->
           nat -> list string -> Collector.C (Py.dict (list (Py.dict float))))
        (replace_microsecond_0 : datetime -> datetime)
        (resource : Resource.t) (w : World)
        (Hmonitored : Resource.monitoring_enabled resource = true)
        (Hec2 : Collector.is_aws_ec2 resource = true) :
  let run := Collector.collect_and_evaluate_metrics_for_resource Client
               boto3_client get_metric_statistics replace_microsecond_0
               resource w in
  (forall client w1,
      boto3_client "cloudwatch" "us-east-1" w = (Collector.Return client, w1) ->
      run = (Collector.Raised (Collector.NameError "datetime"), w1))
  /\ (forall e w1,
         boto3_client "cloudwatch" "us-east-1" w = (Collector.Raised e, w1) ->
         run = (Collector.Raised e, w1))
  /\ (forall result w', run <> (Collector.Return result, w')).
Proof.
  assert (Hf : fetched resource = true)
    by (unfold fetched; now rewrite Hmonitored, Hec2).
  cbv zeta. rewrite collect_fetched by exact Hf.
  repeat split.
  - now intros client w1 ->.
  - now intros e w1 ->.
  - intros result w'.
    now destruct (boto3_client "cloudwatch" "us-east-1" w) as [[client|e] w1].
Qed.

Lemma monitored_ec2_never_collected_witness :
  let w := quiet_world sample_store true true in
  Resource.monitoring_enabled sample_resource = true
  /\ Collector.is_aws_ec2 sample_resource = true
  /\ Collector.collect_and_evaluate_metrics_for_resource unit sample_client
       sample_statistics (fun t => t) sample_resource w
     = (Collector.Raised (Collector.NameError "datetime"), w).
Proof.
  intros w. split; [reflexivity|]. split; [reflexivity|].
  exact (proj1 (monitored_ec2_never_collected unit sample_client
                  sample_statistics (fun t => t) sample_resource w
                  eq_refl eq_refl) tt w eq_refl).
Defined.

(** X29. What [GET /resources/{resource_id}/metrics] answers when the database
    does: 404 Not Found for an identifier that names no resource; for a
    resource that is not monitored, or is not an AWS EC2 instance, the
    identifier with no metric and no breach, the store left as it was; and
    for a monitored AWS EC2 instance never an answer, since collection
    raises. *)
Theorem get_resource_metrics_answer (Client : Type)
        (boto3_client : string -> string -> Collector.C Client)
        (get_metric_statistics :
           Client -> string -> string -> string -> datetime -> datetime ->
           nat -> list string -> Collector.C (Py.dict (list (Py.dict float))))
        (replace_microsecond_0 : datetime -> datetime)
        (resource_id : UUID) (w : World)
        (Hup : faults w 0%nat = false) :
  let run := Collector.get_resource_metrics Client boto3_client
               get_metric_statistics replace_microsecond_0 resource_id w in
  let w1 := with_session (with_faults w (stl (faults w))) [] in
  match find (fun r => N.eqb (Resource.id r) resource_id)
             (resources (db w)) with
  | None =>
      run = (Collector.Raised
               (Collector.Exn (HTTPException 404 "Resource not found.")), w1)
  | Some resource =>
      if fetched resource
      then forall out w', run <> (Collector.Return out, w')
      else run = (Collector.Return (Collector.mkOut resource_id [] []), w1)
  end.
Proof.
  cbv zeta.
  unfold Collector.get_resource_metrics, Collector.get_db, Collector.then_,
    Collector.lift, Crud.get_resource.
  destruct w as [d s c u f sm wh url rt]. simpl in *.
  run_monad. rewrite Hup. simpl.
  destruct (find (fun r => N.eqb (Resource.id r) resource_id) (resources d))
    as [resource|] eqn:Hfind; simpl; [|reflexivity].
  destruct (fetched resource) eqn:Hf.
  - intros out w'.
    destruct (collect_fetched_raises Client boto3_client get_metric_statistics
                replace_microsecond_0 resource
                (mkWorld d [] c u (fun k => f (S k)) sm wh url rt) Hf)
      as (e & w2 & ->).
    simpl. discriminate.
  - now rewrite collect_unfetched by exact Hf.
Qed.

Lemma get_resource_metrics_answer_witness :
  let w := quiet_world sample_fleet true true in
  faults w 0%nat = false
  /\ Collector.get_resource_metrics unit sample_client sample_statistics
       (fun t => t) 4 w
     = (Collector.Return (no_metrics sample_idle_resource),
        with_session (with_faults w (stl (faults w))) []).
Proof.
  intros w. split; [reflexivity|].
  exact (get_resource_metrics_answer unit sample_client sample_statistics
           (fun t => t) 4 w eq_refl).
Defined.

Lemma for_each_unfetched (Client : Type)
      (boto3_client : string -> string -> Collector.C Client)
      (get_metric_statistics :
         Client -> string -> string -> string -> datetime -> datetime ->
         nat -> list string -> Collector.C (Py.dict (list (Py.dict float))))
      (replace_microsecond_0 : datetime -> datetime)
      (page : list Resource.t) (results : list Collector.ResourceMetricsOut)
      (w : World) :
  existsb fetched page = false ->
  Collector.for_each page
    (fun results resource =>
       Collector.then_
         (Collector.collect_and_evaluate_metrics_for_resource Client
            boto3_client get_metric_statistics replace_microsecond_0 resource)
         (fun result =>
            Collector.unit_
              (results ++ [Collector.mkOut (Resource.id resource) (fst result)
                             (Collector.metric_results (snd result))])))
    results w
  = (Collector.Return (results ++ map no_metrics page), w).
Proof.
  revert results.
  induction page as [|resource rest IH]; intros results H; simpl.
  - now rewrite app_nil_r.
  - simpl in H. apply orb_false_iff in H. destruct H as [Hf Hrest].
    unfold Collector.then_ at 1. unfold Collector.then_ at 1.
    rewrite collect_unfetched by exact Hf. simpl.
    unfold Collector.unit_ at 1.
    rewrite IH by exact Hrest.
    now rewrite <- app_assoc.
Qed.

Lemma for_each_fetched (Client : Type)
      (boto3_client : string -> string -> Collector.C Client)
      (get_metric_statistics :
         Client -> string -> string -> string -> datetime -> datetime ->
         nat -> list string -> Collector.C (Py.dict (list (Py.dict float))))
      (replace_microsecond_0 : datetime -> datetime)
      (page : list Resource.t) (results : list Collector.ResourceMetricsOut)
      (w : World) :
  existsb fetched page = true ->
  exists e w',
    Collector.for_each page
      (fun results resource =>
         Collector.then_
           (Collector.collect_and_evaluate_metrics_for_resource Client
              boto3_client get_metric_statistics replace_microsecond_0
              resource)
           (fun result =>
              Collector.unit_
                (results ++ [Collector.mkOut (Resource.id resource)
                               (fst result)
                               (Collector.metric_results (snd result))])))
      results w
    = (Collector.Raised e, w').
Proof.
  revert results.
  induction page as [|resource rest IH]; intros results H; simpl in *.
  - discriminate.
  - unfold Collector.then_ at 1. unfold Collector.then_ at 1.
    destruct (fetched resource) eqn:Hf.
    + destruct (collect_fetched_raises Client boto3_client
                  get_metric_statistics replace_microsecond_0 resource w Hf)
        as (e & w' & ->).
      eauto.
    + rewrite collect_unfetched by exact Hf. simpl.
      unfold Collector.unit_ at 1. apply IH. exact H.
Qed.

(** X30. What [GET /resources/metrics] answers when the database does. When no
    resource of the listed page is a monitored AWS EC2 instance, it answers
    with one entry for each resource of the page, in the order of the
    listing, each with the identifier of its resource and no metric and no
    breach, and the store is left as it was. When one is, the request
    raises and answers for no resource at all. *)
Theorem get_all_resources_metrics_answer (Client : Type)
        (boto3_client : string -> string -> Collector.C Client)
        (get_metric_statistics :
           Client -> string -> string -> string -> datetime -> datetime ->
           nat -> list string -> Collector.C (Py.dict (list (Py.dict float))))
        (replace_microsecond_0 : datetime -> datetime)
        (skip limit : nat) (w : World)
        (Hup : faults w 0%nat = false) :
  let run := Collector.get_all_resources_metrics Client boto3_client
               get_metric_statistics replace_microsecond_0 skip limit w in
  let page := resources_page (db w) skip limit in
  if existsb fetched page
  then forall outs w', run <> (Collector.Return outs, w')
  else run = (Collector.Return (map no_metrics page),
              with_session (with_faults w (stl (faults w))) []).
Proof.
  cbv zeta.
  unfold Collector.get_all_resources_metrics, Collector.get_db,
    Collector.lift, Crud.get_resources, resources_page.
  unfold Collector.then_ at 1 3.
  rewrite query_page_run by exact Hup. rewrite filter_true.
  destruct (existsb fetched _) eqn:Hany.
  - intros outs w'.
    match goal with
    | |- context [Collector.for_each ?p ?body ?acc ?w0] =>
        destruct (for_each_fetched Client boto3_client get_metric_statistics
                    replace_microsecond_0 p acc w0 Hany) as (e & w2 & ->)
    end.
    discriminate.
  - match goal with
    | |- context [Collector.for_each ?p ?body ?acc ?w0] =>
        rewrite (for_each_unfetched Client boto3_client get_metric_statistics
                   replace_microsecond_0 p acc w0 Hany)
    end.
    reflexivity.
Qed.

Lemma get_all_resources_metrics_answer_witness :
  let w := quiet_world sample_fleet true true in
  faults w 0%nat = false
  /\ Collector.get_all_resources_metrics unit sample_client sample_statistics
       (fun t => t) 0 100 w
     = (Collector.Return [no_metrics sample_idle_resource],
        with_session (with_faults w (stl (faults w))) []).
Proof.
  intros w. split; [reflexivity|].
  exact (get_all_resources_metrics_answer unit sample_client
           sample_statistics (fun t => t) 0 100 w eq_refl).
Defined.
